(** * pyriser: the sectioned-text readers, embedded and checked against their specification

    The readers of the repository (das, dpx, output, shear7, tab and mds
    files) are Python classes whose parsing methods walk the lines of a text
    file and fill dictionaries.  Each method is embedded here as a function
    on an explicit state; a Python exception is a value of [result]; a
    Python [dict] is an insertion-ordered association list; a Python [str]
    is a [string] of code points below 256; a Python [float] is a binary64
    [spec_float] and [float(s)] rounds the decimal it reads to the nearest
    binary64 value, ties to even; [int(s)] reads no more digits than the
    interpreter's limit; a file is read in text mode, every line end read as
    a newline. *)

From Stdlib Require Import ZArith Lia Bool Ascii.
From Stdlib Require Import Floats DecimalString DecimalNat.
From stdpp Require Import base tactics option list strings.

(* A decimal such as 1.2 stands for the binary64 value nearest to it, as in
   Python. *)
#[local] Set Warnings "-inexact-float".

#[local] Open Scope Z_scope.
#[local] Open Scope nat_scope.

(** ** Exceptions *)

Inductive exn : Type :=
  | KeyError (key : string)
  | IndexError
  | ValueError
  | AttributeError
  | TypeError
  | NameError
  | AssertionError
  | PyException (msg : string).

Inductive result (A : Type) : Type :=
  | Ok (a : A)
  | Raise (e : exn).
Arguments Ok {A} a.
Arguments Raise {A} e.

#[global] Instance result_ret : MRet result := @Ok.
#[global] Instance result_bind : MBind result := fun A B f r =>
  match r with
  | Ok a => f a
  | Raise e => Raise e
  end.

#[global] Instance result_fmap : FMap result := fun A B f r =>
  match r with
  | Ok a => Ok (f a)
  | Raise e => Raise e
  end.

Definition is_ok {A} (r : result A) : bool :=
  match r with Ok _ => true | Raise _ => false end.

(** A [for] loop whose body may raise. *)
Fixpoint foldM {S A} (f : S -> A -> result S) (s : S) (l : list A) : result S :=
  match l with
  | [] => Ok s
  | x :: l' => s' ← f s x; foldM f s' l'
  end.

(** [[g(x) for x in l]] where [g] may raise. *)
Fixpoint mapM_result {A B} (g : A -> result B) (l : list A) : result (list B) :=
  match l with
  | [] => Ok []
  | x :: l' => y ← g x; ys ← mapM_result g l'; Ok (y :: ys)
  end.

(** [l[i]] for a Python list: negative indices count from the end. *)
Definition py_index {A} (l : list A) (i : Z) : result A :=
  let j := if (i <? 0)%Z then (i + Z.of_nat (length l))%Z else i in
  if (j <? 0)%Z then Raise IndexError
  else match l !! Z.to_nat j with
       | Some x => Ok x
       | None => Raise IndexError
       end.

(** ** Python strings *)

Module PyStr.

Definition eqb (s t : string) : bool := bool_decide (s = t).

(** [str.isspace] on one code point below 256. *)
Definition is_space (c : ascii) : bool :=
  let n := nat_of_ascii c in
  ((9 <=? n) && (n <=? 13)) || ((28 <=? n) && (n <=? 32))
  || (n =? 133) || (n =? 160).

Definition is_digit (c : ascii) : bool :=
  let n := nat_of_ascii c in (48 <=? n) && (n <=? 57).

Definition digit_val (c : ascii) : Z := Z.of_nat (nat_of_ascii c - 48).

(** [str.lower] on one code point below 256. *)
Definition lower_char (c : ascii) : ascii :=
  let n := nat_of_ascii c in
  if ((65 <=? n) && (n <=? 90))
     || ((192 <=? n) && (n <=? 222) && negb (n =? 215))
  then ascii_of_nat (n + 32) else c.

Fixpoint lower (s : string) : string :=
  match s with
  | EmptyString => EmptyString
  | String c s' => String (lower_char c) (lower s')
  end.

Fixpoint lstrip (s : string) : string :=
  match s with
  | EmptyString => EmptyString
  | String c s' => if is_space c then lstrip s' else s
  end.

Fixpoint rstrip (s : string) : string :=
  match s with
  | EmptyString => EmptyString
  | String c s' =>
      match rstrip s' with
      | EmptyString => if is_space c then EmptyString else String c EmptyString
      | r => String c r
      end
  end.

Definition strip (s : string) : string := lstrip (rstrip s).

(** [s.startswith(p)]. *)
Fixpoint startswith (p s : string) : bool :=
  match p, s with
  | EmptyString, _ => true
  | String a p', String b s' => bool_decide (a = b) && startswith p' s'
  | String _ _, EmptyString => false
  end.

(** [sub in s]. *)
Fixpoint contains (sub s : string) : bool :=
  startswith sub s ||
  match s with
  | EmptyString => false
  | String _ s' => contains sub s'
  end.

(** [s[:n]] and [s[n:]] for [n >= 0]. *)
Fixpoint take (n : nat) (s : string) : string :=
  match n, s with
  | S n', String c s' => String c (take n' s')
  | _, _ => EmptyString
  end.

Fixpoint drop (n : nat) (s : string) : string :=
  match n, s with
  | S n', String _ s' => drop n' s'
  | _, _ => s
  end.

Fixpoint rev_to (acc : string) (s : string) : string :=
  match s with
  | EmptyString => acc
  | String c s' => rev_to (String c acc) s'
  end.
Definition rev (s : string) : string := rev_to EmptyString s.

(** [s.split(sep)] for a non-empty [sep]: the separators are found from
    the left and do not overlap.  [skip] counts the characters of a
    separator still to pass over; [cur] is the field read so far,
    reversed. *)
Fixpoint split_go (sep : string) (skip : nat) (cur : string) (s : string)
  : list string :=
  match s with
  | EmptyString => [rev cur]
  | String c s' =>
      match skip with
      | S k => split_go sep k cur s'
      | O =>
          if startswith sep s
          then rev cur :: split_go sep (String.length sep - 1) EmptyString s'
          else split_go sep 0 (String c cur) s'
      end
  end.
Definition split (sep s : string) : list string :=
  split_go sep 0 EmptyString s.

(** [s.split()]: fields separated by runs of white space, none empty. *)
Fixpoint split_ws_go (cur : string) (s : string) : list string :=
  match s with
  | EmptyString =>
      match cur with EmptyString => [] | _ => [rev cur] end
  | String c s' =>
      if is_space c
      then match cur with
           | EmptyString => split_ws_go EmptyString s'
           | _ => rev cur :: split_ws_go EmptyString s'
           end
      else split_ws_go (String c cur) s'
  end.
Definition split_ws (s : string) : list string := split_ws_go EmptyString s.

(** [s.replace(old, new)] for a non-empty [old]. *)
Fixpoint replace_go (old new : string) (skip : nat) (s : string) : string :=
  match s with
  | EmptyString => EmptyString
  | String c s' =>
      match skip with
      | S k => replace_go old new k s'
      | O =>
          if startswith old s
          then new +:+ replace_go old new (String.length old - 1) s'
          else String c (replace_go old new 0 s')
      end
  end.
Definition replace (old new s : string) : string := replace_go old new 0 s.

(** [s.count(sub)] for a non-empty [sub]. *)
Fixpoint count_go (sub : string) (skip : nat) (s : string) : nat :=
  match s with
  | EmptyString => 0
  | String _ s' =>
      match skip with
      | S k => count_go sub k s'
      | O =>
          if startswith sub s
          then S (count_go sub (String.length sub - 1) s')
          else count_go sub 0 s'
      end
  end.
Definition count (sub s : string) : nat := count_go sub 0 s.

(** What a file opened in text mode hands to the program: each line end of
    the file, written as a newline, as a carriage return or as the two of
    them, is read as one newline. *)
Fixpoint universal_newlines (s : string) : string :=
  match s with
  | EmptyString => EmptyString
  | String c s' =>
      if bool_decide (c = "013"%char) then
        match s' with
        | String "010"%char _ => universal_newlines s'
        | _ => String "010"%char (universal_newlines s')
        end
      else String c (universal_newlines s')
  end.

(** A text cut after each newline. *)
Fixpoint readlines_go (cur : string) (s : string) : list string :=
  match s with
  | EmptyString =>
      match cur with EmptyString => [] | _ => [rev cur] end
  | String c s' =>
      if bool_decide (c = "010"%char)
      then rev (String c cur) :: readlines_go EmptyString s'
      else readlines_go (String c cur) s'
  end.

(** The lines [readlines] and repeated [readline] give for a file opened in
    text mode whose text is [text]. *)
Definition readlines (text : string) : list string :=
  readlines_go EmptyString (universal_newlines text).

Definition newline : string := String "010"%char EmptyString.
Definition tab : string := String "009"%char EmptyString.
Definition dquote : string := String (ascii_of_nat 34) EmptyString.

(** [sep.join(l)]. *)
Fixpoint join (sep : string) (l : list string) : string :=
  match l with
  | [] => EmptyString
  | [x] => x
  | x :: l' => x +:+ sep +:+ join sep l'
  end.

(** [str(n)] for a non-negative [int]. *)
Definition of_nat (n : nat) : string :=
  NilEmpty.string_of_uint (Nat.to_uint n).

End PyStr.

(** ** Python numbers read from text *)

Module PyNum.
Import PyStr.

(** A Python [float]: IEEE 754 binary64. *)
Definition float : Type := spec_float.
Definition prec : Z := 53.
Definition emax : Z := 1024.

Definition fadd (x y : float) : float := SFadd prec emax x y.

(** The binary64 value nearest to [m * 10 ^ e] (ties to even), signed. *)
Definition of_decimal (neg : bool) (m : Z) (e : Z) : float :=
  match m with
  | Z0 => S754_zero neg
  | Zpos p =>
      if (0 <=? e)%Z
      then binary_round prec emax neg (Pos.mul p (Z.to_pos (10 ^ e))) 0
      else
        let '(q, e', l) :=
          SFdiv_core_binary prec emax (Zpos p) 0 (10 ^ (- e)) 0 in
        binary_round_aux prec emax neg q e' l
  | Zneg _ => S754_nan
  end.

(** A run of decimal digits in which single underscores may separate
    digits: its value, the number of digits, and what follows it. *)
Fixpoint digits_go (acc : Z) (n : nat) (s : string) : Z * nat * string :=
  match s with
  | EmptyString => (acc, n, s)
  | String c s' =>
      if is_digit c then digits_go (10 * acc + digit_val c)%Z (S n) s'
      else if bool_decide (c = "_"%char) && (0 <? n) then
        match s' with
        | String c2 s'' =>
            if is_digit c2
            then digits_go (10 * acc + digit_val c2)%Z (S n) s''
            else (acc, n, s)
        | EmptyString => (acc, n, s)
        end
      else (acc, n, s)
  end.

(** An optional sign: whether it is a minus, and what follows it. *)
Definition sign_of (s : string) : bool * string :=
  match s with
  | String "-" s' => (true, s')
  | String "+" s' => (false, s')
  | _ => (false, s)
  end.

(** The white space [int] and [float] pass over at both ends of their
    text: the six of ASCII, and the two other spaces below 256.  (The
    separators 28 to 31, which [str.strip] removes, are not among them.) *)
Definition is_blank (c : ascii) : bool :=
  let n := nat_of_ascii c in
  ((9 <=? n) && (n <=? 13)) || (n =? 32) || (n =? 133) || (n =? 160).

Fixpoint lstrip_blank (s : string) : string :=
  match s with
  | EmptyString => EmptyString
  | String c s' => if is_blank c then lstrip_blank s' else s
  end.

Fixpoint rstrip_blank (s : string) : string :=
  match s with
  | EmptyString => EmptyString
  | String c s' =>
      match rstrip_blank s' with
      | EmptyString => if is_blank c then EmptyString else String c EmptyString
      | r => String c r
      end
  end.

Definition strip_blank (s : string) : string := lstrip_blank (rstrip_blank s).

(** [sys.get_int_max_str_digits()]: the most digits [int] reads. *)
Definition max_str_digits : nat := 4300.

(** [int(s)] in base ten; [None] stands for [ValueError], which a text of
    more than [max_str_digits] digits raises too. *)
Definition int_of_string (s : string) : option Z :=
  let '(neg, body) := sign_of (strip_blank s) in
  let '(v, n, rest) := digits_go 0 0 body in
  if (0 <? n) && eqb rest "" && (n <=? max_str_digits)
  then Some (if neg then (- v)%Z else v)
  else None.

(** The exponent part of a float literal, when there is one. *)
Definition exponent_of (s : string) : option Z :=
  match s with
  | EmptyString => Some 0%Z
  | String c s' =>
      if bool_decide (c = "e"%char) || bool_decide (c = "E"%char) then
        let '(neg, body) := sign_of s' in
        let '(v, n, rest) := digits_go 0 0 body in
        if (0 <? n) && eqb rest "" then Some (if neg then (- v)%Z else v)
        else None
      else None
  end.

(** [float(s)]; [None] stands for [ValueError]. *)
Definition float_of_string (s : string) : option float :=
  let '(neg, body) := sign_of (strip_blank s) in
  let low := lower body in
  if eqb low "inf" || eqb low "infinity" then Some (S754_infinity neg)
  else if eqb low "nan" then Some S754_nan
  else
    let '(i, ni, r1) := digits_go 0 0 body in
    let '(f, nf, r2) :=
      match r1 with
      | String "." r => digits_go 0 0 r
      | _ => (0%Z, 0, r1)
      end in
    if (0 <? ni + nf) then
      match exponent_of r2 with
      | Some e =>
          Some (of_decimal neg (i * 10 ^ Z.of_nat nf + f)
                  (e - Z.of_nat nf))
      | None => None
      end
    else None.

Definition py_int (s : string) : result Z :=
  match int_of_string s with Some z => Ok z | None => Raise ValueError end.

Definition py_float (s : string) : result float :=
  match float_of_string s with Some x => Ok x | None => Raise ValueError end.

(** Equality of two floats as data (not Python's [==]). *)
Definition float_eqb (x y : float) : bool :=
  match x, y with
  | S754_zero a, S754_zero b => Bool.eqb a b
  | S754_infinity a, S754_infinity b => Bool.eqb a b
  | S754_nan, S754_nan => true
  | S754_finite a m e, S754_finite b n f =>
      Bool.eqb a b && (m =? n)%positive && (e =? f)%Z
  | _, _ => false
  end.

(** [repr(x)]: the shortest decimal that [float] reads back as [x], the
    nearest to [x] when there are several. *)

(** The position of the decimal point of [num / den]: the [d] with
    [10 ^ (d - 1) <= num / den < 10 ^ d]. *)
Fixpoint decpt_below (fuel : nat) (num den : Z) (j : Z) : Z :=
  match fuel with
  | O => j
  | S fuel' =>
      if (den <=? num * 10 ^ j)%Z then (1 - j)%Z
      else decpt_below fuel' num den (j + 1)%Z
  end.

Definition decimal_digits (n : Z) : string :=
  NilEmpty.string_of_uint (N.to_uint (Z.to_N n)).

Definition decpt_of (num den : Z) : Z :=
  if (den <=? num)%Z
  then Z.of_nat (String.length (decimal_digits (num / den)))
  else decpt_below 400 num den 1.

(** The digits of the decimal with [n] significant digits that reads back
    as the positive float [x = num / den], when there is one. *)
Definition digits_at (x : float) (num den d : Z) (n : Z) : option Z :=
  let s := (n - d)%Z in
  let tn := if (0 <=? s)%Z then (num * 10 ^ s)%Z else num in
  let td := if (0 <=? s)%Z then den else (den * 10 ^ (- s))%Z in
  let lo := (tn / td)%Z in
  let r := (tn mod td)%Z in
  let hi := (lo + 1)%Z in
  let lo_ok := float_eqb (of_decimal false lo (- s)) x in
  let hi_ok := negb (r =? 0)%Z && float_eqb (of_decimal false hi (- s)) x in
  match lo_ok, hi_ok with
  | true, true =>
      match (2 * r ?= td)%Z with
      | Lt => Some lo
      | Gt => Some hi
      | Eq => Some (if Z.even lo then lo else hi)
      end
  | true, false => Some lo
  | false, true => Some hi
  | false, false => None
  end.

Fixpoint shortest_go (fuel : nat) (x : float) (num den d : Z) (n : Z) : Z * Z :=
  match fuel with
  | O => (num / den, n)%Z
  | S fuel' =>
      match digits_at x num den d n with
      | Some ds => (ds, n)
      | None => shortest_go fuel' x num den d (n + 1)%Z
      end
  end.

Fixpoint strip_zeros (fuel : nat) (ds : Z) : Z :=
  match fuel with
  | O => ds
  | S fuel' =>
      if (0 <? ds)%Z && (ds mod 10 =? 0)%Z then strip_zeros fuel' (ds / 10)%Z
      else ds
  end.

Fixpoint zeros (n : nat) : string :=
  match n with O => EmptyString | S n' => String "0" (zeros n') end.

(** The text of the digits [ds] with the decimal point after the first
    [decpt] of them, as [repr] lays it out. *)
Definition format_short (ds : string) (decpt : Z) : string :=
  let n := Z.of_nat (String.length ds) in
  if (decpt <=? -4)%Z || (16 <? decpt)%Z then
    let e := (decpt - 1)%Z in
    let ea := decimal_digits (Z.abs e) in
    take 1 ds +:+ (if (1 <? n)%Z then "." +:+ drop 1 ds else "")
    +:+ "e" +:+ (if (e <? 0)%Z then "-" else "+")
    +:+ (if (String.length ea <? 2)%nat then "0" +:+ ea else ea)
  else if (decpt <=? 0)%Z then "0." +:+ zeros (Z.to_nat (- decpt)) +:+ ds
  else if (n <=? decpt)%Z then ds +:+ zeros (Z.to_nat (decpt - n)) +:+ ".0"
  else take (Z.to_nat decpt) ds +:+ "." +:+ drop (Z.to_nat decpt) ds.

Definition float_repr (x : float) : string :=
  match x with
  | S754_nan => "nan"
  | S754_infinity s => if s then "-inf" else "inf"
  | S754_zero s => if s then "-0.0" else "0.0"
  | S754_finite s m e =>
      let num := if (0 <=? e)%Z then (Zpos m * 2 ^ e)%Z else Zpos m in
      let den := if (0 <=? e)%Z then 1%Z else (2 ^ (- e))%Z in
      let d := decpt_of num den in
      let '(ds, n) := shortest_go 17 (S754_finite false m e) num den d 1 in
      (* [ds] has [n] digits, or [n + 1] when it was rounded up to a power
         of ten *)
      let len := Z.of_nat (String.length (decimal_digits ds)) in
      let d' := (d + (len - n))%Z in
      (if s then "-" else "") +:+
      format_short (decimal_digits (strip_zeros 20 ds)) d'
  end.

End PyNum.

(** ** Python dictionaries

    A [dict] keeps its keys in insertion order; assigning to a key that is
    present replaces its value where it stands. *)

Definition dict (K V : Type) : Type := list (K * V).

Section Dict.
Context {K V : Type} `{EqDecision K}.

Fixpoint dict_get (k : K) (d : dict K V) : option V :=
  match d with
  | [] => None
  | (k', v) :: d' => if decide (k = k') then Some v else dict_get k d'
  end.

(** [d[k] = v]. *)
Fixpoint dict_set (k : K) (v : V) (d : dict K V) : dict K V :=
  match d with
  | [] => [(k, v)]
  | (k', v') :: d' =>
      if decide (k = k') then (k, v) :: d' else (k', v') :: dict_set k v d'
  end.

(** [k in d]. *)
Definition dict_mem (k : K) (d : dict K V) : bool :=
  match dict_get k d with Some _ => true | None => false end.

(** [list(d.keys())]. *)
Definition dict_keys (d : dict K V) : list K := map fst d.

End Dict.

(** [d[k]], raising [KeyError] when [k] is absent; [show] prints the key. *)
Definition getitem {K V} `{EqDecision K} (show : K -> string)
    (k : K) (d : dict K V) : result V :=
  match dict_get k d with
  | Some v => Ok v
  | None => Raise (KeyError (show k))
  end.

(** The star sections of one dollar section: header line to data lines. *)
Definition sections : Type := dict string (list string).

(** [outer[k][star] = []]. *)
Definition star_assign {K} `{EqDecision K} (show : K -> string)
    (k : K) (star : string) (outer : dict K sections) : result (dict K sections) :=
  inner ← getitem show k outer;
  Ok (dict_set k (dict_set star [] inner) outer).

(** [outer[k][star].append(line)]. *)
Definition star_append {K} `{EqDecision K} (show : K -> string)
    (k : K) (star : string) (line : string) (outer : dict K sections)
  : result (dict K sections) :=
  inner ← getitem show k outer;
  lines ← getitem id star inner;
  Ok (dict_set k (dict_set star (lines ++ [line]) inner) outer).

(** ** das_file_reader.py: class DasFile *)

Module Das.

Record DasFile : Type := {
  das_data : dict string sections;
  models : dict nat sections;
  no_models : nat;
  load_cases : dict nat sections;
  no_load_cases : nat;
  units : option string;
  length_unit : option string;
  analysis_type : option string;
  water_depth : option PyNum.float;
  errors : list string
}.

(** [setup_variables]. *)
Definition setup_variables : DasFile := {|
  das_data := [("headers", [("headers", [])])];
  models := [];
  no_models := 0;
  load_cases := [];
  no_load_cases := 0;
  units := None;
  length_unit := None;
  analysis_type := None;
  water_depth := None;
  errors := []
|}.

Definition set_das_data (f : dict string sections -> dict string sections)
    (s : DasFile) : DasFile :=
  {| das_data := f (das_data s); models := models s; no_models := no_models s;
     load_cases := load_cases s; no_load_cases := no_load_cases s;
     units := units s; length_unit := length_unit s;
     analysis_type := analysis_type s; water_depth := water_depth s;
     errors := errors s |}.

Definition set_models (n : nat) (m : dict nat sections) (s : DasFile) : DasFile :=
  {| das_data := das_data s; models := m; no_models := n;
     load_cases := load_cases s; no_load_cases := no_load_cases s;
     units := units s; length_unit := length_unit s;
     analysis_type := analysis_type s; water_depth := water_depth s;
     errors := errors s |}.

Definition set_load_cases (n : nat) (m : dict nat sections) (s : DasFile) : DasFile :=
  {| das_data := das_data s; models := models s; no_models := no_models s;
     load_cases := m; no_load_cases := n;
     units := units s; length_unit := length_unit s;
     analysis_type := analysis_type s; water_depth := water_depth s;
     errors := errors s |}.

(** [read_das_file]: the lines kept in [self.data].  A line is dropped when
    it is empty once its trailing white space is removed, or when its first
    character (before leading white space is removed) is [c] or [C]. *)
Definition keep_line (line : string) : option string :=
  match PyStr.rstrip line with
  | EmptyString => None
  | String c _ as l =>
      if bool_decide (PyStr.lower_char c = "c"%char) then None
      else Some (PyStr.rstrip (PyStr.strip l))
  end.

Definition read_das_file (text : string) : list string :=
  omap keep_line (PyStr.readlines text).

(** The loop variables of [parse_das_file_data] beside [self]. *)
Record cursor : Type := {
  self : DasFile;
  dollar_section : string;
  star_section : string
}.

Definition first_char (line : string) : result ascii :=
  match line with
  | String c _ => Ok c
  | EmptyString => Raise IndexError
  end.

(** One turn of the loop of [parse_das_file_data]. *)
Definition parse_line (cur : cursor) (line : string) : result cursor :=
  c ← first_char line;
  let s := self cur in
  if bool_decide (c = "$"%char) then
    let dollar := line in
    let s1 :=
      if bool_decide (dollar = "$MODEL")
      then set_models (no_models s + 1)
             (dict_set (no_models s + 1) [] (models s)) s
      else s in
    let s2 :=
      if bool_decide (dollar = "$LOAD CASE")
      then set_load_cases (no_load_cases s1 + 1)
             (dict_set (no_load_cases s1 + 1) [] (load_cases s1)) s1
      else set_das_data (dict_set dollar []) s1 in
    Ok {| self := s2; dollar_section := dollar;
          star_section := star_section cur |}
  else if bool_decide (c = "*"%char) then
    let star := line in
    s' ←
      (if bool_decide (dollar_section cur = "$MODEL") then
         m ← star_assign PyStr.of_nat (no_models s) star (models s);
         Ok (set_models (no_models s) m s)
       else if bool_decide (dollar_section cur = "$LOAD CASE") then
         m ← star_assign PyStr.of_nat (no_load_cases s) star (load_cases s);
         Ok (set_load_cases (no_load_cases s) m s)
       else
         d ← star_assign id (dollar_section cur) star (das_data s);
         Ok (set_das_data (fun _ => d) s));
    Ok {| self := s'; dollar_section := dollar_section cur;
          star_section := star |}
  else
    s' ←
      (if bool_decide (dollar_section cur = "$MODEL") then
         m ← star_append PyStr.of_nat (no_models s) (star_section cur) line
               (models s);
         Ok (set_models (no_models s) m s)
       else if bool_decide (dollar_section cur = "$LOAD CASE") then
         m ← star_append PyStr.of_nat (no_load_cases s) (star_section cur)
               line (load_cases s);
         Ok (set_load_cases (no_load_cases s) m s)
       else
         d ← star_append id (dollar_section cur) (star_section cur) line
               (das_data s);
         Ok (set_das_data (fun _ => d) s));
    Ok {| self := s'; dollar_section := dollar_section cur;
          star_section := star_section cur |}.

Definition start (s : DasFile) : cursor :=
  {| self := s; dollar_section := "headers"; star_section := "headers" |}.

(** [parse_das_file_data], on [self.data = data]. *)
Definition parse_das_file_data (data : list string) (s : DasFile)
  : result DasFile :=
  cur ← foldM parse_line (start s) data;
  Ok (self cur).

(** [__init__], up to the water depth: the first methods it calls. *)

Definition set_units (u : option string) (lu : option string)
    (errs : list string) (s : DasFile) : DasFile :=
  {| das_data := das_data s; models := models s; no_models := no_models s;
     load_cases := load_cases s; no_load_cases := no_load_cases s;
     units := u; length_unit := lu;
     analysis_type := analysis_type s; water_depth := water_depth s;
     errors := errs |}.

Definition set_analysis_type (t : option string) (s : DasFile) : DasFile :=
  {| das_data := das_data s; models := models s; no_models := no_models s;
     load_cases := load_cases s; no_load_cases := no_load_cases s;
     units := units s; length_unit := length_unit s;
     analysis_type := t; water_depth := water_depth s;
     errors := errors s |}.

Definition set_water_depth (w : option PyNum.float) (s : DasFile) : DasFile :=
  {| das_data := das_data s; models := models s; no_models := no_models s;
     load_cases := load_cases s; no_load_cases := no_load_cases s;
     units := units s; length_unit := length_unit s;
     analysis_type := analysis_type s; water_depth := w;
     errors := errors s |}.

Definition units_dict : dict string (dict string string) :=
  [("imperial", [("length", "ft")]); ("metric", [("length", "m")])].

(** The last value of [key=value] among the lines [ds]:
    [for d in ds: if key in d: v = d.split('=')[1].strip()]. *)
Definition scan_key (key : string) (v0 : option string) (ds : list string)
  : result (option string) :=
  foldM (fun v d =>
           if PyStr.contains key d
           then x ← py_index (PyStr.split "=" d) 1; Ok (Some (PyStr.strip x))
           else Ok v) v0 ds.

(** A Python string or [None] taken as a condition. *)
Definition truthy (u : option string) : bool :=
  match u with
  | Some (String _ _) => true
  | _ => false
  end.

(** [get_units]: guarded on the presence of [$ANALYSIS] and of [*UNITS]. *)
Definition get_units (s : DasFile) : result DasFile :=
  u ← match dict_get "$ANALYSIS" (das_data s) with
      | Some a =>
          match dict_get "*UNITS" a with
          | Some ds => scan_key "UNITS=" (units s) ds
          | None => Ok (units s)
          end
      | None => Ok (units s)
      end;
  if truthy u then
    lu ← getitem id (PyStr.lower (default "" u)) units_dict;
    l ← getitem id "length" lu;
    Ok (set_units u (Some l) (errors s) s)
  else Ok (set_units u (length_unit s) (errors s ++ ["Units not found"]) s).

(** [get_analysis_type]: [self.das_data['$ANALYSIS']] is read unguarded. *)
Definition get_analysis_type (s : DasFile) : result DasFile :=
  a ← getitem id "$ANALYSIS" (das_data s);
  t ← match dict_get "*ANALYSIS TYPE" a with
      | Some ds => scan_key "TYPE=" (analysis_type s) ds
      | None => Ok (analysis_type s)
      end;
  Ok (set_analysis_type t s).

(** [process_water_depth(model)]. *)
Definition process_water_depth (model : nat) (s : DasFile)
  : result (option PyNum.float) :=
  m ← getitem PyStr.of_nat model (models s);
  match dict_get "*OCEAN" m with
  | Some ls =>
      l0 ← py_index ls 0;
      x ← py_index (PyStr.split "," l0) 0;
      w ← PyNum.py_float x;
      Ok (Some w)
  | None => Ok None
  end.

Definition init_to_water_depth (text : string) : result DasFile :=
  s ← parse_das_file_data (read_das_file text) setup_variables;
  s ← get_units s;
  s ← get_analysis_type s;
  w ← process_water_depth 1 s;
  Ok (set_water_depth w s).

(** The first lines of the loop body of [gen_load_case_summary]: the name of
    a load case, read from its [*DIRECTORY] section, unguarded. *)
Definition load_case_name (lc : sections) : result (option string) :=
  ds ← getitem id "*DIRECTORY" lc;
  foldM (fun name d =>
           if PyStr.contains "DIRECTORY=" d
           then x ← py_index (PyStr.split "DIRECTORY=" d) 1;
                Ok (Some (PyStr.replace PyStr.dquote "" (PyStr.strip x)))
           else Ok name) None ds.

(** [range(a, b)]. *)
Definition py_range (a b : Z) : list Z :=
  map (fun k => (a + Z.of_nat k)%Z) (seq 0 (Z.to_nat (b - a))).

(** The elements one row of [*ELEMENT SETS] names. *)
Definition element_row (e : string) : result (list Z) :=
  if PyStr.contains "GEN=" e then
    let gen := PyStr.split "," (PyStr.replace "GEN=" "" e) in
    g0 ← py_index gen 0; a ← PyNum.py_int g0;
    g1 ← py_index gen 1; b ← PyNum.py_int g1;
    Ok (py_range a (b + 1))
  else mapM_result PyNum.py_int (PyStr.split "," e).

(** One turn of the loop of [process_element_sets]; the state is the
    current [set] and [element_sets]. *)
Definition element_step (st : string * dict string (list Z)) (e : string)
  : result (string * dict string (list Z)) :=
  let '(set, element_sets) := st in
  if PyStr.eqb (PyStr.take 4 e) "SET=" then
    let set' := PyStr.strip (PyStr.drop 4 e) in
    Ok (set', dict_set set' [] element_sets)
  else if negb (PyStr.eqb set "") then
    xs ← element_row e;
    old ← getitem id set element_sets;
    Ok (set, dict_set set (old ++ xs) element_sets)
  else Ok st.

Definition element_loop (data : list string)
  : result (string * dict string (list Z)) :=
  foldM element_step ("", []) data.

(** [process_element_sets(model)]; it returns [None] when the model has no
    [*ELEMENT SETS] section. *)
Definition process_element_sets (model : nat) (s : DasFile)
  : result (option (dict string (list Z))) :=
  m ← getitem PyStr.of_nat model (models s);
  match dict_get "*ELEMENT SETS" m with
  | Some data => st ← element_loop data; Ok (Some st.2)
  | None => Ok None
  end.

(** One entry of [hydro_sets]; [coefficients] holds the values of the keys
    [coeffs], in their order. *)
Record hydro_entry : Type := {
  hydro_Type : option string;
  hydro_Diameter : option string;
  hydro_Option : option string;
  coefficients : list (option PyNum.float)
}.

Definition coeffs : list string :=
  ["Normal Drag"; "Tangential Drag"; "Normal Inertia"; "Normal Added Mass";
   "Tangential Added Mass"; "Drag Lift"].

Definition new_entry (t d o : option string) : hydro_entry :=
  {| hydro_Type := t; hydro_Diameter := d; hydro_Option := o;
     coefficients := replicate (length coeffs) None |}.

(** The locals of [process_hydro_sets]. *)
Record hydro_state : Type := {
  hydro_sets : dict string hydro_entry;
  option_ : option string;
  diameter : option string;
  hydro_type : option string;
  set_name : option string
}.

Definition hydro_start : hydro_state :=
  {| hydro_sets := []; option_ := None; diameter := None;
     hydro_type := None; set_name := None |}.

(** [for idx, c in enumerate(cs): hydro_sets[key][coeffs[idx]] = float(c)],
    from index [idx]. *)
Fixpoint set_coefficients (key : string) (idx : nat) (cs : list string)
    (hs : dict string hydro_entry) : result (dict string hydro_entry) :=
  match cs with
  | [] => Ok hs
  | c :: cs' =>
      x ← PyNum.py_float c;
      en ← getitem id key hs;
      _ ← py_index coeffs (Z.of_nat idx);
      set_coefficients key (S idx) cs'
        (dict_set key
           {| hydro_Type := hydro_Type en; hydro_Diameter := hydro_Diameter en;
              hydro_Option := hydro_Option en;
              coefficients := <[idx := Some x]> (coefficients en) |} hs)
  end.

(** One turn of the inner loop of [process_hydro_sets]. *)
Definition hydro_step (st : hydro_state) (s : string) : result hydro_state :=
  if PyStr.contains "SET=" s then
    let s := PyStr.replace "SET=" "" s in
    n ← py_index (PyStr.split "," s) 0;
    let name := PyStr.strip n in
    t ← (if PyStr.contains "," s
         then p ← py_index (PyStr.split "," s) 1;
              Ok (Some (PyStr.lower (PyStr.replace "TYPE=" "" (PyStr.strip p))))
         else Ok (hydro_type st));
    match t with
    | None => Raise AttributeError
    | Some ty =>
        let hs :=
          if PyStr.eqb (PyStr.lower ty) "constant"
          then dict_set name (new_entry t (diameter st) (option_ st))
                 (hydro_sets st)
          else hydro_sets st in
        Ok {| hydro_sets := hs; option_ := option_ st; diameter := diameter st;
              hydro_type := t; set_name := Some name |}
    end
  else if PyStr.contains "DIAMETER=" s then
    d ← py_index (PyStr.split "DIAMETER=" s) 1;
    Ok {| hydro_sets := hydro_sets st; option_ := option_ st;
          diameter := Some (PyStr.strip d);
          hydro_type := hydro_type st; set_name := set_name st |}
  else if PyStr.contains "OPTION=" s then
    o ← py_index (PyStr.split "OPTION=" s) 1;
    Ok {| hydro_sets := hydro_sets st; option_ := Some (PyStr.strip o);
          diameter := diameter st;
          hydro_type := hydro_type st; set_name := set_name st |}
  else
    hs ←
      (if bool_decide (hydro_type st = Some "constant") then
         match set_name st with
         | Some name =>
             set_coefficients name 0 (PyStr.split "," s) (hydro_sets st)
         | None =>
             _ ← PyNum.py_float (default "" (head (PyStr.split "," s)));
             Raise NameError
         end
       else
         r ← py_index (PyStr.split "," s) 0;
         reynolds ← PyNum.py_float r;
         match set_name st with
         | Some name =>
             let key := name +:+ " Re - " +:+ PyNum.float_repr reynolds in
             set_coefficients key 0 (tail (PyStr.split "," s))
               (dict_set key
                  (new_entry (hydro_type st) (diameter st) (option_ st))
                  (hydro_sets st))
         | None => Raise NameError
         end);
    Ok {| hydro_sets := hs; option_ := option_ st; diameter := diameter st;
          hydro_type := hydro_type st; set_name := set_name st |}.


End Das.

(** ** dpx_reader.py: convert_to_number *)

Module Dpx.

(** What [convert_to_number] may return: a float ([np.nan] is one), [None],
    or the string it was given. *)
Inductive value : Type :=
  | VFloat (x : PyNum.float)
  | VNone
  | VStr (s : string).

Definition convert_to_number (s : string) (return_none return_np_nan : bool)
  : result value :=
  if return_none && return_np_nan
  then Raise (PyException "Cannot return both return_none and return_np_nan")
  else
    match PyNum.float_of_string s with
    | Some x => Ok (VFloat x)
    | None =>
        if return_none then Ok VNone
        else if return_np_nan then Ok (VFloat S754_nan)
        else Ok (VStr s)
    end.

End Dpx.

(** ** shear7_file_reader.py: class Shear7File *)

Module Shear7.

(** The fields [parse_file] and the loop of [process_block3] write.  The
    maximum, minimum and mean speed that [process_block3] computes from
    [current_profile] once the loop is over are left out: computing them
    raises nothing and changes none of these fields. *)
Record Shear7File : Type := {
  data : dict string (list string);
  number_current_points : option Z;
  current_profile : list (PyNum.float * PyNum.float);
  current_text : string
}.

(** [setup_variables], for these fields. *)
Definition setup_variables : Shear7File := {|
  data := [("headers", [])];
  number_current_points := None;
  current_profile := [];
  current_text := ""
|}.

(** [line.split(".")[0].split("***")[1].strip()]. *)
Definition section_name (line : string) : result string :=
  a ← py_index (PyStr.split "." line) 0;
  b ← py_index (PyStr.split "***" a) 1;
  Ok (PyStr.strip b).

(** One turn of the loop of [parse_file]; the state is [section] and
    [self.data]. *)
Definition parse_step (st : string * dict string (list string)) (line : string)
  : result (string * dict string (list string)) :=
  let '(section, d) := st in
  if PyStr.contains "***" line then
    name ← section_name line;
    Ok (name, dict_set name [] d)
  else
    lines ← getitem id section d;
    Ok (section, dict_set section (lines ++ [line]) d).

(** [parse_file], on the lines [readlines] gave. *)
Definition parse_file (lines : list string) (s : Shear7File) : result Shear7File :=
  st ← foldM parse_step ("headers", data s) lines;
  Ok {| data := st.2;
        number_current_points := number_current_points s;
        current_profile := current_profile s;
        current_text := current_text s |}.

(** One row of the current profile: depth and speed. *)
Definition current_row (row : string) : result (PyNum.float * PyNum.float) :=
  d ← py_index (PyStr.split "," row) 0;
  depth ← PyNum.py_float d;
  r ← py_index (PyStr.split "," row) 1;
  w ← py_index (PyStr.split_ws r) 0;
  speed ← PyNum.py_float w;
  Ok (depth, speed).

(** [for i in range(1, n + 1)] of [process_block3], from row [i]; the state
    is [current_profile] and [current_text]. *)
Fixpoint read_rows (block : list string) (i : nat) (count : nat)
    (st : list (PyNum.float * PyNum.float) * string)
  : result (list (PyNum.float * PyNum.float) * string) :=
  match count with
  | O => Ok st
  | S count' =>
      row ← py_index block (Z.of_nat i);
      '(depth, speed) ← current_row row;
      read_rows block (S i) count'
        (st.1 ++ [(depth, speed)],
         st.2 +:+ PyNum.float_repr depth +:+ "," +:+ PyNum.float_repr speed
         +:+ ",")
  end.

(** The number of current points the first line of the block declares:
    [int(l0.split()[0].split(",")[0])]. *)
Definition declared_count (l0 : string) : result Z :=
  w ← py_index (PyStr.split_ws l0) 0;
  c ← py_index (PyStr.split "," w) 0;
  PyNum.py_int c.

(** [s[:-1]]. *)
Definition drop_last (s : string) : string :=
  PyStr.take (String.length s - 1) s.

(** [process_block3]. *)
Definition process_block3 (s : Shear7File) : result Shear7File :=
  match dict_get "BLOCK 3" (data s) with
  | None => Ok s
  | Some block =>
      l0 ← py_index block 0;
      n ← declared_count l0;
      st ← read_rows block 1 (Z.to_nat n) (current_profile s, "");
      Ok {| data := data s;
            number_current_points := Some n;
            current_profile := st.1;
            current_text := drop_last st.2 |}
  end.

End Shear7.

(** ** tab_file_reader.py: class TabFile *)

Module Tab.

(** One series of a table: [{'X': [], 'Y': [], 'X Label': ..., ...}]. *)
Record series_data : Type := {
  X : list PyNum.float;
  Y : list PyNum.float;
  X_Label : string;
  Y_Label : string;
  X_Units : string;
  Y_Units : string
}.

Definition table_data : Type := dict string series_data.

(** [self.tab_file_data] and the locals of [parse_contents]; [series] is
    [None] until it is assigned. *)
Record parser : Type := {
  tab_file_data : dict string table_data;
  table : option string;
  series : option string;
  series_count : nat;
  x_axis_label : string;
  y_axis_label : string;
  x_units : string;
  y_units : string
}.

Definition parser_start : parser := {|
  tab_file_data := []; table := None; series := None; series_count := 0;
  x_axis_label := ""; y_axis_label := ""; x_units := ""; y_units := ""
|}.

(** [line.split(':')[1].strip()]. *)
Definition after_colon (line : string) : result string :=
  x ← py_index (PyStr.split ":" line) 1; Ok (PyStr.strip x).

Definition set_X (xs : list PyNum.float) (sd : series_data) : series_data :=
  {| X := xs; Y := Y sd; X_Label := X_Label sd; Y_Label := Y_Label sd;
     X_Units := X_Units sd; Y_Units := Y_Units sd |}.

Definition set_Y (ys : list PyNum.float) (sd : series_data) : series_data :=
  {| X := X sd; Y := ys; X_Label := X_Label sd; Y_Label := Y_Label sd;
     X_Units := X_Units sd; Y_Units := Y_Units sd |}.

(** The [try] block at the end of the loop body: what it leaves in
    [tab_file_data], an exception at any point ending it there. *)
Definition try_append (t : string) (ser : option string) (line : string)
    (d : dict string table_data) : dict string table_data :=
  let fields := PyStr.split PyStr.tab line in
  match ser with
  | None => d
  | Some sname =>
      match dict_get t d with
      | None => d
      | Some td =>
          match dict_get sname td with
          | None => d
          | Some sd =>
              match PyNum.float_of_string (default "" (fields !! 0)) with
              | None => d
              | Some x =>
                  let sd1 := set_X (X sd ++ [x]) sd in
                  let d1 := dict_set t (dict_set sname sd1 td) d in
                  match fields !! 1 with
                  | None => d1
                  | Some f1 =>
                      match PyNum.float_of_string f1 with
                      | None => d1
                      | Some y =>
                          dict_set t
                            (dict_set sname (set_Y (Y sd1 ++ [y]) sd1) td) d
                      end
                  end
              end
          end
      end
  end.

(** One turn of the loop of [parse_contents].  ([series_count] counts lines
    of the file that were read, so writing it in a key stays within the
    digits [str] writes for an [int].) *)
Definition parse_line (p : parser) (line : string) : result parser :=
  if PyStr.contains "Table No." line then
    let t := PyStr.replace PyStr.newline "" line in
    Ok {| tab_file_data := dict_set t [] (tab_file_data p);
          table := Some t; series := series p; series_count := 0;
          x_axis_label := ""; y_axis_label := "";
          x_units := ""; y_units := "" |}
  else
    match table p with
    | Some (String _ _ as t) =>
        xl ← (if PyStr.eqb (PyStr.take 7 line) "X-Axis:"
              then after_colon line else Ok (x_axis_label p));
        yl ← (if PyStr.eqb (PyStr.take 7 line) "Y-Axis:"
              then after_colon line else Ok (y_axis_label p));
        '(xu, xl) ←
          (if PyStr.eqb (PyStr.take 8 line) "X-Units:" then
             u ← after_colon line;
             Ok (u, if negb (PyStr.eqb u "")
                    then xl +:+ " (" +:+ u +:+ ")" else xl)
           else Ok (x_units p, xl));
        '(yu, yl) ←
          (if PyStr.eqb (PyStr.take 8 line) "Y-Units:" then
             u ← after_colon line;
             Ok (u, if negb (PyStr.eqb u "")
                    then yl +:+ " (" +:+ u +:+ ")" else yl)
           else Ok (y_units p, yl));
        '(d, ser, cnt) ←
          (if PyStr.eqb (PyStr.take 10 line) "Plot Data:" then
             title ← after_colon line;
             td ← getitem id t (tab_file_data p);
             let '(name, cnt) :=
               if PyStr.eqb title "" || dict_mem title td
               then ("Series " +:+ PyStr.of_nat (series_count p + 1),
                     series_count p + 1)
               else (title, series_count p) in
             Ok (dict_set t
                   (dict_set name
                      {| X := []; Y := []; X_Label := xl; Y_Label := yl;
                         X_Units := xu; Y_Units := yu |} td)
                   (tab_file_data p),
                 Some name, cnt)
           else Ok (tab_file_data p, series p, series_count p));
        Ok {| tab_file_data := try_append t ser line d;
              table := table p; series := ser; series_count := cnt;
              x_axis_label := xl; y_axis_label := yl;
              x_units := xu; y_units := yu |}
    | _ => Ok p
    end.

(** [parse_contents], on [self.contents = contents]. *)
Definition parse_contents (contents : list string) : result (dict string table_data) :=
  p ← foldM parse_line parser_start contents;
  Ok (tab_file_data p).

(** [for idx, val in enumerate(l): l[idx] = val + offset]. *)
Definition offset_list (offset : PyNum.float) (l : list PyNum.float)
  : list PyNum.float :=
  map (fun val => PyNum.fadd val offset) l.

(** The body of the outer loop of [offset_elevations] for one series: the
    values under the key [axis] are replaced where they are. *)
Definition offset_series (offset : PyNum.float) (axis : string)
    (sd : series_data) : result series_data :=
  if PyStr.eqb axis "X" then Ok (set_X (offset_list offset (X sd)) sd)
  else if PyStr.eqb axis "Y" then Ok (set_Y (offset_list offset (Y sd)) sd)
  else
    let label :=
      if PyStr.eqb axis "X Label" then Some (X_Label sd)
      else if PyStr.eqb axis "Y Label" then Some (Y_Label sd)
      else if PyStr.eqb axis "X Units" then Some (X_Units sd)
      else if PyStr.eqb axis "Y Units" then Some (Y_Units sd)
      else None in
    match label with
    | Some EmptyString => Ok sd
    | Some (String _ _) => Raise TypeError
    | None => Raise (KeyError axis)
    end.

(** [offset_elevations(table, offset, axis)]: the new [tab_file_data]; the
    method returns nothing. *)
Definition offset_elevations (t : string) (offset : PyNum.float) (axis : string)
    (d : dict string table_data) : result (dict string table_data) :=
  td ← getitem id t d;
  td' ← mapM_result
          (fun '(name, sd) => sd' ← offset_series offset axis sd; Ok (name, sd'))
          td;
  Ok (dict_set t td' d).

End Tab.

(** ** common_mds_reader.py: class CommonMds *)

Module Mds.

Record mode : Type := {
  Nat_Freq_rad_s : PyNum.float;
  segments : list PyNum.float;
  mode_shape : list PyNum.float;
  mode_slope : list PyNum.float;
  mode_curvature : list PyNum.float
}.

Record CommonMds : Type := {
  no_of_modes : option Z;
  no_of_nodes : option Z;
  modes : dict Z mode
}.

Definition setup_variables : CommonMds :=
  {| no_of_modes := None; no_of_nodes := None; modes := [] |}.

Definition show_int (z : Z) : string :=
  (if (z <? 0)%Z then "-" else "") +:+ PyNum.decimal_digits (Z.abs z).

(** [data[i].rstrip().split()]. *)
Definition fields (line : string) : list string :=
  PyStr.split_ws (PyStr.rstrip line).

(** Block 2: one line per mode, number and natural frequency. *)
Definition read_mode (data : list string) (ms : dict Z mode) (i : Z)
  : result (dict Z mode) :=
  l ← py_index data i;
  let line := fields l in
  f ← py_index line 1; freq ← PyNum.py_float f;
  k ← py_index line 0; n ← PyNum.py_int k;
  Ok (dict_set n {| Nat_Freq_rad_s := freq; segments := []; mode_shape := [];
                    mode_slope := []; mode_curvature := [] |} ms).

(** Block 3: one line per mode and node, position and mode shape. *)
Definition read_shape (ms : dict Z mode) (l : string) : result (dict Z mode) :=
  let line := fields l in
  k ← py_index line 0; n ← PyNum.py_int k;
  m ← getitem show_int n ms;
  f ← py_index line 1; seg ← PyNum.py_float f;
  let m1 := {| Nat_Freq_rad_s := Nat_Freq_rad_s m;
               segments := segments m ++ [seg]; mode_shape := mode_shape m;
               mode_slope := mode_slope m; mode_curvature := mode_curvature m |} in
  let ms1 := dict_set n m1 ms in
  k ← py_index line 0; n ← PyNum.py_int k;
  m ← getitem show_int n ms1;
  f ← py_index line 2; shape ← PyNum.py_float f;
  Ok (dict_set n
        {| Nat_Freq_rad_s := Nat_Freq_rad_s m; segments := segments m;
           mode_shape := mode_shape m ++ [shape];
           mode_slope := mode_slope m; mode_curvature := mode_curvature m |}
        ms1).

(** [data[i:]] for a Python list. *)
Definition slice_from {A} (l : list A) (i : Z) : list A :=
  if (i <? 0)%Z then drop (Z.to_nat (Z.of_nat (length l) + i)) l
  else drop (Z.to_nat i) l.

(** [read_mds_file], on the text of the file. *)
Definition read_mds_file (text : string) : result CommonMds :=
  let data := PyStr.readlines text in
  l ← py_index data 0;
  let line := fields l in
  a ← py_index line 0; nm ← PyNum.py_int a;
  b ← py_index line 1; nn ← PyNum.py_int b;
  ms ← foldM (read_mode data) [] (Das.py_range 1 (1 + nm));
  ms ← foldM read_shape ms (slice_from data (1 + nm));
  Ok {| no_of_modes := Some nm; no_of_nodes := Some nn; modes := ms |}.

End Mds.

(** ** output_file_reader.py: class OutputFile *)

Module Out.

(** The fields [read_out_file] writes; [restart] has no value until the
    method assigns it. *)
Record OutputFile : Type := {
  converged : option bool;
  restart : option bool;
  out_data : dict string (list string)
}.

Definition setup_variables : OutputFile :=
  {| converged := None; restart := None; out_data := [("headers", [])] |}.

Definition not_converged : string := "Error: Solution has failed to converge.".
Definition no_restart_file : string :=
  "Error: The restart file for this analysis does not exist.".
Definition no_database : string := "No database files exist for opening.".
Definition dongle : string := "dongle".

(** One turn of the loop of [read_out_file]; the state is [self] and
    [key]. *)
Definition read_line (solver : string) (st : OutputFile * string)
    (line : string) : result (OutputFile * string) :=
  let '(s, key) := st in
  let c := converged s in
  let c := if PyStr.contains ("successful " +:+ solver +:+ " analysis")
                (PyStr.lower line)
           then Some true else c in
  let c := if PyStr.contains not_converged line then Some false else c in
  let '(r, c) := if PyStr.contains no_restart_file line
                 then (Some false, Some false) else (restart s, c) in
  let c := if PyStr.contains no_database line then Some false else c in
  let c := if PyStr.contains dongle line then Some false else c in
  let line := PyStr.replace PyStr.newline "" line in
  if (0 <? String.length line) then
    if PyStr.contains " *** " line
       && negb (PyStr.contains "Articulation Element" line) then
      let key := PyStr.strip (PyStr.replace "***" "" line) in
      Ok ({| converged := c; restart := r;
             out_data := dict_set key [] (out_data s) |}, key)
    else if (0 <? String.length (PyStr.strip line)) then
      lines ← getitem id key (out_data s);
      Ok ({| converged := c; restart := r;
             out_data := dict_set key (lines ++ [line]) (out_data s) |}, key)
    else Ok ({| converged := c; restart := r; out_data := out_data s |}, key)
  else Ok ({| converged := c; restart := r; out_data := out_data s |}, key).

(** [read_out_file], on the lines [readline] gives. *)
Definition read_out_file (solver : string) (lines : list string)
    (s : OutputFile) : result OutputFile :=
  st ← foldM (read_line solver) (s, "headers") lines;
  Ok st.1.

End Out.

(** ** das_file_reader.py: the queries on a parsed file *)

Module DasQueries.
Import Das.

(** [e.replace(' ', '').split(',')]. *)
Definition row_fields (e : string) : list string :=
  PyStr.split "," (PyStr.replace " " "" e).

(** One turn of the loop of [get_element_nodes]; the state is [first_node]
    and [second_node].  [element] is an [int], so [int(element)] is itself. *)
Definition element_nodes_step (element : Z)
    (st : option string * option string) (e : string)
  : result (option string * option string) :=
  let e := row_fields e in
  e0 ← py_index e 0;
  if negb (PyStr.contains "GEN" e0) then
    n ← PyNum.py_int e0;
    if (n =? element)%Z && (3 <=? length e) then
      e1 ← py_index e 1; e2 ← py_index e 2; Ok (Some e1, Some e2)
    else Ok st
  else Ok st.

(** [get_element_nodes(element, model)]: the list
    [[first_node, second_node]]. *)
Definition get_element_nodes (element : Z) (model : nat) (s : DasFile)
  : result (list (option string)) :=
  m ← getitem PyStr.of_nat model (models s);
  elements ← getitem id "*ELEMENT" m;
  st ← foldM (element_nodes_step element) (None, None) elements;
  Ok [st.1; st.2].

(** What is passed for [node]: [None], an [int] or a [str]. *)
Inductive node_arg : Type :=
  | NodeNone
  | NodeInt (z : Z)
  | NodeStr (s : string).

(** [str(node)]; an [int] of more digits than [str] writes raises
    [ValueError]. *)
Definition str_of_node (n : node_arg) : result string :=
  match n with
  | NodeNone => Ok "None"
  | NodeInt z =>
      if String.length (PyNum.decimal_digits (Z.abs z))
         <=? PyNum.max_str_digits
      then Ok (Mds.show_int z) else Raise ValueError
  | NodeStr s => Ok s
  end.

(** What [get_node_coordinates] returns: a list ([[]] or [[x, y, z]]), or
    for ["all"] a dictionary from node numbers to such lists. *)
Inductive coordinates : Type :=
  | Coords (c : list PyNum.float)
  | AllCoords (d : dict Z (list PyNum.float)).

(** The loop of [get_node_coordinates] over the lines of [*NODE]; [node] is
    the stripped text of the node asked for, [all] says that it is
    ["all"] in some letter case, [acc] is the dictionary built so far. *)
Fixpoint node_loop (node : string) (all : bool)
    (acc : dict Z (list PyNum.float)) (nodes : list string)
  : result coordinates :=
  match nodes with
  | [] => Ok (if all then AllCoords acc else Coords [])
  | n :: nodes' =>
      let n := row_fields n in
      if 4 <=? length n then
        a ← py_index n 1; x ← PyNum.py_float a;
        b ← py_index n 2; y ← PyNum.py_float b;
        c ← py_index n 3; z ← PyNum.py_float c;
        if all then
          k ← py_index n 0; i ← PyNum.py_int k;
          node_loop node all (dict_set i [x; y; z] acc) nodes'
        else
          k ← py_index n 0;
          if PyStr.eqb (PyStr.strip k) node then Ok (Coords [x; y; z])
          else node_loop node all acc nodes'
      else node_loop node all acc nodes'
  end.

(** [get_node_coordinates(node, model)]. *)
Definition get_node_coordinates (node : node_arg) (model : nat) (s : DasFile)
  : result coordinates :=
  name ← str_of_node node;
  let node := PyStr.strip name in
  let all := PyStr.eqb (PyStr.lower node) "all" in
  m ← getitem PyStr.of_nat model (models s);
  match dict_get "*NODE" m with
  | Some nodes => node_loop node all [] nodes
  | None => Ok (if all then AllCoords [] else Coords [])
  end.

(** [get_element_coordinates(element, model)]. *)
Definition get_element_coordinates (element : Z) (model : nat) (s : DasFile)
  : result (list coordinates) :=
  nodes ← get_element_nodes element model s;
  mapM_result
    (fun n => get_node_coordinates
                (match n with Some x => NodeStr x | None => NodeNone end)
                model s)
    nodes.

(** One turn of the loop of [process_geometric_sets]; the state is
    [geo_sets].  A token that is no number is stored as [None]; the values
    of a row go to the key [geo_sets] holds last. *)
Definition geometric_step (geo : dict string (list (option PyNum.float)))
    (s : string) : result (dict string (list (option PyNum.float))) :=
  if PyStr.contains "SET=" s then
    a ← py_index (PyStr.split "SET=" s) 1;
    k ← py_index (PyStr.split "," (PyStr.strip a)) 0;
    Ok (dict_set k [] geo)
  else
    foldM (fun geo ss =>
             let v := PyNum.float_of_string ss in
             k ← py_index (dict_keys geo) (-1);
             old ← getitem id k geo;
             Ok (dict_set k (old ++ [v]) geo))
          geo (PyStr.split "," s).

(** [process_geometric_sets(model)]. *)
Definition process_geometric_sets (model : nat) (s : DasFile)
  : result (dict string (list (option PyNum.float))) :=
  m ← getitem PyStr.of_nat model (models s);
  match dict_get "*GEOMETRIC SETS" m with
  | Some ls => foldM geometric_step [] ls
  | None => Ok []
  end.

End DasQueries.

(** ** tab_file_reader.py: what follows the parse *)

Module TabPost.

(** [max(l)] and [min(l)] on floats: the first item is kept until an item
    compares greater (smaller); an empty list raises [ValueError]. *)
Definition py_max (l : list PyNum.float) : result PyNum.float :=
  match l with
  | [] => Raise ValueError
  | x :: r => Ok (foldl (fun m y => if SFltb m y then y else m) x r)
  end.

Definition py_min (l : list PyNum.float) : result PyNum.float :=
  match l with
  | [] => Raise ValueError
  | x :: r => Ok (foldl (fun m y => if SFltb y m then y else m) x r)
  end.

Definition fsub (x y : PyNum.float) : PyNum.float :=
  SFsub PyNum.prec PyNum.emax x y.

(** [get_table_number(table)]. *)
Definition get_table_number (table : string) : result Z :=
  w ← py_index (PyStr.split " " table) 1;
  PyNum.py_int (PyStr.replace "No." "" w).

(** [get_first_series(table)]. *)
Definition get_first_series (table : string)
    (d : dict string Tab.table_data) : result string :=
  td ← getitem id table d;
  py_index (dict_keys td) 0.

(** The data of a [TabFile] and the values
    [process_automated_postprocessing] sets. *)
Record TabFile : Type := {
  tab_file_data : dict string Tab.table_data;
  max_vms : option PyNum.float;
  max_vms_top : option PyNum.float;
  max_vms_btm : option PyNum.float;
  max_bm : option PyNum.float;
  max_bm_btm : option PyNum.float;
  max_bm_top : option PyNum.float;
  riser_length : option PyNum.float
}.

(** The first lines of [process_automated_postprocessing]. *)
Definition reset (d : dict string Tab.table_data) : TabFile := {|
  tab_file_data := d; max_vms := None; max_vms_top := None;
  max_vms_btm := None; max_bm := None; max_bm_btm := None;
  max_bm_top := None; riser_length := None
|}.

Definition set_vms (top btm : PyNum.float) (s : TabFile) : TabFile :=
  {| tab_file_data := tab_file_data s; max_vms := max_vms s;
     max_vms_top := Some top; max_vms_btm := Some btm;
     max_bm := max_bm s; max_bm_btm := max_bm_btm s;
     max_bm_top := max_bm_top s; riser_length := riser_length s |}.

Definition set_bm (top btm : PyNum.float) (s : TabFile) : TabFile :=
  {| tab_file_data := tab_file_data s; max_vms := max_vms s;
     max_vms_top := max_vms_top s; max_vms_btm := max_vms_btm s;
     max_bm := max_bm s; max_bm_btm := Some btm;
     max_bm_top := Some top; riser_length := riser_length s |}.

Definition set_riser_length (l : PyNum.float) (s : TabFile) : TabFile :=
  {| tab_file_data := tab_file_data s; max_vms := max_vms s;
     max_vms_top := max_vms_top s; max_vms_btm := max_vms_btm s;
     max_bm := max_bm s; max_bm_btm := max_bm_btm s;
     max_bm_top := max_bm_top s; riser_length := Some l |}.

(** [self.tab_file_data[table][series]['X']]. *)
Definition series_X (table series : string) (s : TabFile)
  : result (list PyNum.float) :=
  td ← getitem id table (tab_file_data s);
  sd ← getitem id series td;
  Ok (Tab.X sd).

Definition series_Y (table series : string) (s : TabFile)
  : result (list PyNum.float) :=
  td ← getitem id table (tab_file_data s);
  sd ← getitem id series td;
  Ok (Tab.Y sd).

(** [set_value(series, table, mid_idx)]: the greatest [X] of each half. *)
Definition set_value (series table : string) (mid_idx : nat) (s : TabFile)
  : result TabFile :=
  s ← (if PyStr.eqb series "Max-Von Mises Stress Envelope" then
         xs ← series_X table series s;
         top ← py_max (take mid_idx xs);
         xs ← series_X table series s;
         btm ← py_max (drop mid_idx xs);
         Ok (set_vms top btm s)
       else Ok s);
  if PyStr.eqb series "Max-Resultant Bending Moment Envelope" then
    xs ← series_X table series s;
    top ← py_max (take mid_idx xs);
    xs ← series_X table series s;
    btm ← py_max (drop mid_idx xs);
    Ok (set_bm top btm s)
  else Ok s.

(** [table_map]: the name of a table and the series read from it. *)
Definition table_map : list (string * string) :=
  [("Envelope of Von Mises Stress", "Max-Von Mises Stress Envelope");
   ("Envelope of Resultant Bending Moment",
    "Max-Resultant Bending Moment Envelope")].

(** [not self.riser_length]. *)
Definition no_length (x : option PyNum.float) : bool :=
  match x with
  | None | Some (S754_zero _) => true
  | Some _ => false
  end.

(** One turn of the inner loop of [process_automated_postprocessing];
    [int(len(l) / 2)] is the half of the length, rounded down. *)
Definition post_param (table table_name : string) (s : TabFile)
    (entry : string * string) : result TabFile :=
  let '(param, series) := entry in
  if PyStr.eqb param table_name then
    td ← getitem id table (tab_file_data s);
    if dict_mem series td then
      ys ← series_Y table series s;
      let mid_idx := length ys / 2 in
      s ← set_value series table mid_idx s;
      if no_length (riser_length s) then
        ys ← series_Y table series s;
        hi ← py_max ys;
        ys ← series_Y table series s;
        lo ← py_min ys;
        Ok (set_riser_length (fsub hi lo) s)
      else Ok s
    else Ok s
  else Ok s.

(** One turn of its outer loop. *)
Definition post_table (s : TabFile) (table : string) : result TabFile :=
  n ← py_index (PyStr.split " - " table) 1;
  foldM (post_param table (PyStr.strip n)) s table_map.

(** [process_automated_postprocessing], on the parsed data. *)
Definition process_automated_postprocessing (d : dict string Tab.table_data)
  : result TabFile :=
  foldM post_table (reset d) (dict_keys d).

(** [TabFile(tab_file, contents)]: the parse, then the values above. *)
Definition init (contents : list string) : result TabFile :=
  d ← Tab.parse_contents contents;
  process_automated_postprocessing d.

End TabPost.

(** ** fatigue_output_file_reader.py: class FatigueOutputFile *)

Module Fatigue.

(** An entry of a row of [fatigue_lives]: an [int] or a [float]. *)
Inductive num : Type :=
  | NInt (z : Z)
  | NFloat (x : PyNum.float).

Definition py_int_at (line : list string) (i : Z) : result num :=
  w ← py_index line i; z ← PyNum.py_int w; Ok (NInt z).

Definition py_float_at (line : list string) (i : Z) : result num :=
  w ← py_index line i; x ← PyNum.py_float w; Ok (NFloat x).

(** [[int(line[0]), int(line[1]), float(line[2]), float(line[3]),
    int(line[4]), float(line[5]), int(line[6]), float(line[7]),
    int(line[8])]]. *)
Definition convert (line : list string) : result (list num) :=
  a0 ← py_int_at line 0; a1 ← py_int_at line 1;
  a2 ← py_float_at line 2; a3 ← py_float_at line 3;
  a4 ← py_int_at line 4; a5 ← py_float_at line 5;
  a6 ← py_int_at line 6; a7 ← py_float_at line 7;
  a8 ← py_int_at line 8;
  Ok [a0; a1; a2; a3; a4; a5; a6; a7; a8].

(** One turn of the loop of [parse_output_file]; the state is [section]
    and [self.fatigue_lives]. *)
Definition parse_step (st : option string * list (list num)) (line : string)
  : result (option string * list (list num)) :=
  let '(section, lives) := st in
  let section :=
    if PyStr.contains "Results in Plot Format" line
    then Some "fatigue lives" else section in
  if bool_decide (section = Some "fatigue lives") then
    let line := PyStr.split_ws line in
    if length line =? 9 then
      row ← convert line; Ok (section, lives ++ [row])
    else Ok (section, lives)
  else Ok (section, lives).

(** [parse_output_file], on [self.data = data]: the rows of
    [fatigue_lives]. *)
Definition parse_output_file (data : list string) : result (list (list num)) :=
  st ← foldM parse_step (None, []) data;
  Ok st.2.

End Fatigue.

(** ** shear7_output_file_reader.py: class Shear7OutputFile *)

Module Shear7Out.

(** One entry of [initial_power_calcs]. *)
Record power_calc : Type := {
  freq_hz : PyNum.float;
  Modal_Power : PyNum.float;
  Power_Ratio_Raised_Exponent : PyNum.float
}.

Record Shear7OutputFile : Type := {
  data : list string;
  no_possible_excitated_modes : option Z;
  initial_power_calcs : dict Z power_calc;
  results_start_idx : option nat;
  power_calc_start_idx : option nat
}.

(** [setup_variables], and [self.data] as [readlines] gave it. *)
Definition setup_variables (lines : list string) : Shear7OutputFile := {|
  data := lines; no_possible_excitated_modes := None;
  initial_power_calcs := []; results_start_idx := None;
  power_calc_start_idx := None
|}.

Definition results_marker : string := "THE RESULTS OF PROGRAM ANALYSIS".
Definition units_marker : string := "F = force; L = length; T = time.".

(** The loop of [read_file] from line [idx] on: it stops at the first line
    that holds the units marker. *)
Fixpoint read_loop (idx : nat) (res pow : option nat) (lines : list string)
  : option nat * option nat :=
  match lines with
  | [] => (res, pow)
  | line :: rest =>
      let res := if PyStr.contains results_marker line then Some idx else res in
      if PyStr.contains units_marker line then (res, Some idx)
      else read_loop (S idx) res pow rest
  end.

(** [read_file]. *)
Definition read_file (s : Shear7OutputFile) : Shear7OutputFile :=
  let '(res, pow) :=
    read_loop 0 (results_start_idx s) (power_calc_start_idx s) (data s) in
  {| data := data s;
     no_possible_excitated_modes := no_possible_excitated_modes s;
     initial_power_calcs := initial_power_calcs s;
     results_start_idx := res; power_calc_start_idx := pow |}.

(** The loop of [parse_possible_excited_modes]: [count] turns from line [i]
    on.  It returns [initial_power_calcs] and the value [i] is left with:
    [last] when no turn is made, the line of the [break] otherwise. *)
Fixpoint modes_loop (lines : list string) (i : nat) (count : nat)
    (calcs : dict Z power_calc) (last : option nat)
  : result (dict Z power_calc * option nat) :=
  match count with
  | O => Ok (calcs, last)
  | S count' =>
      l ← py_index lines (Z.of_nat i);
      if negb (PyStr.eqb (PyStr.strip (PyStr.rstrip l)) "") then
        let line := PyStr.split_ws (PyStr.rstrip l) in
        a ← py_index line 1; f ← PyNum.py_float a;
        b ← py_index line 4; p ← PyNum.py_float b;
        c ← py_index line 6; r ← PyNum.py_float c;
        k ← py_index line 0; n ← PyNum.py_int k;
        modes_loop lines (S i) count'
          (dict_set n {| freq_hz := f; Modal_Power := p;
                         Power_Ratio_Raised_Exponent := r |} calcs)
          (Some i)
      else Ok (calcs, Some i)
  end.

(** [parse_possible_excited_modes]: [range(p + 6, len(self.data) - 1)] has
    [len - 1 - (p + 6)] items or none; [None + 6] raises [TypeError], and
    [i] has no value when the loop made no turn. *)
Definition parse_possible_excited_modes (s : Shear7OutputFile)
  : result Shear7OutputFile :=
  match power_calc_start_idx s with
  | None => Raise TypeError
  | Some p =>
      st ← modes_loop (data s) (p + 6) (length (data s) - 1 - (p + 6))
             (initial_power_calcs s) None;
      match st.2 with
      | None => Raise NameError
      | Some i =>
          l ← py_index (data s) (Z.of_nat (i + 1));
          w ← py_index (PyStr.split_ws (PyStr.rstrip l)) (-1);
          n ← PyNum.py_int w;
          Ok {| data := data s; no_possible_excitated_modes := Some n;
                initial_power_calcs := st.1;
                results_start_idx := results_start_idx s;
                power_calc_start_idx := power_calc_start_idx s |}
      end
  end.

(** [Shear7OutputFile(file)], on the lines of the file. *)
Definition init (lines : list string) : result Shear7OutputFile :=
  let s := read_file (setup_variables lines) in
  match results_start_idx s with
  | None => Ok s
  | Some _ => parse_possible_excited_modes s
  end.

End Shear7Out.

(** ** shear7_file_reader.py: block 2 *)

Module Shear7Blocks.

(** A value of a dictionary of [section_properties]. *)
Inductive prop_value : Type :=
  | PStr (s : string)
  | PFloat (x : PyNum.float)
  | PInt (z : Z).

(** The fields [process_block2] writes. *)
Record Block2 : Type := {
  total_length : option PyNum.float;
  total_segments : option Z;
  volume_weight_of_fluid : option PyNum.float;
  kinematic_viscosity_of_fluid : option PyNum.float;
  structural_damping_coefficient : option PyNum.float;
  effective_tension_at_origin : option PyNum.float;
  number_of_section_property_zones : option Z;
  section_properties : dict nat (dict string prop_value)
}.

(** [setup_variables], for these fields. *)
Definition setup_variables : Block2 := {|
  total_length := None; total_segments := None;
  volume_weight_of_fluid := None; kinematic_viscosity_of_fluid := None;
  structural_damping_coefficient := None;
  effective_tension_at_origin := None;
  number_of_section_property_zones := None;
  section_properties := []
|}.

(** [self.data["BLOCK 2"][i].split()[j]]. *)
Definition word (data : dict string (list string)) (i j : Z) : result string :=
  block ← getitem id "BLOCK 2" data;
  l ← py_index block i;
  py_index (PyStr.split_ws l) j.

(** [float(self.data["BLOCK 2"][i].split()[j])], and the same for [int]. *)
Definition float_word (data : dict string (list string)) (i j : Z)
  : result PyNum.float :=
  w ← word data i j; PyNum.py_float w.

Definition int_word (data : dict string (list string)) (i j : Z) : result Z :=
  w ← word data i j; PyNum.py_int w.

(** [float(self.data["BLOCK 2"][i].split()[j].replace(",", ""))], and the
    same for [int]. *)
Definition float_word_nc (data : dict string (list string)) (i j : Z)
  : result PyNum.float :=
  w ← word data i j; PyNum.py_float (PyStr.replace "," "" w).

Definition int_word_nc (data : dict string (list string)) (i j : Z)
  : result Z :=
  w ← word data i j; PyNum.py_int (PyStr.replace "," "" w).

(** [self.data["BLOCK 2"][i].split(",")[j]]. *)
Definition comma_field (data : dict string (list string)) (i j : Z)
  : result string :=
  block ← getitem id "BLOCK 2" data;
  l ← py_index block i;
  py_index (PyStr.split "," l) j.

Definition float_field (data : dict string (list string)) (i j : Z)
  : result PyNum.float :=
  w ← comma_field data i j; PyNum.py_float w.

(** [float(self.data["BLOCK 2"][i].split(",")[j].split()[0])]. *)
Definition float_field_word (data : dict string (list string)) (i j : Z)
  : result PyNum.float :=
  f ← comma_field data i j;
  w ← py_index (PyStr.split_ws f) 0;
  PyNum.py_float w.

(** [self.section_properties[count][key] = v]. *)
Definition set_prop (count : nat) (key : string) (v : prop_value)
    (props : dict nat (dict string prop_value))
  : result (dict nat (dict string prop_value)) :=
  zone ← getitem PyStr.of_nat count props;
  Ok (dict_set count (dict_set key v zone) props).

(** One turn of the loop over the zones; the state is [count] and
    [self.section_properties]. *)
Definition read_zone (version : string) (data : dict string (list string))
    (st : nat * dict nat (dict string prop_value)) (idx : Z)
  : result (nat * dict nat (dict string prop_value)) :=
  let '(count, props) := st in
  block ← getitem id "BLOCK 2" data;
  l ← py_index block idx;
  let section := PyStr.strip (PyStr.drop 50 l) in
  let props := dict_set count [("name", PStr section)] props in
  x ← float_word_nc data idx 0;
  props ← set_prop count "start" (PFloat x) props;
  x ← float_word data idx 1;
  props ← set_prop count "end" (PFloat x) props;
  x ← float_word_nc data (idx + 1) 0;
  props ← set_prop count "hydro_diameter" (PFloat x) props;
  x ← float_word_nc data (idx + 2) 0;
  props ← set_prop count "inertia" (PFloat x) props;
  x ← float_word_nc data (idx + 2) 1;
  props ← set_prop count "dry_mass" (PFloat x) props;
  x ← float_word_nc data (idx + 2) 2;
  props ← set_prop count "wet_mass" (PFloat x) props;
  z ← int_word data (idx + 3) 1;
  props ← set_prop count "sn_curve_id" (PInt z) props;
  x ← float_word_nc data (idx + 4) 0;
  props ← set_prop count "bandwidth" (PFloat x) props;
  x ← float_word_nc data (idx + 4) 1;
  props ← set_prop count "st_code" (PFloat x) props;
  x ← float_word_nc data (idx + 4) 2;
  props ← set_prop count "cl_reduction_factor" (PFloat x) props;
  z ← int_word_nc data (idx + 4) 3;
  props ← set_prop count "zoneCLtype" (PInt z) props;
  props ←
    (if PyStr.eqb version "4.10" then
       x ← float_field data (idx + 5) 0;
       props ← set_prop count "Ca" (PFloat x) props;
       x ← float_field data (idx + 5) 1;
       props ← set_prop count "DampCoeff0" (PFloat x) props;
       x ← float_field data (idx + 5) 2;
       props ← set_prop count "DampCoeff1" (PFloat x) props;
       x ← float_field data (idx + 5) 3;
       props ← set_prop count "DampCoeff2" (PFloat x) props;
       x ← float_field data (idx + 5) 4;
       props ← set_prop count "DampCoeff3" (PFloat x) props;
       x ← float_field_word data (idx + 5) 5;
       set_prop count "DampCoeff4" (PFloat x) props
     else if PyStr.eqb version "4.6" then
       x ← float_field data (idx + 5) 0;
       props ← set_prop count "Ca" (PFloat x) props;
       x ← float_field data (idx + 5) 1;
       props ← set_prop count "DampCoeff1" (PFloat x) props;
       x ← float_field data (idx + 5) 2;
       props ← set_prop count "DampCoeff2" (PFloat x) props;
       x ← float_field_word data (idx + 5) 3;
       set_prop count "DampCoeff3" (PFloat x) props
     else Ok props);
  Ok (count + 1, props).

(** [range(8, 8 + n * 6, 6)]: the lines 8, 14, 20, ..., one for each of [n]
    zones (none when [n] is negative). *)
Definition zone_lines (n : Z) : list Z :=
  map (fun k => (8 + 6 * Z.of_nat k)%Z) (seq 0 (Z.to_nat n)).

(** [process_block2]; [None * 6] raises [TypeError]. *)
Definition process_block2 (version : string)
    (data : dict string (list string)) (s : Block2) : result Block2 :=
  s ← (if dict_mem "BLOCK 2" data then
         tl ← float_word data 1 0;
         ts ← int_word data 2 0;
         vw ← float_word data 3 0;
         kv ← float_word data 4 0;
         sd ← float_word data 5 0;
         et ← float_word data 6 0;
         nz ← int_word data 7 0;
         Ok {| total_length := Some tl; total_segments := Some ts;
               volume_weight_of_fluid := Some vw;
               kinematic_viscosity_of_fluid := Some kv;
               structural_damping_coefficient := Some sd;
               effective_tension_at_origin := Some et;
               number_of_section_property_zones := Some nz;
               section_properties := section_properties s |}
       else Ok s);
  match number_of_section_property_zones s with
  | None => Raise TypeError
  | Some n =>
      st ← foldM (read_zone version data) (0, section_properties s)
             (zone_lines n);
      Ok {| total_length := total_length s;
            total_segments := total_segments s;
            volume_weight_of_fluid := volume_weight_of_fluid s;
            kinematic_viscosity_of_fluid := kinematic_viscosity_of_fluid s;
            structural_damping_coefficient :=
              structural_damping_coefficient s;
            effective_tension_at_origin := effective_tension_at_origin s;
            number_of_section_property_zones := Some n;
            section_properties := st.2 |}
  end.



End Shear7Blocks.

(** ** output_file_reader.py: the sections of [out_data] *)

Module OutSections.

(** [process_units]; the state is [self.units] and [self.length_units]. *)
Definition process_units (out_data : dict string (list string))
    (st : option string * option string) : option string * option string :=
  match dict_get "UNIT SYSTEM" out_data with
  | Some ls =>
      foldl (fun st l =>
               if PyStr.contains "Imperial" l then (Some "Imperial", Some "ft")
               else if PyStr.contains "Metric" l then (Some "Metric", Some "m")
               else st) st ls
  | None => st
  end.

(** An entry of [element_data]: [{"Start Node": ..., "End Node": ...}]. *)
Record element : Type := {
  Start_Node : Z;
  End_Node : Z
}.

(** [x in e] for a list of strings. *)
Definition list_mem (x : string) (e : list string) : bool :=
  bool_decide (x ∈ e).

(** [process_element_data]: [self.element_data], which starts empty. *)
Definition process_element_data (out_data : dict string (list string))
  : result (dict Z element) :=
  match dict_get "ELEMENT DATA" out_data with
  | Some ls =>
      foldM (fun ed e =>
               let e := PyStr.split_ws e in
               if (length e =? 12) || (length e =? 9) then
                 if negb (list_mem "Element" e) then
                   a ← py_index e 1; s ← PyNum.py_int a;
                   b ← py_index e 2; t ← PyNum.py_int b;
                   k ← py_index e 0; n ← PyNum.py_int k;
                   Ok (dict_set n {| Start_Node := s; End_Node := t |} ed)
                 else Ok ed
               else Ok ed) [] ls
  | None => Ok []
  end.

(** The lines of a table of elements that are no heading: they hold
    neither stars, nor [Element], nor dashes, nor the word [title]. *)
Definition is_row (title : string) (e : string) : bool :=
  negb (PyStr.contains "***" e) && negb (PyStr.contains "Element" e)
  && negb (PyStr.contains "----" e) && negb (PyStr.contains title e).

(** The loop the three methods below share: the first value of each row
    whose element is in [element_data] is stored under the element. *)
Definition element_rows (title : string) (ed : dict Z element)
    (props : dict Z PyNum.float) (ls : list string)
  : result (dict Z PyNum.float) :=
  foldM (fun props e =>
           if is_row title e then
             let e := PyStr.split_ws e in
             k ← py_index e 0; n ← PyNum.py_int k;
             if dict_mem n ed then
               a ← py_index e 1; x ← PyNum.py_float a;
               k ← py_index e 0; n ← PyNum.py_int k;
               Ok (dict_set n x props)
             else Ok props
           else Ok props) props ls.

(** [process_element_properties]: [self.element_properties], each entry
    [{"EI-yy": x}] given by its value. *)
Definition process_element_properties (out_data : dict string (list string))
    (ed : dict Z element) (props : dict Z PyNum.float)
  : result (dict Z PyNum.float) :=
  match dict_get "ELEMENT PROPERTIES" out_data with
  | Some ls => element_rows "Inertia" ed props ls
  | None => Ok props
  end.

(** [process_drag_data]: [self.drag_data], each entry
    [{"Internal Diameter": x}] given by its value. *)
Definition process_drag_data (out_data : dict string (list string))
    (ed : dict Z element) (props : dict Z PyNum.float)
  : result (dict Z PyNum.float) :=
  match dict_get "DRAG AND BUOYANCY DATA" out_data with
  | Some ls => element_rows "Diameter" ed props ls
  | None => Ok props
  end.

End OutSections.

(** ** dpx_reader.py: class DPX *)

Module DpxParse.

(** A row of a menu: parameter to value. *)
Definition row : Type := dict string Dpx.value.

(** [DPXComponent]. *)
Record DPXComponent : Type := {
  name : string;
  component_id : string;
  component_type : string;
  menus : dict string (list row);
  options : dict string Dpx.value
}.

(** [self.components] and the locals of [parse_dpx]; [current_row] has no
    value until a menu line gives it one. *)
Record parser : Type := {
  components : dict string DPXComponent;
  cur_name : option string;
  cur_type : option string;
  menu : option string;
  current_row : option Z
}.

Definition parser_start : parser := {|
  components := []; cur_name := None; cur_type := None; menu := None;
  current_row := None
|}.

(** [self.components[name]]; [name] may still be [None]. *)
Definition component_of (p : parser) : result (string * DPXComponent) :=
  match cur_name p with
  | None => Raise (KeyError "None")
  | Some n => c ← getitem id n (components p); Ok (n, c)
  end.

Definition set_menus (m : dict string (list row)) (c : DPXComponent)
  : DPXComponent :=
  {| name := name c; component_id := component_id c;
     component_type := component_type c; menus := m; options := options c |}.

Definition set_options (o : dict string Dpx.value) (c : DPXComponent)
  : DPXComponent :=
  {| name := name c; component_id := component_id c;
     component_type := component_type c; menus := menus c; options := o |}.

Definition set_components (cs : dict string DPXComponent) (p : parser)
  : parser :=
  {| components := cs; cur_name := cur_name p; cur_type := cur_type p;
     menu := menu p; current_row := current_row p |}.

(** [l[-1][param] = value] for a list of rows. *)
Definition set_last (param : string) (v : Dpx.value) (rows : list row)
  : result (list row) :=
  match reverse rows with
  | [] => Raise IndexError
  | r :: before => Ok (reverse before ++ [dict_set param v r])
  end.

(** A menu name taken as a condition. *)
Definition truthy (m : option string) : bool :=
  match m with
  | Some (String _ _) => true
  | _ => false
  end.

(** One turn of the loop of [parse_dpx]. *)
Definition parse_line (p : parser) (d : string) : result parser :=
  if PyStr.startswith "<component " d then
    let d := PyStr.split PyStr.dquote d in
    n ← py_index d 1;
    i ← py_index d 3;
    t ← py_index d (-2);
    Ok {| components :=
            dict_set n {| name := n; component_id := i; component_type := t;
                          menus := []; options := [] |} (components p);
          cur_name := Some n; cur_type := Some t; menu := menu p;
          current_row := current_row p |}
  else if PyStr.startswith "<menu " d then
    m ← py_index (PyStr.split PyStr.dquote d) 1;
    '(n, c) ← component_of p;
    Ok {| components :=
            dict_set n (set_menus (dict_set m [] (menus c)) c) (components p);
          cur_name := cur_name p; cur_type := cur_type p; menu := Some m;
          current_row := Some (-1)%Z |}
  else if PyStr.startswith "<option " d then
    let d := PyStr.split PyStr.dquote d in
    param ← py_index d 1;
    w ← py_index d (-2);
    v ← Dpx.convert_to_number w false false;
    '(n, c) ← component_of p;
    Ok (set_components
          (dict_set n (set_options (dict_set param v (options c)) c)
             (components p)) p)
  else if truthy (menu p) && PyStr.startswith "<value " d then
    let d := PyStr.split PyStr.dquote d in
    param ← py_index d 1;
    w ← py_index d (-1);
    f ← py_index (PyStr.split "<" w) 0;
    v ← Dpx.convert_to_number (PyStr.replace ">" "" f) false false;
    r ← py_index d 3;
    row_no ← PyNum.py_int r;
    cr ← match current_row p with Some z => Ok z | None => Raise NameError end;
    let m := default "" (menu p) in
    p ← (if negb (row_no =? cr)%Z then
           '(n, c) ← component_of p;
           rows ← getitem id m (menus c);
           Ok {| components :=
                   dict_set n (set_menus (dict_set m (rows ++ [[]]) (menus c)) c)
                     (components p);
                 cur_name := cur_name p; cur_type := cur_type p;
                 menu := menu p; current_row := Some row_no |}
         else Ok p);
    '(n, c) ← component_of p;
    rows ← getitem id m (menus c);
    rows ← set_last param v rows;
    Ok (set_components
          (dict_set n (set_menus (dict_set m rows (menus c)) c)
             (components p)) p)
  else Ok p.

(** [parse_dpx], on [self.data = data]: [self.components]. *)
Definition parse_dpx (data : list string) : result (dict string DPXComponent) :=
  p ← foldM parse_line parser_start data;
  Ok (components p).

(** [get_all_components(component_type)]. *)
Definition get_all_components (component_type_ : string)
    (cs : dict string DPXComponent) : list string :=
  map (fun kc => name kc.2)
    (filter (fun kc => component_type kc.2 = component_type_) cs).

(** [find_id(component_id)]: the name of the first component with that id,
    [None] when there is none. *)
Fixpoint find_id (component_id_ : string) (cs : dict string DPXComponent)
  : option string :=
  match cs with
  | [] => None
  | (_, c) :: cs' =>
      if PyStr.eqb (component_id c) component_id_ then Some (name c)
      else find_id component_id_ cs'
  end.

End DpxParse.

(** ** The section tree of a das file, as the specification words it

    A das file is a preamble followed by dollar sections; the lines of a
    dollar section are star sections ([chunk]s), each a header line that
    starts with a star followed by its data lines. *)

Module DasSpec.
Import Das.

(** The two occurrence-counted groups. *)
Inductive group : Type := Model | LoadCase.

Definition marker (g : group) : string :=
  match g with Model => "$MODEL" | LoadCase => "$LOAD CASE" end.

Definition counter (g : group) (s : DasFile) : nat :=
  match g with Model => no_models s | LoadCase => no_load_cases s end.

Definition instances (g : group) (s : DasFile) : dict nat sections :=
  match g with Model => models s | LoadCase => load_cases s end.

Definition is_dollar (l : string) : bool :=
  match l with String c _ => bool_decide (c = "$"%char) | EmptyString => false end.

Definition is_star (l : string) : bool :=
  match l with String c _ => bool_decide (c = "*"%char) | EmptyString => false end.

Definition is_data (l : string) : bool :=
  match l with
  | String c _ => negb (bool_decide (c = "$"%char)) && negb (bool_decide (c = "*"%char))
  | EmptyString => false
  end.

(** A star section as it stands in the file. *)
Definition chunk : Type := string * list string.

Definition chunk_ok (c : chunk) : Prop :=
  is_star c.1 = true /\ Forall (fun l => is_data l = true) c.2.

Definition chunk_lines (c : chunk) : list string := c.1 :: c.2.

Definition block_lines (cs : list chunk) : list string :=
  concat (map chunk_lines cs).

(** The star sections a block leaves behind: a header met again starts its
    list afresh, at the place the header first took. *)
Definition block_sections_from (acc : sections) (cs : list chunk) : sections :=
  foldl (fun acc c => dict_set c.1 c.2 acc) acc cs.

Definition block_sections (cs : list chunk) : sections :=
  block_sections_from [] cs.

(** What a line that is no dollar line does to the star sections of the
    dollar section it stands in; [star] is the header met last. *)
Definition section_step (star : string) (l : string) (inner : sections)
  : result sections :=
  if is_star l then Ok (dict_set l [] inner)
  else lines ← getitem id star inner; Ok (dict_set star (lines ++ [l]) inner).

(** How many lines of [data] are the marker of [g]. *)
Definition count_marker (g : group) (data : list string) : nat :=
  length (filter (fun l => l = marker g) data).

(** The star sections of the dollar section the loop is in are [inner]. *)
Definition holds (inner : sections) (cur : cursor) : Prop :=
  if decide (dollar_section cur = "$MODEL") then
    dict_get (no_models (self cur)) (models (self cur)) = Some inner
  else if decide (dollar_section cur = "$LOAD CASE") then
    dict_get (no_load_cases (self cur)) (load_cases (self cur)) = Some inner
  else dict_get (dollar_section cur) (das_data (self cur)) = Some inner.

(** The lines [parse_das_file_data] accepts: none is empty, and every data
    line comes after a star header of its own dollar section ([open] says
    that such a header has been met; the preamble counts as having one). *)
Fixpoint accepted (open : bool) (data : list string) : bool :=
  match data with
  | [] => true
  | l :: data' =>
      if is_dollar l then accepted false data'
      else if is_star l then accepted true data'
      else negb (PyStr.eqb l "") && open && accepted open data'
  end.

(** *** Invariants of the loop of [parse_das_file_data] *)

(** [das_data] has the key ["$MODEL"], mapped to an empty dictionary, and no
    key ["$LOAD CASE"]. *)
Definition model_key_empty (cur : cursor) : Prop :=
  dict_get "$LOAD CASE" (das_data (self cur)) = None /\
  dict_get "$MODEL" (das_data (self cur)) = Some [].

(** The counter of a group is the number of its markers met so far, and the
    keys of its instances are 1 up to the counter, in that order. *)
Definition keys_counted (g : group) (n : nat) (cur : cursor) : Prop :=
  counter g (self cur) = n /\ dict_keys (instances g (self cur)) = seq 1 n.

(** The instance a group is filling: its number and its star sections. *)
Definition filling (g : group) (i : nat) (inner : sections) (cur : cursor) : Prop :=
  dollar_section cur = marker g /\ counter g (self cur) = i /\
  dict_get i (instances g (self cur)) = Some inner.

(** An instance that is complete is not touched by the lines that follow. *)
Definition frozen (g : group) (i : nat) (inner : sections) (cur : cursor) : Prop :=
  dict_get i (instances g (self cur)) = Some inner /\
  i <= counter g (self cur) /\
  (dollar_section cur = marker g -> i < counter g (self cur)).

End DasSpec.

(** ** The convergence sentinels of an output file *)

Module OutSpec.
Import Out.

(** The line says the analysis of [solver] succeeded (compared in lower
    case). *)
Definition has_success (solver : string) (line : string) : bool :=
  PyStr.contains ("successful " +:+ solver +:+ " analysis") (PyStr.lower line).

(** The line holds one of the four error sentinels. *)
Definition has_error (line : string) : bool :=
  PyStr.contains not_converged line || PyStr.contains no_restart_file line
  || PyStr.contains no_database line || PyStr.contains dongle line.

(** The line holds no sentinel of either kind. *)
Definition quiet (solver : string) (line : string) : Prop :=
  has_success solver line = false /\ has_error line = false.

(** What a line makes of the flag: an error sentinel wins over a success
    sentinel on the same line. *)
Definition line_verdict (solver : string) (c : option bool) (line : string)
  : option bool :=
  if has_error line then Some false
  else if has_success solver line then Some true
  else c.

End OutSpec.

(** ** The lines of a tab file *)

Module TabSpec.
Import Tab.

(** The line opens a table. *)
Definition opens_table (l : string) : bool := PyStr.contains "Table No." l.

(** The line starts a series. *)
Definition starts_series (l : string) : bool :=
  PyStr.eqb (PyStr.take 10 l) "Plot Data:".

(** The key a table line gives its table. *)
Definition table_key (l : string) : string := PyStr.replace PyStr.newline "" l.

(** A [Plot Data:] line with the title [title]. *)
Definition titled (title : string) (l : string) : Prop :=
  opens_table l = false /\ starts_series l = true /\
  Tab.after_colon l = Ok title.

(** The title of a series line: what follows its first colon. *)
Definition title_of (l : string) : string :=
  PyStr.strip (default "" (PyStr.split ":" l !! 1)).

(** The keys of a dictionary once [k] has been assigned to. *)
Definition add_key (k : string) (keys : list string) : list string :=
  if bool_decide (k ∈ keys) then keys else keys ++ [k].

(** The series of a table, as the specification words them: the keys made
    so far and a counter.  A series line whose title is empty, or is a key
    already, adds one to the counter and takes the key [Series n], [n] being
    the counter; any other series line takes its title. *)
Definition count_step (st : list string * nat) (l : string)
  : list string * nat :=
  if starts_series l then
    let a := title_of l in
    if PyStr.eqb a "" || bool_decide (a ∈ st.1)
    then (add_key ("Series " +:+ PyStr.of_nat (st.2 + 1)) st.1, st.2 + 1)
    else (st.1 ++ [a], st.2)
  else st.

(** The keys and the counter after the lines [ls] of a table, from its
    table line on. *)
Definition numbering (ls : list string) : list string * nat :=
  foldl count_step ([], 0) ls.

Definition series_keys (ls : list string) : list string := (numbering ls).1.

(** How many lines of [ls] took a key [Series n]. *)
Definition fired (ls : list string) : nat := (numbering ls).2.

(** The values a series holds under the key [axis], for the axes X and Y. *)
Definition values (axis : string) (sd : Tab.series_data) : list PyNum.float :=
  if PyStr.eqb axis "X" then Tab.X sd else Tab.Y sd.

Definition other_axis (axis : string) : string :=
  if PyStr.eqb axis "X" then "Y" else "X".

Definition same_labels (sd sd' : Tab.series_data) : Prop :=
  Tab.X_Label sd' = Tab.X_Label sd /\ Tab.Y_Label sd' = Tab.Y_Label sd /\
  Tab.X_Units sd' = Tab.X_Units sd /\ Tab.Y_Units sd' = Tab.Y_Units sd.

(** The table being read is a key of [tab_file_data]. *)
Definition table_open (p : parser) : Prop :=
  forall t, table p = Some t -> is_Some (dict_get t (tab_file_data p)).

(** What [offset_elevations] makes of one series, for the axes X and Y. *)
Definition shifted (offset : PyNum.float) (axis : string) (sd : series_data)
  : series_data :=
  if PyStr.eqb axis "X" then set_X (offset_list offset (X sd)) sd
  else set_Y (offset_list offset (Y sd)) sd.

End TabSpec.

(** ** The lines of a shear7 file *)

Module Shear7Spec.
Import Shear7.

(** The line is taken for a section marker by [parse_file]. *)
Definition is_marker (l : string) : bool := PyStr.contains "***" l.

(** The text [process_block3] builds from the rows it read, before its last
    comma is removed. *)
Fixpoint profile_text (prof : list (PyNum.float * PyNum.float)) : string :=
  match prof with
  | [] => ""
  | (depth, speed) :: prof' =>
      PyNum.float_repr depth +:+ "," +:+ PyNum.float_repr speed +:+ ","
      +:+ profile_text prof'
  end.

End Shear7Spec.

(** ** Carried values in the sections of a das model *)

Module CarrySpec.
Import Das.







(** A row of coefficients: none of the three keys is on it. *)
Definition is_row (s : string) : bool :=
  negb (PyStr.contains "SET=" s) && negb (PyStr.contains "DIAMETER=" s)
  && negb (PyStr.contains "OPTION=" s).










End CarrySpec.

(** ** Rows of [*NODE] and [*ELEMENT], read one at a time *)

Module DasQueriesSpec.
Import Das DasQueries.

(** What a line of [*NODE] holds: nothing when it has fewer than four
    fields, else the text of its node and its three coordinates. *)
Definition node_entry (n : string)
  : result (option (string * list PyNum.float)) :=
  let f := row_fields n in
  if 4 <=? length f then
    a ← py_index f 1; x ← PyNum.py_float a;
    b ← py_index f 2; y ← PyNum.py_float b;
    c ← py_index f 3; z ← PyNum.py_float c;
    k ← py_index f 0;
    Ok (Some (PyStr.strip k, [x; y; z]))
  else Ok None.

(** Whether an entry is the one of [node]. *)
Definition is_node (node : string)
    (en : option (string * list PyNum.float)) : bool :=
  match en with Some (k, _) => PyStr.eqb k node | None => false end.

(** What a line of [*ELEMENT] holds for [element]: its two nodes when the
    line is the one of the element and has three fields at least. *)
Definition element_entry (element : Z) (e : string)
  : result (option (string * string)) :=
  let f := row_fields e in
  e0 ← py_index f 0;
  if negb (PyStr.contains "GEN" e0) then
    n ← PyNum.py_int e0;
    if (n =? element)%Z && (3 <=? length f) then
      e1 ← py_index f 1; e2 ← py_index f 2; Ok (Some (e1, e2))
    else Ok None
  else Ok None.

(** The nodes an entry gives, as [first_node] and [second_node]. *)
Definition nodes_of (r : option (string * string))
  : option string * option string :=
  match r with Some (a, b) => (Some a, Some b) | None => (None, None) end.

(** The last entry that is not [None]. *)
Definition last_entry {A} (l : list (option A)) : option A :=
  foldl (fun acc x => match x with Some _ => x | None => acc end) None l.

(** The values the rows of a geometric set hold, token by token. *)
Definition row_values (rows : list string) : list (option PyNum.float) :=
  concat (map (fun s => map PyNum.float_of_string (PyStr.split "," s)) rows).

(** The name a [SET=] line of [*GEOMETRIC SETS] gives. *)
Definition geometric_name (s : string) : string :=
  default "" (head (PyStr.split ","
    (PyStr.strip (default "" (PyStr.split "SET=" s !! 1))))).

End DasQueriesSpec.

(** ** Series of a tab file *)

Module TabPostSpec.
Import Tab.

(** No series holds more values of Y than of X. *)
Definition balanced (d : dict string table_data) : Prop :=
  Forall (fun kv : string * table_data =>
            Forall (fun ks : string * series_data =>
                      length (Y ks.2) <= length (X ks.2)) kv.2) d.

(** The text a table line must have for [get_table_number] to read it. *)
Definition numbered_table (n : nat) (name : string) : string :=
  "Table No." +:+ PyStr.of_nat n +:+ " - " +:+ name.

(** The same with a blank after [No.]. *)
Definition spaced_table (n : nat) (name : string) : string :=
  "Table No. " +:+ PyStr.of_nat n +:+ " - " +:+ name.

End TabPostSpec.

(** ** Decimal numerals *)

Module StrSpec.

(** Every character of the string is a decimal digit. *)
Fixpoint all_digits (s : string) : bool :=
  match s with
  | EmptyString => true
  | String c s' => PyStr.is_digit c && all_digits s'
  end.

(** The character [c] is nowhere in the string. *)
Fixpoint lacks (c : ascii) (s : string) : bool :=
  match s with
  | EmptyString => true
  | String a s' => negb (bool_decide (a = c)) && lacks c s'
  end.

(** The number [n] is written with no more digits than [int] reads. *)
Definition readable (n : nat) : bool :=
  String.length (PyStr.of_nat n) <=? PyNum.max_str_digits.

End StrSpec.

(** ** Positions of lines *)

Module LineSpec.

(** The position, counted from [idx], of the first line that satisfies
    [p]. *)
Fixpoint first_index (p : string -> bool) (idx : nat) (lines : list string)
  : option nat :=
  match lines with
  | [] => None
  | l :: rest => if p l then Some idx else first_index p (S idx) rest
  end.

(** The position of the last one. *)
Fixpoint last_index (p : string -> bool) (idx : nat) (lines : list string)
  : option nat :=
  match lines with
  | [] => None
  | l :: rest =>
      match last_index p (S idx) rest with
      | Some i => Some i
      | None => if p l then Some idx else None
      end
  end.

(** The lines from the first that satisfies [p] on. *)
Fixpoint from_first (p : string -> bool) (lines : list string) : list string :=
  match lines with
  | [] => []
  | l :: rest => if p l then lines else from_first p rest
  end.

(** The lines up to the first that satisfies [p], that line included. *)
Fixpoint upto (p : string -> bool) (lines : list string) : list string :=
  match lines with
  | [] => []
  | l :: rest => if p l then [l] else l :: upto p rest
  end.

End LineSpec.

Module Shear7OutSpec.
Import Shear7Out LineSpec.

Definition is_results (l : string) : bool := PyStr.contains results_marker l.
Definition is_units (l : string) : bool := PyStr.contains units_marker l.

(** The lines [read_file] looks at: up to the first that holds the units
    marker, that line included. *)
Definition scanned (lines : list string) : list string := upto is_units lines.

End Shear7OutSpec.

Module FatigueSpec.
Import Fatigue.

Definition is_marker (l : string) : bool :=
  PyStr.contains "Results in Plot Format" l.

(** The lines of nine fields. *)
Definition nine_fields (lines : list string) : list (list string) :=
  filter (fun f => length f = 9) (map PyStr.split_ws lines).

End FatigueSpec.

Module MdsSpec.
Import Mds.

(** A mode as [read_mds_file] leaves it: as many segments as values of the
    mode shape, and neither slope nor curvature. *)
Definition well_formed (m : mode) : Prop :=
  length (segments m) = length (mode_shape m) /\
  mode_slope m = [] /\ mode_curvature m = [].

Definition all_well_formed (ms : dict Z mode) : Prop :=
  Forall (fun km : Z * mode => well_formed km.2) ms.

End MdsSpec.

Module Shear7BlocksSpec.
Import Shear7Blocks.

(** The keys of a zone of [section_properties], in the order they are
    written: those of every version, then those of the version. *)
Definition common_keys : list string :=
  ["name"; "start"; "end"; "hydro_diameter"; "inertia"; "dry_mass";
   "wet_mass"; "sn_curve_id"; "bandwidth"; "st_code"; "cl_reduction_factor";
   "zoneCLtype"].

Definition zone_keys (version : string) : list string :=
  common_keys ++
  (if PyStr.eqb version "4.10"
   then ["Ca"; "DampCoeff0"; "DampCoeff1"; "DampCoeff2"; "DampCoeff3";
         "DampCoeff4"]
   else if PyStr.eqb version "4.6"
   then ["Ca"; "DampCoeff1"; "DampCoeff2"; "DampCoeff3"]
   else []).

(** The zones are numbered from 0, and each holds the keys of the
    version. *)
Definition zones_numbered (version : string) (count : nat)
    (props : dict nat (dict string prop_value)) : Prop :=
  dict_keys props = seq 0 count /\
  Forall (fun kz : nat * dict string prop_value =>
            dict_keys kz.2 = zone_keys version) props.


End Shear7BlocksSpec.

Module OutSectionsSpec.
Import OutSections.

(** The line names a system of units. *)
Definition names_units (l : string) : bool :=
  PyStr.contains "Imperial" l || PyStr.contains "Metric" l.

(** The units a line names; [Imperial] comes first. *)
Definition units_of (l : string) : option string * option string :=
  if PyStr.contains "Imperial" l then (Some "Imperial", Some "ft")
  else (Some "Metric", Some "m").

(** A line as [read_out_file] stores it: not blank, and without newline. *)
Definition stored_line (l : string) : Prop :=
  PyStr.strip l <> "" /\ PyStr.contains PyStr.newline l = false.

End OutSectionsSpec.

Module DpxParseSpec.
Import DpxParse.

(** Every component stands under its own name, and no name stands twice. *)
Definition named (cs : dict string DPXComponent) : Prop :=
  Forall (fun kc : string * DPXComponent => name kc.2 = kc.1) cs /\
  NoDup (dict_keys cs).

End DpxParseSpec.

(** ** Sample inputs *)

(** The value a computation returned, or [default] when it raised. *)
Definition returned {A} (default : A) (r : result A) : A :=
  match r with Ok a => a | Raise _ => default end.

Module Samples.

(** A das file with one model and one load case. *)
Definition das_lines : list string :=
  ["$ANALYSIS"; "*UNITS"; "UNITS=METRIC"; "*ANALYSIS TYPE"; "TYPE=DYNAMIC";
   "$MODEL"; "*NODE"; "1,0,0,0"; "2,10,0,0"; "*OCEAN"; "100.0,1025";
   "$LOAD CASE"; "*DIRECTORY"; "DIRECTORY=a"].

Definition das_parsed : Das.DasFile :=
  returned Das.setup_variables
    (Das.parse_das_file_data das_lines Das.setup_variables).

(** A das file with no [$ANALYSIS] section. *)
Definition das_no_analysis : string :=
  PyStr.join PyStr.newline ["$MODEL"; "*OCEAN"; "100.0,1025"; ""].

(** The modal shape file of the specification's scenario. *)
Definition mds_text : string :=
  PyStr.join PyStr.newline
    ["2 3"; "1 1.5"; "2 2.0"; "1 0.0 1.0"; "1 2.0 0.5"; "2 0.0 2.0"].

(** A tab file with one table of one series. *)
Definition tab_lines : list string :=
  map (fun l => l +:+ PyStr.newline)
    ["Table No. 1 - Envelope of Effective Tension"; "X-Axis: Tension";
     "Y-Axis: Elevation"; "X-Units: kN"; "Y-Units: m"; "Plot Data: Max";
     "10.0" +:+ PyStr.tab +:+ "2.0"; "12.5" +:+ PyStr.tab +:+ "4.0"].

Definition tab_parsed : dict string Tab.table_data :=
  returned [] (Tab.parse_contents tab_lines).

Definition tab_table : string := "Table No. 1 - Envelope of Effective Tension".

(** A shear7 file whose block 3 declares two current points. *)
Definition shear7_lines : list string :=
  map (fun l => l +:+ PyStr.newline)
    ["shear7 data file"; "*** BLOCK 3. current data ***";
     "2  1.0  number of profile points, probability";
     "0.0, 1.5  depth, speed"; "100.0, 0.5"; "*** BLOCK 4. s-n curves ***";
     "1  number of curves"].

Definition shear7_parsed : Shear7.Shear7File :=
  returned Shear7.setup_variables
    (Shear7.parse_file shear7_lines Shear7.setup_variables).

(** The same block, its second row written with a row of stars. *)
Definition shear7_starred_lines : list string :=
  map (fun l => l +:+ PyStr.newline)
    ["*** BLOCK 3. current data ***"; "2  number of profile points";
     "0.0, 1.5"; "*** 100.0, 0.5"].

(** A model with element sets and hydrodynamic sets; the diameter of the
    set [Pup Joint] is written between its name and its coefficients. *)
Definition das_sets_lines : list string :=
  ["$MODEL"; "*ELEMENT SETS"; "SET=Riser"; "GEN=1,3"; "7,9";
   "SET=Riser"; "4"; "5,6"; "SET=Stack"; "10";
   "*HYDRODYNAMIC SETS"; "DIAMETER=1.0";
   "SET=Pup Joint, TYPE=CONSTANT"; "DIAMETER=1.5";
   "1.2,1.0,1.0,1.0,1.0,0.0"].

Definition das_sets_parsed : Das.DasFile :=
  returned Das.setup_variables
    (Das.parse_das_file_data das_sets_lines Das.setup_variables).

End Samples.

(** ** More sample inputs *)

Module MoreSamples.

(** A das file with two models and two load cases; the first model names
    [*NODE] twice. *)
Definition das_groups_lines : list string :=
  ["$ANALYSIS"; "*UNITS"; "UNITS=METRIC";
   "$MODEL"; "*NODE"; "1,0,0,0"; "*ELEMENT"; "1,1,2"; "*NODE"; "2,10,0,0";
   "$LOAD CASE"; "*DIRECTORY"; "DIRECTORY=a";
   "$MODEL"; "*NODE"; "3,0,0,0";
   "$LOAD CASE"; "*DIRECTORY"; "DIRECTORY=b"; "*TIME"; "0,10"].

Definition das_groups_parsed : Das.DasFile :=
  returned Das.setup_variables
    (Das.parse_das_file_data das_groups_lines Das.setup_variables).



(** The sample das file once [get_units] has run. *)
Definition das_with_units : Das.DasFile :=
  Das.set_units (Some "METRIC") (Some "m") [] Samples.das_parsed.

(** A model whose element 1 is written twice, with a [GEN] line between. *)
Definition das_element_lines : list string :=
  ["$MODEL"; "*NODE"; "1,0,0,0"; "2,10,0,0"; "3,20,0,0";
   "*ELEMENT"; "1, 1, 2"; "GEN=2,5"; "1, 2, 3";
   "*GEOMETRIC SETS"; "SET=Riser, TYPE=PIPE"; "1.0e6, n/a, 0.5";
   "SET=Casing"; "2.0"; "SET=Riser"; "3.0, 4.0"].

Definition das_element_model : sections :=
  [("*NODE", ["1,0,0,0"; "2,10,0,0"; "3,20,0,0"]);
   ("*ELEMENT", ["1, 1, 2"; "GEN=2,5"; "1, 2, 3"]);
   ("*GEOMETRIC SETS",
    ["SET=Riser, TYPE=PIPE"; "1.0e6, n/a, 0.5"; "SET=Casing"; "2.0";
     "SET=Riser"; "3.0, 4.0"])].

Definition das_elements : Das.DasFile :=
  returned Das.setup_variables
    (Das.parse_das_file_data das_element_lines Das.setup_variables).

(** A table of Von Mises stress with an envelope of two points. *)
Definition vms_table : string := "Table No.1 - Envelope of Von Mises Stress".

Definition vms_series : Tab.series_data :=
  {| Tab.X := [Prim2SF 1%float; Prim2SF 2%float];
     Tab.Y := [S754_zero false; Prim2SF 5%float];
     Tab.X_Label := ""; Tab.Y_Label := "";
     Tab.X_Units := ""; Tab.Y_Units := "" |}.

(** A tab file whose table line has no dash. *)
Definition tab_no_dash : list string :=
  map (fun l => l +:+ PyStr.newline)
    ["Table No.1 Effective Tension"; "Plot Data: Max"].

(** The modal shape file of the scenario, read. *)
Definition mds_parsed : Mds.CommonMds :=
  returned Mds.setup_variables (Mds.read_mds_file Samples.mds_text).

(** The lines of a shear7 output file: the results marker, the units
    marker, six lines of headings, two modes, a blank line and the count. *)
Definition shear7_out_lines : list string :=
  map (fun l => l +:+ PyStr.newline)
    ["SHEAR7"; "THE RESULTS OF PROGRAM ANALYSIS";
     "F = force; L = length; T = time."; "h1"; "h2"; "h3"; "h4"; "h5";
     "1 0.5 a b 10.0 c 1.0"; "2 1.5 a b 20.0 c 0.5"; "";
     "number of modes 2"; "end"].

(** A file that ends three lines after the units marker. *)
Definition shear7_out_short : list string :=
  map (fun l => l +:+ PyStr.newline)
    ["THE RESULTS OF PROGRAM ANALYSIS";
     "F = force; L = length; T = time."; "h1"; "h2"; "h3"].

(** A file with results and no units marker. *)
Definition shear7_out_no_units : list string :=
  map (fun l => l +:+ PyStr.newline)
    ["THE RESULTS OF PROGRAM ANALYSIS"; "h1"; "h2"].

(** The block 2 of a shear7 file of version 4.6 with one zone. *)
Definition shear7_block2 : dict string (list string) :=
  [("headers", []);
   ("BLOCK 2",
    ["units"; "1000.0  total length"; "100  segments"; "64.0  fluid";
     "1.0e-5  viscosity"; "0.003  damping"; "500.0  tension"; "1  zones";
     "0.0, 1.0  start and end of the zone               bare pipe";
     "0.5, 0.5  diameters"; "1.0e6, 10.0, 8.0  inertia and masses";
     "1.0 1  scf and curve"; "0.4, 0.18, 1.0, 1  bandwidth";
     "1.0, 0.2, 0.18, 0.2  damping"])].

(** Two sections of an output file, and the elements read from the
    first. *)
Definition out_tables : dict string (list string) :=
  [("headers", []);
   ("ELEMENT DATA",
    ["Element Start End"; "1 1 2 a b c d e f"; "2 2 3 a b c d e f"]);
   ("ELEMENT PROPERTIES",
    ["Element   Inertia"; "1  2.5"; "7  1.0"; "2  3.5"])].

Definition out_elements : dict Z OutSections.element :=
  returned [] (OutSections.process_element_data out_tables).

(** The lines of a dpx file with two components. *)
Definition dpx_lines : list string :=
  map (fun l => l +:+ PyStr.newline)
    ["<component name=" +:+ PyStr.dquote +:+ "Riser 1" +:+ PyStr.dquote
       +:+ " id=" +:+ PyStr.dquote +:+ "17" +:+ PyStr.dquote
       +:+ " type=" +:+ PyStr.dquote +:+ "Drilling Riser" +:+ PyStr.dquote
       +:+ ">";
     "<menu name=" +:+ PyStr.dquote +:+ "DR Storage Menu|||" +:+ PyStr.dquote
       +:+ ">";
     "<value name=" +:+ PyStr.dquote +:+ "Joint" +:+ PyStr.dquote
       +:+ " row=" +:+ PyStr.dquote +:+ "0" +:+ PyStr.dquote
       +:+ ">21</value>";
     "<component name=" +:+ PyStr.dquote +:+ "Pup" +:+ PyStr.dquote
       +:+ " id=" +:+ PyStr.dquote +:+ "21" +:+ PyStr.dquote
       +:+ " type=" +:+ PyStr.dquote +:+ "Drilling Riser Joint"
       +:+ PyStr.dquote +:+ ">";
     "<option name=" +:+ PyStr.dquote +:+ "Length" +:+ PyStr.dquote
       +:+ " value=" +:+ PyStr.dquote +:+ "10.0" +:+ PyStr.dquote +:+ "/>"].

Definition dpx_parsed : dict string DpxParse.DPXComponent :=
  returned [] (DpxParse.parse_dpx dpx_lines).

(** The locals of [process_hydro_sets] after the line of a constant set. *)
Definition hydro_constant : Das.hydro_state :=
  returned Das.hydro_start
    (Das.hydro_step Das.hydro_start "SET=Slick Joint, TYPE=CONSTANT").

End MoreSamples.

(** ** Proof automation *)

(** Inverts every hypothesis saying that a sequence of steps returned. *)
Ltac inv_bind :=
  repeat match goal with
    | H : mbind _ ?r = Ok _ |- _ =>
        let x := fresh "x" in
        let Hx := fresh "Hx" in
        destruct r as [x|] eqn:Hx;
        [cbn [mbind result_bind] in H | discriminate H]
    | H : Ok _ = Ok _ |- _ => injection H as H
    | H : Raise _ = Ok _ |- _ => discriminate H
    end; simpl in *; simplify_eq; simpl in *.

(** * Checks of the embedding on small inputs *)

Example split_ex2 : PyStr.split "," "a,,b," = ["a"; ""; "b"; ""].
Proof. reflexivity. Qed.
Example strip_ex : PyStr.strip "  a b  " = "a b".
Proof. reflexivity. Qed.
Example count_ex : PyStr.count "," "a,b,c" = 2.
Proof. reflexivity. Qed.
Example float_ex2 : PyNum.float_of_string "-2_0.25e1" = Some (Prim2SF (-202.5)%float).
Proof. vm_compute. reflexivity. Qed.
Example float_ex4 : PyNum.float_of_string "1." = Some (Prim2SF 1%float).
Proof. vm_compute. reflexivity. Qed.
Example float_ex6 :
  map PyNum.float_of_string ["Inf"; "-infinity"; "NaN"; "1E2"; "1.e1"; "-0"]
  = [Some (S754_infinity false); Some (S754_infinity true); Some S754_nan;
     Some (Prim2SF 100%float); Some (Prim2SF 10%float); Some (S754_zero true)].
Proof. vm_compute. reflexivity. Qed.

Example split_ex1 :
  PyStr.split "***" "*** BLOCK 3 *** x" = [""; " BLOCK 3 "; " x"].
Proof. reflexivity. Qed.

Example split_ws_ex : PyStr.split_ws "  2   3 " = ["2"; "3"].
Proof. reflexivity. Qed.

Example replace_ex : PyStr.replace "GEN=" "" "GEN=1,5" = "1,5".
Proof. reflexivity. Qed.

Example of_nat_ex : PyStr.of_nat 12 = "12".
Proof. reflexivity. Qed.

Example float_ex1 : PyNum.float_of_string " 1.5 " = Some (Prim2SF 1.5%float).
Proof. vm_compute. reflexivity. Qed.

Example float_ex3 : PyNum.float_of_string ".5" = Some (Prim2SF 0.5%float).
Proof. vm_compute. reflexivity. Qed.

Example float_ex5 :
  map PyNum.float_of_string ["."; "e5"; "1e"; "1_"; "_1"; "1__0"; "abc"; ""; "1 2"; "0x10"; "1._5"; "1_.5"]
  = replicate 12 None.
Proof. vm_compute. reflexivity. Qed.

Example int_ex : map PyNum.int_of_string [" 12 "; "-3"; "1_000"; "1.0"; ""; "+"; "007"]
  = [Some 12%Z; Some (-3)%Z; Some 1000%Z; None; None; None; Some 7%Z].
Proof. vm_compute. reflexivity. Qed.

Example das_parse_ex :
  Das.models <$> (match Das.parse_das_file_data
     (Das.read_das_file (PyStr.join PyStr.newline
        ["C a comment"; "$ANALYSIS"; "*UNITS"; " UNITS=IMPERIAL  "; "";
         "$MODEL"; "*NODE"; "1,0,0,0"; "*OCEAN"; "100.0,2"; "$MODEL"; "*NODE";
         "$LOAD CASE"; "*DIRECTORY"; "DIRECTORY=x"]))
     Das.setup_variables with Ok s => Some s | Raise _ => None end)
  = Some [(1, [("*NODE", ["1,0,0,0"]); ("*OCEAN", ["100.0,2"])]); (2, [("*NODE", [])])].
Proof. vm_compute. reflexivity. Qed.

(** * Dictionaries *)

Section DictFacts.
Context {K V : Type} `{EqDecision K}.
Implicit Types (d : dict K V).

Lemma dict_get_set_eq k v d : dict_get k (dict_set k v d) = Some v.
Proof.
  induction d as [|[k' v'] d IH]; simpl.
  - by rewrite decide_True.
  - destruct (decide (k = k')) as [->|Hne]; simpl.
    + by rewrite decide_True.
    + by rewrite decide_False.
Qed.

Lemma dict_get_set_ne k k' v d :
  k <> k' -> dict_get k' (dict_set k v d) = dict_get k' d.
Proof.
  intros Hne. induction d as [|[k2 v2] d IH]; simpl.
  - rewrite decide_False; [done | congruence].
  - destruct (decide (k = k2)) as [->|Hne2]; simpl.
    + rewrite !decide_False; [done | congruence | congruence].
    + destruct (decide (k' = k2)); [done | apply IH].
Qed.

Lemma dict_keys_set_present k v d :
  is_Some (dict_get k d) -> dict_keys (dict_set k v d) = dict_keys d.
Proof.
  induction d as [|[k' v'] d IH]; simpl.
  - intros [? ?]; discriminate.
  - destruct (decide (k = k')) as [->|Hne]; simpl; [done |].
    intros Hs. by rewrite IH.
Qed.

Lemma dict_keys_set_absent k v d :
  dict_get k d = None -> dict_keys (dict_set k v d) = dict_keys d ++ [k].
Proof.
  induction d as [|[k' v'] d IH]; simpl; [done |].
  destruct (decide (k = k')) as [->|Hne]; simpl; [discriminate |].
  intros Hn. by rewrite IH.
Qed.

Lemma dict_get_None_keys k d : dict_get k d = None <-> k ∉ dict_keys d.
Proof.
  induction d as [|[k' v'] d IH]; simpl.
  - split; [intros _; apply not_elem_of_nil | done].
  - rewrite not_elem_of_cons. destruct (decide (k = k')) as [->|Hne].
    + split; [discriminate | intros [? _]; done].
    + rewrite IH. tauto.
Qed.


Lemma dict_set_set k v v' d : dict_set k v (dict_set k v' d) = dict_set k v d.
Proof.
  induction d as [|[k' v2] d IH]; simpl.
  - by rewrite decide_True.
  - destruct (decide (k = k')) as [->|Hne]; simpl.
    + by rewrite decide_True.
    + rewrite decide_False; [by rewrite IH | done].
Qed.

Lemma dict_set_same k v d : dict_get k d = Some v -> dict_set k v d = d.
Proof.
  induction d as [|[k' v'] d IH]; simpl; [done |].
  destruct (decide (k = k')) as [->|Hne].
  - by intros [= ->].
  - intros Hg. by rewrite IH.
Qed.

End DictFacts.

(** * Strings *)

Lemma split_go_cons (sep : string) (s : string) : forall skip cur,
  exists x xs, PyStr.split_go sep skip cur s = x :: xs.
Proof.
  induction s as [|c s IH]; intros skip cur; simpl; [eauto |].
  destruct skip as [|k]; [| apply IH].
  destruct (PyStr.startswith sep (String c s)); [eauto | apply IH].
Qed.

(** [s.split(sep)] has a first field. *)
Lemma split_cons (sep s : string) : exists x xs, PyStr.split sep s = x :: xs.
Proof. apply split_go_cons. Qed.

Lemma split_first (sep s : string) :
  py_index (PyStr.split sep s) 0 = Ok (default "" (head (PyStr.split sep s))).
Proof. destruct (split_cons sep s) as (x & xs & ->). done. Qed.

Lemma eqb_true (s t : string) : PyStr.eqb s t = true <-> s = t.
Proof. unfold PyStr.eqb. apply bool_decide_eq_true. Qed.

Lemma eqb_false (s t : string) : PyStr.eqb s t = false <-> s <> t.
Proof. unfold PyStr.eqb. apply bool_decide_eq_false. Qed.

Lemma startswith_nil_r (p : string) : PyStr.startswith p "" = true -> p = "".
Proof. by destruct p. Qed.

Lemma contains_of_startswith (sub s : string) :
  PyStr.startswith sub s = true -> PyStr.contains sub s = true.
Proof. destruct s; simpl; by intros ->. Qed.

Lemma contains_cons (sub : string) c (s : string) :
  PyStr.contains sub s = true -> PyStr.contains sub (String c s) = true.
Proof. simpl. intros ->. apply orb_true_r. Qed.

Lemma contains_nonempty (sub s : string) :
  sub <> "" -> PyStr.contains sub s = true -> s <> "".
Proof. intros Hs Hc ->. simpl in Hc. by destruct sub. Qed.

Lemma startswith_take (p : string) : forall n s,
  PyStr.startswith p (PyStr.take n s) = true -> PyStr.startswith p s = true.
Proof.
  induction p as [|a p IH]; intros n s; simpl; [done |].
  destruct n as [|n], s as [|b s]; simpl; try done.
  rewrite !andb_true_iff. intros [? ?]. eauto.
Qed.

Lemma contains_take (sub : string) : forall n s,
  PyStr.contains sub (PyStr.take n s) = true -> PyStr.contains sub s = true.
Proof.
  intros n s. revert n. induction s as [|c s IH]; intros n.
  - by destruct n.
  - destruct n as [|n].
    + simpl. rewrite orb_false_r. intros ->%startswith_nil_r. done.
    + cbn [PyStr.take PyStr.contains]. rewrite !orb_true_iff.
      intros [H | H].
      * left. by apply (startswith_take sub (S n) (String c s)).
      * right. by eapply IH.
Qed.

(** A string that holds the separator splits into two fields at least. *)
Lemma split_go_two (sep : string) (s : string) :
  sep <> "" -> PyStr.contains sep s = true ->
  forall cur, exists a b rest, PyStr.split_go sep 0 cur s = a :: b :: rest.
Proof.
  intros Hsep. induction s as [|c s IH]; intros Hc cur.
  - simpl in Hc. by destruct sep.
  - cbn [PyStr.split_go]. cbn [PyStr.contains] in Hc.
    destruct (PyStr.startswith sep (String c s)) eqn:Hs.
    + destruct (split_go_cons sep s (String.length sep - 1) "")
        as (b & rest & ->). eauto.
    + simpl in Hc. apply IH. exact Hc.
Qed.

Lemma split_second (sep s : string) :
  sep <> "" -> PyStr.contains sep s = true ->
  exists x, py_index (PyStr.split sep s) 1 = Ok x.
Proof.
  intros Hsep Hc.
  destruct (split_go_two sep s Hsep Hc "") as (a & b & rest & Hsp).
  unfold PyStr.split. rewrite Hsp. by exists b.
Qed.

(** Removing the newlines of a string keeps what it holds that has none. *)
Lemma startswith_without_newlines (sub : string) : forall s,
  PyStr.contains PyStr.newline sub = false ->
  PyStr.startswith sub s = true ->
  PyStr.startswith sub (PyStr.replace PyStr.newline "" s) = true.
Proof.
  unfold PyStr.replace.
  induction sub as [|a sub IH]; intros s Hn Hs; [done |].
  destruct s as [|b s]; [done |].
  cbn [PyStr.startswith] in Hs. apply andb_true_iff in Hs as [Hab Hs].
  apply bool_decide_eq_true in Hab as <-.
  cbn [PyStr.contains PyStr.startswith PyStr.newline] in Hn.
  apply orb_false_iff in Hn as [Ha Hn].
  rewrite andb_true_r in Ha.
  cbn [PyStr.replace_go PyStr.startswith PyStr.newline].
  rewrite andb_true_r.
  destruct (bool_decide ("010"%char = a)) eqn:E; [done |].
  cbn [PyStr.startswith]. rewrite bool_decide_eq_true_2 by done.
  simpl. apply IH; done.
Qed.

Lemma contains_without_newlines (sub : string) (s : string) :
  PyStr.contains PyStr.newline sub = false ->
  PyStr.contains sub s = true ->
  PyStr.contains sub (PyStr.replace PyStr.newline "" s) = true.
Proof.
  intros Hn. induction s as [|c s IH]; intros Hc.
  - simpl in Hc. rewrite orb_false_r in Hc.
    apply startswith_nil_r in Hc as ->. done.
  - cbn [PyStr.contains] in Hc. apply orb_true_iff in Hc as [Hs | Hc].
    + apply contains_of_startswith.
      by apply startswith_without_newlines.
    + specialize (IH Hc). unfold PyStr.replace in *.
      cbn [PyStr.replace_go PyStr.startswith PyStr.newline].
      rewrite andb_true_r. simpl String.length. simpl Nat.sub.
      destruct (bool_decide ("010"%char = c)); [exact IH |].
      by apply contains_cons.
Qed.

Section DictMem.
Context {K V : Type} `{EqDecision K}.
Implicit Types (d : dict K V).

Lemma dict_mem_keys k d : dict_mem k d = true <-> k ∈ dict_keys d.
Proof.
  unfold dict_mem. destruct (dict_get k d) eqn:E.
  - split; [intros _ | done].
    destruct (decide (k ∈ dict_keys d)) as [|Hn]; [done |].
    apply dict_get_None_keys in Hn. congruence.
  - apply dict_get_None_keys in E. split; [done | intros; done].
Qed.

Lemma dict_mem_set_eq k v d : dict_mem k (dict_set k v d) = true.
Proof. unfold dict_mem. by rewrite dict_get_set_eq. Qed.

Lemma dict_mem_set_mono k k' v d :
  dict_mem k' d = true -> dict_mem k' (dict_set k v d) = true.
Proof.
  unfold dict_mem. destruct (decide (k = k')) as [->|Hne].
  - by rewrite dict_get_set_eq.
  - by rewrite dict_get_set_ne.
Qed.

Lemma dict_mem_same_keys k d d' :
  dict_keys d' = dict_keys d -> dict_mem k d = true -> dict_mem k d' = true.
Proof. intros Hk. rewrite !dict_mem_keys. by rewrite Hk. Qed.

End DictMem.

(** * Loops that may raise *)

Lemma foldM_app {S A} (f : S -> A -> result S) (s : S) (l1 l2 : list A) :
  foldM f s (l1 ++ l2) = (s' ← foldM f s l1; foldM f s' l2).
Proof.
  revert s. induction l1 as [|x l1 IH]; intros s; simpl; [done |].
  destruct (f s x) as [s1|e]; simpl; [apply IH | done].
Qed.

Lemma foldM_cons {S A} (f : S -> A -> result S) (s : S) x (l : list A) :
  foldM f s (x :: l) = (s' ← f s x; foldM f s' l).
Proof. done. Qed.

Lemma foldM_app_Ok {S A} (f : S -> A -> result S) (s s2 : S) (l1 l2 : list A) :
  foldM f s (l1 ++ l2) = Ok s2 ->
  exists s1, foldM f s l1 = Ok s1 /\ foldM f s1 l2 = Ok s2.
Proof.
  rewrite foldM_app. destruct (foldM f s l1) as [s1|e]; simpl; [eauto | done].
Qed.

Lemma foldM_cons_Ok {S A} (f : S -> A -> result S) (s s2 : S) x (l : list A) :
  foldM f s (x :: l) = Ok s2 ->
  exists s1, f s x = Ok s1 /\ foldM f s1 l = Ok s2.
Proof. simpl. destruct (f s x) as [s1|e]; simpl; [eauto | done]. Qed.

Lemma foldM_invariant {S A} (P : S -> Prop) (f : S -> A -> result S) (l : list A) :
  (forall s x s', P s -> f s x = Ok s' -> P s') ->
  forall s s', P s -> foldM f s l = Ok s' -> P s'.
Proof.
  intros Hstep. induction l as [|x l IH]; intros s s' HP; simpl.
  - intros [= <-]. done.
  - destruct (f s x) as [s1|e] eqn:E; simpl; [| done].
    apply IH. eapply Hstep; eauto.
Qed.

Lemma bind_Ok_inv {A B} (r : result A) (f : A -> result B) (b : B) :
  (x ← r; f x) = Ok b -> exists a, r = Ok a /\ f a = Ok b.
Proof. destruct r as [a|e]; simpl; [eauto | done]. Qed.

Lemma py_index_1 {A} (l : list A) x : py_index l 1 = Ok x -> l !! 1 = Some x.
Proof. destruct l as [|a [|b l]]; [done | done | by intros [= ->]]. Qed.


(** * das files: the section tree *)

Module DasFacts.
Import Das DasSpec.

Lemma getitem_Ok_inv {K V} `{EqDecision K} (show : K -> string) k (d : dict K V) v :
  getitem show k d = Ok v -> dict_get k d = Some v.
Proof. unfold getitem. destruct (dict_get k d); [by intros [= ->] | done]. Qed.

Lemma getitem_Some {K V} `{EqDecision K} (show : K -> string) k (d : dict K V) v :
  dict_get k d = Some v -> getitem show k d = Ok v.
Proof. unfold getitem. by intros ->. Qed.

Lemma marker_is_dollar g : is_dollar (marker g) = true.
Proof. by destruct g. Qed.

(** What one turn of the loop does to a group, by the kind of line. *)
Lemma parse_line_dollar g cur l :
  is_dollar l = true ->
  exists cur', parse_line cur l = Ok cur' /\
    dollar_section cur' = l /\ star_section cur' = star_section cur /\
    if decide (l = marker g)
    then counter g (self cur') = counter g (self cur) + 1 /\
         instances g (self cur')
         = dict_set (counter g (self cur) + 1) [] (instances g (self cur))
    else counter g (self cur') = counter g (self cur) /\
         instances g (self cur') = instances g (self cur).
Proof.
  destruct l as [|c l]; [done |]. simpl. intros Hc.
  apply bool_decide_eq_true in Hc as ->.
  unfold parse_line. simpl. eexists. split; [reflexivity |].
  simpl. split; [done |]. split; [done |].
  destruct g; simpl; repeat case_bool_decide; repeat case_decide;
    simplify_eq; simpl; done.
Qed.

Lemma parse_line_in_group g cur l :
  is_dollar l = false -> l <> "" -> dollar_section cur = marker g ->
  match (inner ← getitem PyStr.of_nat (counter g (self cur))
                   (instances g (self cur));
         section_step (star_section cur) l inner) with
  | Ok inner' =>
      exists cur', parse_line cur l = Ok cur' /\
        dollar_section cur' = marker g /\
        star_section cur' = (if is_star l then l else star_section cur) /\
        counter g (self cur') = counter g (self cur) /\
        instances g (self cur')
        = dict_set (counter g (self cur)) inner' (instances g (self cur))
  | Raise e => parse_line cur l = Raise e
  end.
Proof.
  destruct l as [|c l]; [done |]. intros Hd _ Hg.
  unfold parse_line, section_step, star_assign, star_append. simpl in *.
  apply bool_decide_eq_false in Hd. rewrite (bool_decide_eq_false_2 _ Hd).
  rewrite Hg.
  destruct g; simpl;
    (destruct (getitem _ _ _) as [inner|e]; simpl; [| by case_bool_decide]);
    case_bool_decide; simpl;
    try (destruct (getitem id _ inner) as [lines|e]; simpl; [| done]);
    eexists; (split; [reflexivity |]); simpl; done.
Qed.

Lemma parse_line_off_group g cur l cur' :
  is_dollar l = false -> dollar_section cur <> marker g ->
  parse_line cur l = Ok cur' ->
  dollar_section cur' = dollar_section cur /\
  counter g (self cur') = counter g (self cur) /\
  instances g (self cur') = instances g (self cur).
Proof.
  destruct l as [|c l]; [done |]. intros Hd Hg.
  unfold parse_line. simpl in *.
  apply bool_decide_eq_false in Hd. rewrite (bool_decide_eq_false_2 _ Hd).
  destruct g; simpl in *; repeat case_bool_decide; simplify_eq; simpl;
    intros Hp; inv_bind; done.
Qed.

(** What one turn of the loop does to [das_data]. *)
Lemma parse_line_das_data cur l cur' :
  parse_line cur l = Ok cur' ->
  (is_dollar l = true /\ l <> "$LOAD CASE" /\
   das_data (self cur') = dict_set l [] (das_data (self cur)))
  \/ das_data (self cur') = das_data (self cur)
  \/ (exists inner', dollar_section cur <> "$MODEL" /\
        dollar_section cur <> "$LOAD CASE" /\
        das_data (self cur')
        = dict_set (dollar_section cur) inner' (das_data (self cur))).
Proof.
  destruct l as [|c l]; [done |].
  unfold parse_line, star_assign, star_append. simpl.
  repeat case_bool_decide; simplify_eq; simpl; intros Hp; inv_bind;
    eauto 10.
Qed.

Lemma parse_line_model_key_empty cur l cur' :
  model_key_empty cur -> parse_line cur l = Ok cur' -> model_key_empty cur'.
Proof.
  intros [Hl Hm] Hp. unfold model_key_empty.
  destruct (parse_line_das_data _ _ _ Hp)
    as [(_ & Hne & ->) | [-> | (inner' & H1 & H2 & ->)]]; [| done |].
  - split; [by rewrite dict_get_set_ne |].
    destruct (decide (l = "$MODEL")) as [->|Hne'].
    + by rewrite dict_get_set_eq.
    + by rewrite dict_get_set_ne.
  - by rewrite !dict_get_set_ne.
Qed.

Lemma parse_line_no_load_case_key cur l cur' :
  dict_get "$LOAD CASE" (das_data (self cur)) = None ->
  parse_line cur l = Ok cur' ->
  dict_get "$LOAD CASE" (das_data (self cur')) = None.
Proof.
  intros Hl Hp.
  destruct (parse_line_das_data _ _ _ Hp)
    as [(_ & Hne & ->) | [-> | (inner' & H1 & H2 & ->)]]; [| done |];
    by rewrite dict_get_set_ne.
Qed.

Lemma parse_line_model_marker cur cur' :
  dict_get "$LOAD CASE" (das_data (self cur)) = None ->
  parse_line cur "$MODEL" = Ok cur' -> model_key_empty cur'.
Proof.
  intros Hl Hp. split; [by eapply parse_line_no_load_case_key |].
  revert Hp. unfold parse_line. simpl. intros [= <-]. simpl.
  by rewrite dict_get_set_eq.
Qed.

(** After [parse_das_file_data] has returned on lines of which one is
    [$MODEL], [das_data] maps ["$MODEL"] to an empty dictionary and has no key
    ["$LOAD CASE"]. *)
Lemma parsed_model_key (data : list string) (st : DasFile) :
  "$MODEL" ∈ data ->
  parse_das_file_data data setup_variables = Ok st ->
  dict_get "$MODEL" (das_data st) = Some [] /\
  dict_get "$LOAD CASE" (das_data st) = None.
Proof.
  intros Hin Hp. unfold parse_das_file_data in Hp. inv_bind.
  apply list_elem_of_split in Hin as (pre & post & ->).
  apply foldM_app_Ok in Hx as (c1 & Hpre & Hx).
  apply foldM_cons_Ok in Hx as (c2 & Hm & Hpost).
  assert (dict_get "$LOAD CASE" (das_data (self c1)) = None) as H1.
  { revert Hpre.
    apply (foldM_invariant
             (fun c => dict_get "$LOAD CASE" (das_data (self c)) = None));
      [| done].
    intros s l s' Hs. by apply parse_line_no_load_case_key. }
  assert (model_key_empty x) as [? ?]; [| done].
  revert Hpost. apply (foldM_invariant model_key_empty).
  - intros s l s' Hs. by apply parse_line_model_key_empty.
  - by eapply parse_line_model_marker.
Qed.

Lemma parse_line_nonempty cur l cur' : parse_line cur l = Ok cur' -> l <> "".
Proof. by intros Hp ->. Qed.

Lemma is_dollar_false_ne_marker g l : is_dollar l = false -> l <> marker g.
Proof. intros Hd ->. by rewrite marker_is_dollar in Hd. Qed.

Lemma parse_line_counted g n cur l cur' :
  keys_counted g n cur -> parse_line cur l = Ok cur' ->
  keys_counted g (n + count_marker g [l]) cur'.
Proof.
  intros [Hc Hk] Hp. unfold keys_counted, count_marker.
  rewrite filter_cons, filter_nil.
  destruct (is_dollar l) eqn:Hd.
  - destruct (parse_line_dollar g cur l Hd) as (c & Hp' & _ & _ & Hg).
    rewrite Hp in Hp'. injection Hp' as <-.
    destruct (decide (l = marker g)) as [->|Hne]; simpl.
    + destruct Hg as [-> ->]. rewrite Hc. split; [done |].
      rewrite dict_keys_set_absent, Hk.
      * rewrite seq_app. simpl. do 2 f_equal. lia.
      * apply dict_get_None_keys. rewrite Hk, elem_of_seq. lia.
    + destruct Hg as [-> ->]. by rewrite Nat.add_0_r.
  - rewrite decide_False by by apply is_dollar_false_ne_marker.
    simpl. rewrite Nat.add_0_r.
    destruct (decide (dollar_section cur = marker g)) as [Hg|Hg].
    + pose proof (parse_line_in_group g cur l Hd
                    (parse_line_nonempty _ _ _ Hp) Hg) as Hs.
      destruct (getitem _ _ _) as [inner|e] eqn:Hget; simpl in Hs;
        [| congruence].
      destruct (section_step _ _ _) as [inner'|e]; [| congruence].
      destruct Hs as (c & Hp' & _ & _ & Hc' & Hi').
      rewrite Hp in Hp'. injection Hp' as <-.
      rewrite Hc', Hi'. split; [done |].
      rewrite dict_keys_set_present; [done |].
      apply getitem_Ok_inv in Hget. by rewrite Hget.
    + destruct (parse_line_off_group g cur l cur' Hd Hg Hp) as (_ & -> & ->).
      done.
Qed.

Lemma count_marker_cons g l data :
  count_marker g (l :: data) = count_marker g [l] + count_marker g data.
Proof.
  unfold count_marker. rewrite !filter_cons, filter_nil.
  by case_decide.
Qed.

Lemma count_marker_app g l1 l2 :
  count_marker g (l1 ++ l2) = count_marker g l1 + count_marker g l2.
Proof. unfold count_marker. by rewrite filter_app, length_app. Qed.

Lemma foldM_counted g data : forall n cur cur',
  keys_counted g n cur -> foldM parse_line cur data = Ok cur' ->
  keys_counted g (n + count_marker g data) cur'.
Proof.
  induction data as [|l data IH]; intros n cur cur' Hk Hp.
  - injection Hp as <-. unfold count_marker. simpl. by rewrite Nat.add_0_r.
  - apply foldM_cons_Ok in Hp as (c1 & Hl & Hp).
    rewrite count_marker_cons, Nat.add_assoc.
    eapply IH; [| exact Hp]. by eapply parse_line_counted.
Qed.

Lemma is_data_spec l :
  is_data l = true -> is_dollar l = false /\ is_star l = false /\ l <> "".
Proof.
  destruct l as [|c l]; simpl; [done |].
  rewrite andb_true_iff, !negb_true_iff. by intros [-> ->].
Qed.

Lemma is_star_spec l : is_star l = true -> is_dollar l = false /\ l <> "".
Proof.
  destruct l as [|c l]; simpl; [done |].
  intros ->%bool_decide_eq_true. done.
Qed.

(** The data lines of a star section are appended to its list, and none of
    them makes the loop raise. *)
Lemma parse_chunk_data g i h ds : forall cur inner lines,
  Forall (fun l => is_data l = true) ds ->
  filling g i inner cur -> star_section cur = h ->
  dict_get h inner = Some lines ->
  exists cur', foldM parse_line cur ds = Ok cur' /\
    star_section cur' = h /\
    filling g i (dict_set h (lines ++ ds) inner) cur'.
Proof.
  induction ds as [|l ds IH]; intros cur inner lines Hds Hf Hs Hl.
  - exists cur. split; [done |]. split; [done |].
    destruct Hf as (Hd & Hc & Hi). rewrite app_nil_r.
    split; [done |]. split; [done |]. by rewrite dict_set_same.
  - apply Forall_cons in Hds as [Hdl Hds].
    apply is_data_spec in Hdl as (Hnd & Hns & Hne).
    destruct Hf as (Hd & Hc & Hi).
    pose proof (parse_line_in_group g cur l Hnd Hne Hd) as Hstep.
    rewrite Hc, (getitem_Some _ _ _ _ Hi) in Hstep. simpl in Hstep.
    unfold section_step in Hstep. rewrite Hns, Hs in Hstep.
    rewrite (getitem_Some _ _ _ _ Hl) in Hstep. simpl in Hstep.
    destruct Hstep as (c1 & Hp1 & Hd1 & Hs1 & Hc1 & Hi1).
    destruct (IH c1 (dict_set h (lines ++ [l]) inner) (lines ++ [l]))
      as (c2 & Hp2 & Hs2 & Hf2); [done | | done | |].
    + split; [done |]. split; [congruence |].
      by rewrite Hi1, dict_get_set_eq.
    + by rewrite dict_get_set_eq.
    + exists c2. simpl. rewrite Hp1. simpl. split; [done |]. split; [done |].
      by rewrite dict_set_set, <- app_assoc in Hf2.
Qed.

(** The star sections of a block are stored in the instance being filled,
    whatever star header was met last before the block. *)
Lemma parse_block g i cs : forall cur acc,
  Forall chunk_ok cs -> filling g i acc cur ->
  exists cur', foldM parse_line cur (block_lines cs) = Ok cur' /\
    filling g i (block_sections_from acc cs) cur'.
Proof.
  induction cs as [|[h ds] cs IH]; intros cur acc Hcs Hf.
  - exists cur. done.
  - apply Forall_cons in Hcs as [[Hh Hds] Hcs]. simpl in Hh, Hds.
    apply is_star_spec in Hh as Hh'. destruct Hh' as [Hnd Hne].
    destruct Hf as (Hd & Hc & Hi).
    pose proof (parse_line_in_group g cur h Hnd Hne Hd) as Hstep.
    rewrite Hc, (getitem_Some _ _ _ _ Hi) in Hstep. simpl in Hstep.
    unfold section_step in Hstep. rewrite Hh in Hstep.
    destruct Hstep as (c1 & Hp1 & Hd1 & Hs1 & Hc1 & Hi1).
    destruct (parse_chunk_data g i h ds c1 (dict_set h [] acc) [])
      as (c2 & Hp2 & Hs2 & Hf2); [done | | done | |].
    + split; [done |]. split; [congruence |].
      by rewrite Hi1, dict_get_set_eq.
    + by rewrite dict_get_set_eq.
    + rewrite dict_set_set in Hf2. simpl in Hf2.
      destruct (IH c2 (dict_set h ds acc) Hcs Hf2) as (c3 & Hp3 & Hf3).
      exists c3. split; [| done].
      unfold block_lines. simpl. rewrite Hp1. simpl.
      rewrite foldM_app, Hp2. done.
Qed.

Lemma parse_line_frozen g i inner cur l cur' :
  frozen g i inner cur -> parse_line cur l = Ok cur' -> frozen g i inner cur'.
Proof.
  intros (Hi & Hle & Hlt) Hp. unfold frozen.
  destruct (is_dollar l) eqn:Hd.
  - destruct (parse_line_dollar g cur l Hd) as (c & Hp' & Hd' & _ & Hg).
    rewrite Hp in Hp'. injection Hp' as <-.
    destruct (decide (l = marker g)) as [->|Hne].
    + destruct Hg as [-> ->]. rewrite dict_get_set_ne by lia.
      split; [done |]. split; [lia |]. intros _. lia.
    + destruct Hg as [-> ->]. split; [done |]. split; [done |].
      rewrite Hd'. done.
  - destruct (decide (dollar_section cur = marker g)) as [Hg|Hg].
    + pose proof (parse_line_in_group g cur l Hd
                    (parse_line_nonempty _ _ _ Hp) Hg) as Hs.
      destruct (_ ← getitem _ _ _; _) as [inner'|e]; [| congruence].
      destruct Hs as (c & Hp' & Hd' & _ & Hc' & Hi').
      rewrite Hp in Hp'. injection Hp' as <-.
      rewrite Hc', Hi'. specialize (Hlt Hg).
      rewrite dict_get_set_ne by lia. split; [done |]. split; [lia |].
      intros _. lia.
    + destruct (parse_line_off_group g cur l cur' Hd Hg Hp) as (-> & -> & ->).
      done.
Qed.

Lemma block_sections_from_nodup (cs : list chunk) : forall acc,
  NoDup (dict_keys acc ++ map fst cs) ->
  block_sections_from acc cs = acc ++ cs.
Proof.
  induction cs as [|[h ds] cs IH]; intros acc Hnd; simpl.
  - by rewrite app_nil_r.
  - unfold block_sections_from. simpl.
    assert (dict_set h ds acc = acc ++ [(h, ds)]) as ->.
    { apply NoDup_app in Hnd as (_ & Hnd & _).
      assert (h ∉ dict_keys acc) as Hh.
      { intros Hin. apply (Hnd h Hin). simpl. left. }
      clear -Hh. induction acc as [|[k v] acc IH]; simpl in *; [done |].
      apply not_elem_of_cons in Hh as [Hne Hh].
      rewrite decide_False by done. by rewrite IH. }
    fold (block_sections_from (acc ++ [(h, ds)]) cs). rewrite IH.
    + by rewrite <- app_assoc.
    + unfold dict_keys in *. rewrite map_app, <- app_assoc. done.
Qed.

Lemma block_sections_nodup (cs : list chunk) :
  NoDup (map fst cs) -> block_sections cs = cs.
Proof. intros Hnd. by apply (block_sections_from_nodup cs []). Qed.

Lemma keys_counted_start g : keys_counted g 0 (start setup_variables).
Proof. by destruct g. Qed.

(** When [parse_das_file_data] returns, the instances of a group are
    numbered by its markers and each holds the star sections of its block. *)
Lemma parsed_groups (g : group) (data : list string) (st : DasFile) :
  parse_das_file_data data setup_variables = Ok st ->
  counter g st = count_marker g data /\
  dict_keys (instances g st) = seq 1 (count_marker g data) /\
  forall pre cs post,
    data = pre ++ marker g :: block_lines cs ++ post ->
    Forall chunk_ok cs ->
    (forall l, head post = Some l -> is_dollar l = true) ->
    dict_get (count_marker g pre + 1) (instances g st)
    = Some (block_sections cs).
Proof.
  intros Hp. unfold parse_das_file_data in Hp. inv_bind.
  rename x into fin.
  pose proof (foldM_counted g data 0 _ _ (keys_counted_start g) Hx) as [Hc Hk].
  simpl in Hc, Hk. split; [done |]. split; [done |].
  intros pre cs post -> Hcs Hpost.
  apply foldM_app_Ok in Hx as (c1 & Hpre & Hx).
  apply foldM_cons_Ok in Hx as (c2 & Hm & Hx).
  pose proof (foldM_counted g pre 0 _ _ (keys_counted_start g) Hpre) as [Hc1 _].
  simpl in Hc1.
  destruct (parse_line_dollar g c1 (marker g) (marker_is_dollar g))
    as (c & Hm' & Hd2 & _ & Hg).
  rewrite Hm in Hm'. injection Hm' as <-.
  rewrite decide_True in Hg by done. destruct Hg as [Hc2 Hi2].
  assert (filling g (count_marker g pre + 1) [] c2) as Hf.
  { split; [done |]. split; [congruence |].
    by rewrite Hi2, Hc1, dict_get_set_eq. }
  destruct (parse_block g _ cs c2 [] Hcs Hf) as (c3 & Hblk & Hf3).
  rewrite foldM_app, Hblk in Hx. simpl in Hx.
  fold (block_sections cs) in Hf3. destruct Hf3 as (Hd3 & Hc3 & Hi3).
  destruct post as [|l post].
  - injection Hx as <-. done.
  - apply foldM_cons_Ok in Hx as (c4 & Hl & Hx).
    assert (frozen g (count_marker g pre + 1) (block_sections cs) c4) as Hfr.
    { specialize (Hpost l eq_refl).
      destruct (parse_line_dollar g c3 l Hpost) as (c & Hl' & Hd4 & _ & Hg).
      rewrite Hl in Hl'. injection Hl' as <-.
      destruct (decide (l = marker g)) as [->|Hne]; destruct Hg as [Hc4 Hi4].
      - split; [by rewrite Hi4, dict_get_set_ne by lia |].
        split; [lia |]. intros _. lia.
      - split; [by rewrite Hi4 |]. split; [lia |]. by rewrite Hd4. }
    assert (frozen g (count_marker g pre + 1) (block_sections cs) fin)
      as (? & _); [| done].
    revert Hx. apply (foldM_invariant (frozen g _ _)); [| done].
    intros s x s'. apply parse_line_frozen.
Qed.

End DasFacts.

(** * das files: the lines the parse accepts *)

Module DasTotal.
Import Das DasSpec.

Lemma parse_line_dollar_holds cur l :
  is_dollar l = true ->
  exists cur', parse_line cur l = Ok cur' /\ holds [] cur' /\
    star_section cur' = star_section cur.
Proof.
  destruct l as [|c l]; [done |]. cbn [is_dollar].
  intros ->%bool_decide_eq_true.
  unfold parse_line. cbn [first_char mbind result_bind].
  rewrite bool_decide_eq_true_2 by done.
  eexists. split; [reflexivity |]. split; [| done].
  unfold holds. cbn [dollar_section self].
  repeat case_bool_decide; repeat case_decide; simplify_eq; cbn;
    by rewrite dict_get_set_eq.
Qed.

Lemma parse_line_open cur l inner :
  holds inner cur -> is_dollar l = false -> l <> "" ->
  match section_step (star_section cur) l inner with
  | Ok inner' =>
      exists cur', parse_line cur l = Ok cur' /\ holds inner' cur' /\
        star_section cur' = (if is_star l then l else star_section cur)
  | Raise e => parse_line cur l = Raise e
  end.
Proof.
  destruct l as [|c l]; [done |]. intros Hh Hd _.
  cbn [is_dollar] in Hd. apply bool_decide_eq_false in Hd.
  unfold parse_line, section_step, star_assign, star_append.
  cbn [first_char mbind result_bind is_star].
  rewrite (bool_decide_eq_false_2 _ Hd). unfold holds in *.
  destruct (decide (dollar_section cur = "$MODEL")) as [Hm|Hm].
  - rewrite !(bool_decide_eq_true_2 _ Hm).
    rewrite (DasFacts.getitem_Some _ _ _ _ Hh). cbn [mbind result_bind].
    case_bool_decide; cbn [mbind result_bind];
      try (destruct (getitem id (star_section cur) inner) as [lines|e];
           cbn [mbind result_bind]; [| done]);
      (eexists; split; [reflexivity |]); cbn;
      rewrite decide_True by done; by rewrite dict_get_set_eq.
  - rewrite !(bool_decide_eq_false_2 _ Hm).
    destruct (decide (dollar_section cur = "$LOAD CASE")) as [Hl|Hl].
    + rewrite !(bool_decide_eq_true_2 _ Hl).
      rewrite (DasFacts.getitem_Some _ _ _ _ Hh). cbn [mbind result_bind].
      case_bool_decide; cbn [mbind result_bind];
        try (destruct (getitem id (star_section cur) inner) as [lines|e];
             cbn [mbind result_bind]; [| done]);
        (eexists; split; [reflexivity |]); cbn;
        rewrite decide_False, decide_True by done;
        by rewrite dict_get_set_eq.
    + rewrite !(bool_decide_eq_false_2 _ Hl).
      rewrite (DasFacts.getitem_Some _ _ _ _ Hh). cbn [mbind result_bind].
      case_bool_decide; cbn [mbind result_bind];
        try (destruct (getitem id (star_section cur) inner) as [lines|e];
             cbn [mbind result_bind]; [| done]);
        (eexists; split; [reflexivity |]); cbn;
        rewrite !decide_False by done;
        by rewrite dict_get_set_eq.
Qed.

Lemma foldM_accepted data : forall cur inner,
  holds inner cur ->
  is_ok (foldM parse_line cur data)
  = accepted (dict_mem (star_section cur) inner) data.
Proof.
  induction data as [|l data IH]; intros cur inner Hh; [done |].
  rewrite foldM_cons. cbn [accepted].
  destruct (is_dollar l) eqn:Hd.
  - destruct (parse_line_dollar_holds cur l Hd) as (c1 & -> & Hh1 & Hs1).
    cbn [mbind result_bind]. by rewrite (IH c1 [] Hh1).
  - destruct (decide (l = "")) as [->|Hne]; [done |].
    rewrite (proj2 (eqb_false _ _) Hne). cbn [negb andb].
    pose proof (parse_line_open cur l inner Hh Hd Hne) as Hstep.
    unfold section_step in Hstep. destruct (is_star l) eqn:Hst.
    + destruct Hstep as (c1 & -> & Hh1 & Hs1). cbn [mbind result_bind].
      rewrite (IH c1 _ Hh1), Hs1. by rewrite dict_mem_set_eq.
    + unfold dict_mem, getitem in *.
      destruct (dict_get (star_section cur) inner) as [lines|] eqn:Hg;
        cbn [mbind result_bind] in Hstep.
      * destruct Hstep as (c1 & -> & Hh1 & Hs1). cbn [mbind result_bind andb].
        rewrite (IH c1 _ Hh1), Hs1. unfold dict_mem.
        by rewrite dict_get_set_eq.
      * by rewrite Hstep.
Qed.

(** [parse_das_file_data] returns on exactly the lines [accepted] admits. *)
Lemma parse_returns_iff_accepted data :
  is_ok (parse_das_file_data data setup_variables) = accepted true data.
Proof.
  unfold parse_das_file_data.
  pose proof (foldM_accepted data (start setup_variables) [("headers", [])])
    as H.
  change (dict_mem _ _) with true in H.
  rewrite <- H by done.
  by destruct (foldM parse_line (start setup_variables) data).
Qed.

Lemma parse_accepted data :
  accepted true data = true ->
  exists st, parse_das_file_data data setup_variables = Ok st.
Proof.
  rewrite <- parse_returns_iff_accepted.
  destruct (parse_das_file_data data setup_variables); [eauto | done].
Qed.

Example accepted_examples :
  map (accepted true)
    [ ["a preamble line"; "$MODEL"; "*NODE"; "1,0,0,0"; "$LOAD CASE"];
      ["$MODEL"; "1,0,0,0"];
      ["*NODE"; "$MODEL"; "1,0,0,0"] ]
  = [true; false; false]
  /\ map (fun data => is_ok (parse_das_file_data data setup_variables))
       [ ["$MODEL"; "1,0,0,0"]; ["*NODE"; "$MODEL"; "1,0,0,0"] ]
     = [false; false].
Proof. split; vm_compute; reflexivity. Qed.

End DasTotal.

(** * das files: the claims on the section tree *)

Module DasClaims.
Import Das DasSpec.

(** C1, as amended.  On the lines [parse_das_file_data] accepts (every data
    line comes after a star header of its own dollar section) the parse
    returns, and a repeatable group ([$MODEL] in [models], [$LOAD CASE] in
    [load_cases]) whose marker stands on r lines has exactly r instances,
    keyed 1 to r in the order of the markers; the instance of a marker holds
    the star sections of the lines between that marker and the next dollar
    line, a star header that comes again in the block starting its list
    afresh. *)
Theorem occurrence_counting (g : group) (data : list string) :
  accepted true data = true ->
  exists st,
    parse_das_file_data data setup_variables = Ok st /\
    counter g st = count_marker g data /\
    dict_keys (instances g st) = seq 1 (count_marker g data) /\
    forall pre cs post,
      data = pre ++ marker g :: block_lines cs ++ post ->
      Forall chunk_ok cs ->
      (forall l, head post = Some l -> is_dollar l = true) ->
      dict_get (count_marker g pre + 1) (instances g st)
      = Some (block_sections cs).
Proof.
  intros Hacc. destruct (DasTotal.parse_accepted data Hacc) as [st Hp].
  exists st. split; [done |]. by apply DasFacts.parsed_groups.
Qed.

Lemma occurrence_counting_witness :
  accepted true MoreSamples.das_groups_lines = true /\
  parse_das_file_data MoreSamples.das_groups_lines setup_variables
  = Ok MoreSamples.das_groups_parsed /\
  (no_models MoreSamples.das_groups_parsed = 2 /\
   dict_keys (models MoreSamples.das_groups_parsed) = [1; 2] /\
   dict_get 1 (models MoreSamples.das_groups_parsed)
   = Some [("*NODE", ["2,10,0,0"]); ("*ELEMENT", ["1,1,2"])] /\
   dict_get 2 (models MoreSamples.das_groups_parsed)
   = Some [("*NODE", ["3,0,0,0"])]) /\
  (no_load_cases MoreSamples.das_groups_parsed = 2 /\
   dict_keys (load_cases MoreSamples.das_groups_parsed) = [1; 2] /\
   dict_get 1 (load_cases MoreSamples.das_groups_parsed)
   = Some [("*DIRECTORY", ["DIRECTORY=a"])] /\
   dict_get 2 (load_cases MoreSamples.das_groups_parsed)
   = Some [("*DIRECTORY", ["DIRECTORY=b"]); ("*TIME", ["0,10"])]).
Proof.
  assert (accepted true MoreSamples.das_groups_lines = true) as Hacc.
  { vm_compute. reflexivity. }
  assert (parse_das_file_data MoreSamples.das_groups_lines setup_variables
          = Ok MoreSamples.das_groups_parsed) as Hp.
  { vm_compute. reflexivity. }
  split; [exact Hacc |]. split; [exact Hp |]. split.
  - destruct (occurrence_counting Model _ Hacc) as (st & Hst & Hc & Hk & Hblk).
    assert (st = MoreSamples.das_groups_parsed) as -> by congruence.
    split; [exact Hc |]. split; [exact Hk |]. split.
    + exact (Hblk
        ["$ANALYSIS"; "*UNITS"; "UNITS=METRIC"]
        [("*NODE", ["1,0,0,0"]); ("*ELEMENT", ["1,1,2"]);
         ("*NODE", ["2,10,0,0"])]
        ["$LOAD CASE"; "*DIRECTORY"; "DIRECTORY=a";
         "$MODEL"; "*NODE"; "3,0,0,0";
         "$LOAD CASE"; "*DIRECTORY"; "DIRECTORY=b"; "*TIME"; "0,10"]
        eq_refl
        ltac:(repeat constructor)
        ltac:(intros l [= <-]; reflexivity)).
    + exact (Hblk
        ["$ANALYSIS"; "*UNITS"; "UNITS=METRIC";
         "$MODEL"; "*NODE"; "1,0,0,0"; "*ELEMENT"; "1,1,2"; "*NODE";
         "2,10,0,0"; "$LOAD CASE"; "*DIRECTORY"; "DIRECTORY=a"]
        [("*NODE", ["3,0,0,0"])]
        ["$LOAD CASE"; "*DIRECTORY"; "DIRECTORY=b"; "*TIME"; "0,10"]
        eq_refl
        ltac:(repeat constructor)
        ltac:(intros l [= <-]; reflexivity)).
  - destruct (occurrence_counting LoadCase _ Hacc)
      as (st & Hst & Hc & Hk & Hblk).
    assert (st = MoreSamples.das_groups_parsed) as -> by congruence.
    split; [exact Hc |]. split; [exact Hk |]. split.
    + exact (Hblk
        ["$ANALYSIS"; "*UNITS"; "UNITS=METRIC";
         "$MODEL"; "*NODE"; "1,0,0,0"; "*ELEMENT"; "1,1,2"; "*NODE";
         "2,10,0,0"]
        [("*DIRECTORY", ["DIRECTORY=a"])]
        ["$MODEL"; "*NODE"; "3,0,0,0";
         "$LOAD CASE"; "*DIRECTORY"; "DIRECTORY=b"; "*TIME"; "0,10"]
        eq_refl
        ltac:(repeat constructor)
        ltac:(intros l [= <-]; reflexivity)).
    + exact (Hblk
        ["$ANALYSIS"; "*UNITS"; "UNITS=METRIC";
         "$MODEL"; "*NODE"; "1,0,0,0"; "*ELEMENT"; "1,1,2"; "*NODE";
         "2,10,0,0"; "$LOAD CASE"; "*DIRECTORY"; "DIRECTORY=a";
         "$MODEL"; "*NODE"; "3,0,0,0"]
        [("*DIRECTORY", ["DIRECTORY=b"]); ("*TIME", ["0,10"])]
        []
        eq_refl
        ltac:(repeat constructor)
        ltac:(intros l [=])).
Defined.

(** C1 as stated fails where a star header comes twice after one marker:
    the parse returns, and the data line under the first [*NODE] is held by
    no star section of the instance. *)
Lemma repeated_star_header_drops_lines :
  exists st,
    parse_das_file_data ["$MODEL"; "*NODE"; "1,0,0,0"; "*NODE"; "2,0,0,0"]
      setup_variables = Ok st /\
    models st = [(1, [("*NODE", ["2,0,0,0"])])] /\
    concat (map snd (default [] (dict_get 1 (models st)))) = ["2,0,0,0"].
Proof. eexists. split; [reflexivity |]. split; reflexivity. Qed.

(** C10.  On lines [parse_das_file_data] accepts, one of which is [$MODEL],
    the parse returns and [das_data] maps ["$MODEL"] to an empty dictionary;
    it has no key ["$LOAD CASE"].  What follows a [$MODEL] marker, up to the
    next dollar line, is held by [models]: the instance the marker opened
    has the star sections of those lines. *)
Theorem model_entry_of_das_data_stays_empty (data : list string) :
  "$MODEL" ∈ data -> accepted true data = true ->
  exists st,
    parse_das_file_data data setup_variables = Ok st /\
    dict_get "$MODEL" (das_data st) = Some [] /\
    dict_get "$LOAD CASE" (das_data st) = None /\
    forall pre cs post,
      data = pre ++ "$MODEL" :: block_lines cs ++ post ->
      Forall chunk_ok cs ->
      (forall l, head post = Some l -> is_dollar l = true) ->
      dict_get (count_marker Model pre + 1) (models st)
      = Some (block_sections cs).
Proof.
  intros Hin Hacc. destruct (DasTotal.parse_accepted data Hacc) as [st Hp].
  exists st. split; [done |].
  destruct (DasFacts.parsed_model_key data st Hin Hp) as [Hm Hl].
  split; [done |]. split; [done |].
  by destruct (DasFacts.parsed_groups Model data st Hp) as (_ & _ & Hblk).
Qed.

Lemma model_entry_of_das_data_stays_empty_witness :
  "$MODEL" ∈ Samples.das_lines /\
  accepted true Samples.das_lines = true /\
  parse_das_file_data Samples.das_lines setup_variables = Ok Samples.das_parsed /\
  dict_get "$MODEL" (das_data Samples.das_parsed) = Some [] /\
  dict_get "$LOAD CASE" (das_data Samples.das_parsed) = None /\
  dict_get 1 (models Samples.das_parsed)
  = Some [("*NODE", ["1,0,0,0"; "2,10,0,0"]); ("*OCEAN", ["100.0,1025"])].
Proof.
  assert ("$MODEL" ∈ Samples.das_lines) as Hin.
  { apply list_elem_of_In. simpl. tauto. }
  assert (accepted true Samples.das_lines = true) as Hacc.
  { vm_compute. reflexivity. }
  assert (parse_das_file_data Samples.das_lines setup_variables
          = Ok Samples.das_parsed) as Hp.
  { vm_compute. reflexivity. }
  destruct (model_entry_of_das_data_stays_empty Samples.das_lines Hin Hacc)
    as (st & Hst & Hm & Hl & Hblk).
  assert (st = Samples.das_parsed) as -> by congruence.
  split; [exact Hin |]. split; [exact Hacc |]. split; [exact Hp |].
  split; [exact Hm |]. split; [exact Hl |].
  exact (Hblk
    ["$ANALYSIS"; "*UNITS"; "UNITS=METRIC"; "*ANALYSIS TYPE"; "TYPE=DYNAMIC"]
    [("*NODE", ["1,0,0,0"; "2,10,0,0"]); ("*OCEAN", ["100.0,1025"])]
    ["$LOAD CASE"; "*DIRECTORY"; "DIRECTORY=a"]
    eq_refl
    ltac:(repeat constructor)
    ltac:(intros l [= <-]; reflexivity)).
Defined.

End DasClaims.

(** * das files: sections that are absent *)

Module DasErrors.
Import Das.

(** [get_units] guards its reading of [$ANALYSIS]: on a file without that
    section it returns, and notes the missing units in [errors]. *)
Lemma get_units_without_analysis (s : DasFile) :
  dict_get "$ANALYSIS" (das_data s) = None -> truthy (units s) = false ->
  get_units s
  = Ok (set_units (units s) (length_unit s) (errors s ++ ["Units not found"]) s).
Proof. intros Ha Hu. unfold get_units. rewrite Ha. simpl. by rewrite Hu. Qed.

(** [get_analysis_type] does not: it raises. *)
Lemma get_analysis_type_without_analysis (s : DasFile) :
  dict_get "$ANALYSIS" (das_data s) = None ->
  get_analysis_type s = Raise (KeyError "$ANALYSIS").
Proof. intros Ha. unfold get_analysis_type, getitem. by rewrite Ha. Qed.

(** The name of a load case is read from [*DIRECTORY] unguarded. *)
Lemma load_case_name_without_directory (lc : sections) :
  dict_get "*DIRECTORY" lc = None ->
  load_case_name lc = Raise (KeyError "*DIRECTORY").
Proof. intros Hd. unfold load_case_name, getitem. by rewrite Hd. Qed.

Lemma parse_line_dollar_section cur l cur' :
  parse_line cur l = Ok cur' ->
  dollar_section cur' = l \/ dollar_section cur' = dollar_section cur.
Proof.
  destruct l as [|c l]; [done |]. unfold parse_line. cbn [first_char].
  cbn [mbind result_bind]. repeat case_bool_decide; intros Hp; inv_bind; auto.
Qed.

Lemma parse_line_units cur l cur' :
  parse_line cur l = Ok cur' ->
  units (self cur') = units (self cur) /\ errors (self cur') = errors (self cur).
Proof.
  destruct l as [|c l]; [done |]. unfold parse_line. cbn [first_char].
  cbn [mbind result_bind]. repeat case_bool_decide; intros Hp; inv_bind; auto.
Qed.

(** A file with no [$ANALYSIS] line leaves [das_data] without that key. *)
Lemma parse_without_analysis_line data s :
  "$ANALYSIS" ∉ data ->
  parse_das_file_data data setup_variables = Ok s ->
  dict_get "$ANALYSIS" (das_data s) = None /\ units s = None /\ errors s = [].
Proof.
  intros Hnin Hp. unfold parse_das_file_data in Hp.
  apply bind_Ok_inv in Hp as (fin & Hf & Hp). injection Hp as <-.
  assert (forall ls cur cur',
            "$ANALYSIS" ∉ ls -> foldM parse_line cur ls = Ok cur' ->
            (dict_get "$ANALYSIS" (das_data (self cur)) = None /\
             dollar_section cur <> "$ANALYSIS" /\
             units (self cur) = None /\ errors (self cur) = []) ->
            (dict_get "$ANALYSIS" (das_data (self cur')) = None /\
             dollar_section cur' <> "$ANALYSIS" /\
             units (self cur') = None /\ errors (self cur') = [])) as Hinv.
  { induction ls as [|l ls IH]; intros cur cur' Hn Hfold Hc.
    - by injection Hfold as <-.
    - apply not_elem_of_cons in Hn as [Hl Hn].
      apply foldM_cons_Ok in Hfold as (c1 & Hs & Hfold).
      apply (IH c1 cur' Hn Hfold).
      destruct Hc as (Hg & Hd & Hu & He).
      destruct (parse_line_units _ _ _ Hs) as [-> ->].
      split; [| split; [| done]].
      + destruct (DasFacts.parse_line_das_data _ _ _ Hs)
          as [(_ & _ & ->) | [-> | (inner' & _ & _ & ->)]]; [| done |];
          by rewrite dict_get_set_ne.
      + destruct (parse_line_dollar_section _ _ _ Hs) as [-> | ->]; done. }
  destruct (Hinv data (start setup_variables) fin Hnin Hf) as (? & _ & ? & ?);
    done.
Qed.

(** Every das file without an [$ANALYSIS] line that [parse_das_file_data]
    accepts makes the constructor raise in [get_analysis_type]. *)
Lemma init_raises_whenever_analysis_is_absent text s :
  "$ANALYSIS" ∉ read_das_file text ->
  parse_das_file_data (read_das_file text) setup_variables = Ok s ->
  init_to_water_depth text = Raise (KeyError "$ANALYSIS").
Proof.
  intros Hn Hp. unfold init_to_water_depth. rewrite Hp.
  cbn [mbind result_bind].
  destruct (parse_without_analysis_line _ _ Hn Hp) as (Ha & Hu & He).
  rewrite get_units_without_analysis by (done || by rewrite Hu).
  cbn [mbind result_bind].
  by rewrite get_analysis_type_without_analysis.
Qed.

(** C2.  On a das file with a model and no [$ANALYSIS] section the
    constructor does not return a record: [parse_das_file_data] and
    [get_units] return (the latter noting the missing units), and
    [get_analysis_type] raises [KeyError]. *)
Theorem init_raises_without_analysis :
  (exists s,
     parse_das_file_data (read_das_file Samples.das_no_analysis)
       setup_variables = Ok s /\
     dict_get "$ANALYSIS" (das_data s) = None /\
     errors <$> get_units s = Ok ["Units not found"]) /\
  init_to_water_depth Samples.das_no_analysis = Raise (KeyError "$ANALYSIS").
Proof.
  split; [eexists; split; [vm_compute; reflexivity |] |];
    vm_compute; auto.
Qed.

End DasErrors.

(** * The modal shape file *)

(** C8.  The six-line modal shape file parses to 2 modes and 3 nodes; mode 1
    has natural frequency 1.5 and mode shape 1.0, 0.5. *)
Theorem modal_shape_scenario :
  exists r m1,
    Mds.read_mds_file Samples.mds_text = Ok r /\
    Mds.no_of_modes r = Some 2%Z /\
    Mds.no_of_nodes r = Some 3%Z /\
    dict_get 1%Z (Mds.modes r) = Some m1 /\
    Mds.Nat_Freq_rad_s m1 = Prim2SF 1.5%float /\
    Mds.mode_shape m1 = [Prim2SF 1.0%float; Prim2SF 0.5%float].
Proof.
  do 2 eexists. split; [vm_compute; reflexivity |].
  repeat split; vm_compute; reflexivity.
Qed.

Example mds_text_lines :
  PyStr.readlines Samples.mds_text
  = map (fun l => l +:+ PyStr.newline) ["2 3"; "1 1.5"; "2 2.0"; "1 0.0 1.0"; "1 2.0 0.5"]
    ++ ["2 0.0 2.0"].
Proof. vm_compute. reflexivity. Qed.

(** The three ways a line can end are read as a newline. *)
Example readlines_line_ends :
  PyStr.readlines
    ("a" +:+ String "013" PyStr.newline +:+ "b" +:+ String "013" "c"
     +:+ PyStr.newline)
  = ["a" +:+ PyStr.newline; "b" +:+ PyStr.newline; "c" +:+ PyStr.newline].
Proof. vm_compute. reflexivity. Qed.

(** * Numeric coercion *)

Module DpxFacts.
Import Dpx.

(** C3, as amended.  [convert_to_number] returns the float a token reads as;
    on a token that does not read as a float it returns the token itself
    under the default flags, [None] under [return_none] and NaN under
    [return_np_nan]; it raises only when both flags are set, and it keeps no
    list of errors.  A field converted by a bare [float], such as the water
    depth, raises [ValueError] on such a token. *)
Theorem numeric_coercion_fallback :
  (forall s,
     (forall x, PyNum.float_of_string s = Some x ->
        convert_to_number s false false = Ok (VFloat x) /\
        convert_to_number s true false = Ok (VFloat x) /\
        convert_to_number s false true = Ok (VFloat x)) /\
     (PyNum.float_of_string s = None ->
        convert_to_number s false false = Ok (VStr s) /\
        convert_to_number s true false = Ok VNone /\
        convert_to_number s false true = Ok (VFloat S754_nan)) /\
     is_ok (convert_to_number s true true) = false) /\
  (forall st m l0 rest,
     dict_get 1 (Das.models st) = Some m ->
     dict_get "*OCEAN" m = Some (l0 :: rest) ->
     PyNum.float_of_string (default "" (head (PyStr.split "," l0))) = None ->
     Das.process_water_depth 1 st = Raise ValueError).
Proof.
  split.
  - intros s. unfold convert_to_number. simpl.
    split; [intros x -> | split; [intros -> |]]; done.
  - intros st m l0 rest Hm Ho Hf.
    unfold Das.process_water_depth, getitem. rewrite Hm. simpl. rewrite Ho.
    simpl. rewrite split_first. simpl.
    unfold PyNum.py_float. by rewrite Hf.
Qed.

Lemma numeric_coercion_fallback_witness :
  PyNum.float_of_string "12.5" = Some (Prim2SF 12.5%float) /\
  convert_to_number "12.5" true false = Ok (VFloat (Prim2SF 12.5%float)) /\
  PyNum.float_of_string "n/a" = None /\
  convert_to_number "n/a" true false = Ok VNone /\
  Das.process_water_depth 1
    (Das.set_models 1 [(1, [("*OCEAN", ["n/a,1025"])])] Das.setup_variables)
  = Raise ValueError.
Proof.
  assert (PyNum.float_of_string "12.5" = Some (Prim2SF 12.5%float)) as H1.
  { vm_compute. reflexivity. }
  assert (PyNum.float_of_string "n/a" = None) as H2.
  { vm_compute. reflexivity. }
  destruct numeric_coercion_fallback as [Hc Hw].
  split; [exact H1 |].
  split; [exact (proj1 (proj2 (proj1 (Hc "12.5") _ H1))) |].
  split; [exact H2 |].
  split; [exact (proj1 (proj2 (proj1 (proj2 (Hc "n/a")) H2))) |].
  apply (Hw _ [("*OCEAN", ["n/a,1025"])] "n/a,1025" []);
    [reflexivity | reflexivity | vm_compute; reflexivity].
Defined.

(** C3 as stated fails: under the default flags the token that is no number
    is what the numeric field gets. *)
Lemma default_policy_returns_the_token :
  PyNum.float_of_string "n/a" = None /\
  convert_to_number "n/a" false false = Ok (VStr "n/a").
Proof. split; vm_compute; reflexivity. Qed.

End DpxFacts.

(** * Output files: the convergence flag *)

Module OutFacts.
Import Out OutSpec.

Lemma read_line_converged solver s key line s' key' :
  read_line solver (s, key) line = Ok (s', key') ->
  converged s' = line_verdict solver (converged s) line.
Proof.
  unfold read_line, line_verdict, has_error, has_success.
  destruct (PyStr.contains (_ +:+ _) _), (PyStr.contains not_converged line),
    (PyStr.contains no_restart_file line), (PyStr.contains no_database line),
    (PyStr.contains dongle line); simpl;
    repeat case_match; intros Hr; inv_bind; done.
Qed.

(** The key lines are filed under is always a key of [out_data], so no turn
    of the loop raises. *)
Lemma read_line_total solver s key line :
  is_Some (dict_get key (out_data s)) ->
  exists s' key', read_line solver (s, key) line = Ok (s', key') /\
    is_Some (dict_get key' (out_data s')).
Proof.
  intros [ls Hk]. unfold read_line.
  destruct (if PyStr.contains no_restart_file line then _ else _) as [r c].
  repeat case_match; simpl;
    try (rewrite (DasFacts.getitem_Some _ _ _ _ Hk); simpl);
    do 2 eexists; (split; [reflexivity |]); simpl;
    rewrite ?dict_get_set_eq; eauto.
Qed.

Lemma read_lines_total solver lines : forall s key,
  is_Some (dict_get key (out_data s)) ->
  exists s' key', foldM (read_line solver) (s, key) lines = Ok (s', key') /\
    converged s' = foldl (line_verdict solver) (converged s) lines.
Proof.
  induction lines as [|l lines IH]; intros s key Hk; [simpl; eauto |].
  destruct (read_line_total solver s key l Hk) as (s1 & k1 & Hr & Hk1).
  cbn [foldM foldl]. rewrite Hr. simpl.
  destruct (IH s1 k1 Hk1) as (s2 & k2 & Hf & Hc).
  exists s2, k2. split; [done |].
  by rewrite Hc, (read_line_converged _ _ _ _ _ _ Hr).
Qed.

Lemma line_verdict_None solver c l :
  line_verdict solver c l = None <-> quiet solver l /\ c = None.
Proof.
  unfold line_verdict, quiet.
  destruct (has_error l), (has_success solver l); intuition congruence.
Qed.

Lemma line_verdict_Some solver c l b :
  line_verdict solver c l = Some b <->
  (has_error l = true /\ b = false)
  \/ (has_error l = false /\ has_success solver l = true /\ b = true)
  \/ (quiet solver l /\ c = Some b).
Proof.
  unfold line_verdict, quiet.
  destruct (has_error l), (has_success solver l), b; intuition congruence.
Qed.

(** The flag is [None] only when every line is quiet. *)
Lemma verdict_None solver lines : forall c,
  foldl (line_verdict solver) c lines = None <->
  Forall (quiet solver) lines /\ c = None.
Proof.
  induction lines as [|l lines IH]; intros c; simpl.
  - split; [by intros -> | by intros [_ ->]].
  - rewrite IH, line_verdict_None, Forall_cons. tauto.
Qed.

(** Otherwise the last line that is not quiet decides. *)
Lemma verdict_Some solver lines b : forall c,
  foldl (line_verdict solver) c lines = Some b <->
  (exists pre l post, lines = pre ++ l :: post /\
     line_verdict solver None l = Some b /\ Forall (quiet solver) post)
  \/ (Forall (quiet solver) lines /\ c = Some b).
Proof.
  induction lines as [|l lines IH]; intros c; simpl.
  - split.
    + intros ->. right. done.
    + intros [(pre & l & post & Hl & _) | [_ ->]]; [| done].
      by destruct pre.
  - rewrite IH. split.
    + intros [(pre & x & post & -> & Hx & Hq) | [Hq Hc]].
      * left. exists (l :: pre), x, post. done.
      * apply line_verdict_Some in Hc as [[He ->] | [(He & Hs & ->) | [Hl ->]]].
        -- left. exists [], l, lines. split; [done |]. split; [| done].
           apply line_verdict_Some. by left.
        -- left. exists [], l, lines. split; [done |]. split; [| done].
           apply line_verdict_Some. right. by left.
        -- right. by rewrite Forall_cons.
    + intros [(pre & x & post & Hl & Hx & Hq) | [Hq ->]].
      * destruct pre as [|y pre]; simpl in Hl; simplify_eq.
        -- right. split; [done |].
           apply line_verdict_Some in Hx.
           apply line_verdict_Some.
           destruct Hx as [? | [? | [_ ?]]]; [by left | by right; left | done].
        -- left. by exists pre, x, post.
      * apply Forall_cons in Hq as [Hl Hq]. right. split; [done |].
        apply line_verdict_Some. by right; right.
Qed.

(** C9.  [read_out_file] returns on any lines, and [converged] is then
    three-valued: [None] exactly when no line holds a sentinel; [True]
    exactly when the last line holding one says the analysis of the solver
    succeeded and holds no error sentinel; [False] exactly when the last line
    holding one holds an error sentinel. *)
Theorem converged_is_three_valued (solver : string) (lines : list string) :
  exists s,
    read_out_file solver lines setup_variables = Ok s /\
    (converged s = None <-> Forall (quiet solver) lines) /\
    (converged s = Some true <->
       exists pre l post, lines = pre ++ l :: post /\
         has_success solver l = true /\ has_error l = false /\
         Forall (quiet solver) post) /\
    (converged s = Some false <->
       exists pre l post, lines = pre ++ l :: post /\
         has_error l = true /\ Forall (quiet solver) post).
Proof.
  destruct (read_lines_total solver lines setup_variables "headers")
    as (s & key & Hr & Hc); [by eexists |].
  exists s. unfold read_out_file. rewrite Hr. simpl. split; [done |].
  rewrite Hc. simpl. split; [| split].
  - rewrite verdict_None. tauto.
  - rewrite verdict_Some. split.
    + intros [(pre & l & post & -> & Hl & Hq) | [_ ?]]; [| done].
      exists pre, l, post. split; [done |].
      apply line_verdict_Some in Hl as [[_ ?] | [(? & ? & _) | [_ ?]]]; done.
    + intros (pre & l & post & -> & Hs & He & Hq). left.
      exists pre, l, post. split; [done |]. split; [| done].
      apply line_verdict_Some. right. by left.
  - rewrite verdict_Some. split.
    + intros [(pre & l & post & -> & Hl & Hq) | [_ ?]]; [| done].
      exists pre, l, post. split; [done |].
      apply line_verdict_Some in Hl as [[? _] | [(_ & _ & ?) | [_ ?]]]; done.
    + intros (pre & l & post & -> & He & Hq). left.
      exists pre, l, post. split; [done |]. split; [| done].
      apply line_verdict_Some. by left.
Qed.

Example converged_examples :
  map (fun lines =>
         converged <$> read_out_file "deepriser"
                         (map (fun l => l +:+ PyStr.newline) lines)
                         setup_variables)
    [ ["  *** NODAL DATA ***"; " 1  0.0"];
      ["Successful DeepRiser analysis"];
      ["Successful DeepRiser analysis"; "Please insert the dongle"];
      ["Error: Solution has failed to converge."; "successful deepriser analysis"];
      ["successful flexcom analysis"] ]
  = [Ok None; Ok (Some true); Ok (Some false); Ok (Some true); Ok None].
Proof. vm_compute. reflexivity. Qed.

End OutFacts.

(** * Tab files *)

Module TabFacts.
Import Tab TabSpec.

Lemma after_colon_prefix n pfx line :
  PyStr.contains ":" pfx = true ->
  PyStr.eqb (PyStr.take n line) pfx = true ->
  exists x, after_colon line = Ok x.
Proof.
  intros Hp Ht. apply eqb_true in Ht. rewrite <- Ht in Hp.
  apply contains_take in Hp.
  destruct (split_second ":" line) as (x & Hx); [done | done |].
  unfold after_colon. rewrite Hx. simpl. eauto.
Qed.

(** A field read after a prefix that ends in a colon is always there. *)
Lemma guarded_after_colon {A} n pfx line (k : string -> A) (dflt : A) :
  PyStr.contains ":" pfx = true ->
  exists v,
    (if PyStr.eqb (PyStr.take n line) pfx
     then u ← after_colon line; Ok (k u) else Ok dflt) = Ok v.
Proof.
  intros Hp. destruct (PyStr.eqb _ _) eqn:E; [| eauto].
  destruct (after_colon_prefix n pfx line Hp E) as (x & ->). simpl. eauto.
Qed.

Lemma guarded_after_colon_id n pfx line (dflt : string) :
  PyStr.contains ":" pfx = true ->
  exists v,
    (if PyStr.eqb (PyStr.take n line) pfx
     then after_colon line else Ok dflt) = Ok v.
Proof.
  intros Hp. destruct (PyStr.eqb _ _) eqn:E; [| eauto].
  destruct (after_colon_prefix n pfx line Hp E) as (x & ->). eauto.
Qed.

(** The [try] block adds values to a series that is there; it adds no
    series and no table. *)
Lemma try_append_keys t ser line (d : dict string table_data) td :
  dict_get t d = Some td ->
  exists td', dict_get t (try_append t ser line d) = Some td' /\
    dict_keys td' = dict_keys td.
Proof.
  intros Ht. unfold try_append. rewrite Ht.
  destruct ser as [sname|]; [| eauto].
  destruct (dict_get sname td) as [sd|] eqn:Hs; [| eauto].
  repeat case_match; eauto;
    (eexists; split; [apply dict_get_set_eq |]);
    apply dict_keys_set_present; by rewrite Hs.
Qed.

(** One turn of the loop on a line that opens no table, inside a table. *)
Lemma parse_line_in_table p line t td :
  PyStr.contains "Table No." line = false ->
  table p = Some t -> t <> "" ->
  dict_get t (tab_file_data p) = Some td ->
  exists p' td',
    parse_line p line = Ok p' /\ table p' = Some t /\
    dict_get t (tab_file_data p') = Some td' /\
    (forall k, dict_mem k td = true -> dict_mem k td' = true) /\
    if PyStr.eqb (PyStr.take 10 line) "Plot Data:" then
      exists title, after_colon line = Ok title /\
        let fire := PyStr.eqb title "" || dict_mem title td in
        let name := if fire
                    then "Series " +:+ PyStr.of_nat (series_count p + 1)
                    else title in
        series_count p'
        = (if fire then series_count p + 1 else series_count p) /\
        series p' = Some name /\ dict_mem name td' = true /\
        exists sd, dict_keys td' = dict_keys (dict_set name sd td)
    else series_count p' = series_count p /\ dict_keys td' = dict_keys td.
Proof.
  intros Hnt Ht Hne Htd. unfold parse_line. rewrite Hnt, Ht.
  destruct t as [|c0 t0]; [done |]. set (t := String c0 t0) in *.
  destruct (guarded_after_colon_id 7 "X-Axis:" line (x_axis_label p) eq_refl)
    as (xl & ->).
  destruct (guarded_after_colon_id 7 "Y-Axis:" line (y_axis_label p) eq_refl)
    as (yl & ->).
  cbn [mbind result_bind].
  destruct (guarded_after_colon 8 "X-Units:" line
              (fun u => (u, if negb (PyStr.eqb u "")
                            then xl +:+ " (" +:+ u +:+ ")" else xl))
              (x_units p, xl) eq_refl) as ([xu xl'] & ->).
  cbn [mbind result_bind].
  destruct (guarded_after_colon 8 "Y-Units:" line
              (fun u => (u, if negb (PyStr.eqb u "")
                            then yl +:+ " (" +:+ u +:+ ")" else yl))
              (y_units p, yl) eq_refl) as ([yu yl'] & ->).
  cbn [mbind result_bind].
  destruct (PyStr.eqb (PyStr.take 10 line) "Plot Data:") eqn:Hplot.
  - destruct (after_colon_prefix 10 "Plot Data:" line eq_refl Hplot)
      as (title & Hti).
    rewrite Hti. cbn [mbind result_bind].
    rewrite (DasFacts.getitem_Some _ _ _ _ Htd). cbn [mbind result_bind].
    set (fire := PyStr.eqb title "" || dict_mem title td).
    set (name := if fire then "Series " +:+ PyStr.of_nat (series_count p + 1)
                 else title).
    set (sd := {| X := []; Y := []; X_Label := xl'; Y_Label := yl';
                  X_Units := xu; Y_Units := yu |}).
    destruct (try_append_keys t (Some name) line
                (dict_set t (dict_set name sd td) (tab_file_data p))
                (dict_set name sd td)) as (td' & Hg & Hk);
      [apply dict_get_set_eq |].
    exists {| tab_file_data :=
                try_append t (Some name) line
                  (dict_set t (dict_set name sd td) (tab_file_data p));
              table := Some t; series := Some name;
              series_count := if fire then series_count p + 1
                              else series_count p;
              x_axis_label := xl'; y_axis_label := yl';
              x_units := xu; y_units := yu |}, td'.
    split; [subst name; by destruct fire |].
    split; [done |]. split; [done |]. split.
    + intros k Hm. apply (dict_mem_same_keys _ _ _ Hk).
      by apply dict_mem_set_mono.
    + exists title. split; [done |]. cbn zeta. fold fire. fold name.
      split; [done |]. split; [done |]. split; [| by exists sd].
      apply (dict_mem_same_keys _ _ _ Hk), dict_mem_set_eq.
  - cbn [mbind result_bind].
    destruct (try_append_keys t (series p) line (tab_file_data p) td Htd)
      as (td' & Hg & Hk).
    eexists _, td'. split; [reflexivity |]. simpl.
    split; [done |]. split; [done |]. split; [| done].
    intros k. apply (dict_mem_same_keys _ _ _ Hk).
Qed.

Lemma parse_line_table p line :
  PyStr.contains "Table No." line = true ->
  let t := PyStr.replace PyStr.newline "" line in
  exists p', parse_line p line = Ok p' /\ table p' = Some t /\ t <> "" /\
    series_count p' = 0 /\ dict_get t (tab_file_data p') = Some [].
Proof.
  intros Ht t. unfold parse_line. rewrite Ht. eexists. split; [done |].
  simpl. split; [done |]. split.
  - apply (contains_nonempty "Table No."); [done |].
    by apply contains_without_newlines.
  - split; [done |]. apply dict_get_set_eq.
Qed.

(** No turn of the loop of [parse_contents] raises. *)
Lemma parse_line_total p line :
  table_open p -> exists p', parse_line p line = Ok p' /\ table_open p'.
Proof.
  intros Hp. destruct (PyStr.contains "Table No." line) eqn:Ht.
  - destruct (parse_line_table p line Ht) as (p' & Hl & Ht' & _ & _ & Hg).
    exists p'. split; [done |]. intros t. rewrite Ht'. intros [= <-].
    by rewrite Hg.
  - destruct (table p) as [t|] eqn:Htab.
    + destruct (decide (t = "")) as [->|Hne].
      * exists p. split; [| done]. unfold parse_line. by rewrite Ht, Htab.
      * destruct (Hp t Htab) as [td Htd].
        destruct (parse_line_in_table p line t td Ht Htab Hne Htd)
          as (p' & td' & Hl & Ht' & Hg & _).
        exists p'. split; [done |]. intros t2. rewrite Ht'. intros [= <-].
        by rewrite Hg.
    + exists p. split; [| done]. unfold parse_line. by rewrite Ht, Htab.
Qed.

Lemma parse_lines_total lines : forall p,
  table_open p ->
  exists p', foldM parse_line p lines = Ok p' /\ table_open p'.
Proof.
  induction lines as [|l lines IH]; intros p Hp; [by exists p |].
  destruct (parse_line_total p l Hp) as (p1 & Hl & Hp1).
  destruct (IH p1 Hp1) as (p2 & Hf & Hp2).
  exists p2. cbn [foldM]. rewrite Hl. done.
Qed.

(** Inside a table, until the next table line, the series only grow in
    number. *)
Lemma parse_lines_in_table lines : forall p t td,
  Forall (fun l => PyStr.contains "Table No." l = false) lines ->
  table p = Some t -> t <> "" ->
  dict_get t (tab_file_data p) = Some td ->
  exists p' td', foldM parse_line p lines = Ok p' /\ table p' = Some t /\
    dict_get t (tab_file_data p') = Some td' /\
    (forall k, dict_mem k td = true -> dict_mem k td' = true).
Proof.
  induction lines as [|l lines IH]; intros p t td Hls Ht Hne Htd.
  - exists p, td. done.
  - apply Forall_cons in Hls as [Hl Hls].
    destruct (parse_line_in_table p l t td Hl Ht Hne Htd)
      as (p1 & td1 & Hp1 & Ht1 & Hg1 & Hm1 & _).
    destruct (IH p1 t td1 Hls Ht1 Hne Hg1) as (p2 & td2 & Hp2 & Ht2 & Hg2 & Hm2).
    exists p2, td2. cbn [foldM]. rewrite Hp1. split; [done |].
    split; [done |]. split; [done |]. eauto.
Qed.

(** Lines of a table that start no series leave the counter where it is. *)
Lemma parse_lines_no_series lines : forall p t td,
  Forall (fun l => PyStr.contains "Table No." l = false /\
                   PyStr.eqb (PyStr.take 10 l) "Plot Data:" = false) lines ->
  table p = Some t -> t <> "" ->
  dict_get t (tab_file_data p) = Some td ->
  exists p' td', foldM parse_line p lines = Ok p' /\ table p' = Some t /\
    dict_get t (tab_file_data p') = Some td' /\
    series_count p' = series_count p /\ dict_keys td' = dict_keys td.
Proof.
  induction lines as [|l lines IH]; intros p t td Hls Ht Hne Htd.
  - exists p, td. done.
  - apply Forall_cons in Hls as [[Hl Hpl] Hls].
    destruct (parse_line_in_table p l t td Hl Ht Hne Htd)
      as (p1 & td1 & Hp1 & Ht1 & Hg1 & _ & Hc1).
    rewrite Hpl in Hc1. destruct Hc1 as [Hc1 Hk1].
    destruct (IH p1 t td1 Hls Ht1 Hne Hg1)
      as (p2 & td2 & Hp2 & Ht2 & Hg2 & Hc2 & Hk2).
    exists p2, td2. cbn [foldM]. rewrite Hp1. split; [done |].
    split; [done |]. split; [done |]. split; congruence.
Qed.

Lemma table_open_start : table_open parser_start.
Proof. intros t. done. Qed.

Lemma dict_keys_nil {V} (d : dict string V) : dict_keys d = [] -> d = [].
Proof. by destruct d. Qed.

(** *** The numbering of the series *)

Lemma dict_mem_decide {V} k (d : dict string V) :
  dict_mem k d = bool_decide (k ∈ dict_keys d).
Proof.
  destruct (dict_mem k d) eqn:E.
  - symmetry. apply bool_decide_eq_true. by apply dict_mem_keys.
  - symmetry. apply bool_decide_eq_false. intros Hin.
    apply dict_mem_keys in Hin. congruence.
Qed.

Lemma keys_after_set {V} name (v : V) (d : dict string V) :
  dict_keys (dict_set name v d) = add_key name (dict_keys d).
Proof.
  unfold add_key. destruct (dict_get name d) as [x|] eqn:E.
  - rewrite dict_keys_set_present by by rewrite E.
    rewrite bool_decide_eq_true_2; [done |].
    apply dict_mem_keys. unfold dict_mem. by rewrite E.
  - rewrite dict_keys_set_absent by done.
    rewrite bool_decide_eq_false_2; [done |]. by apply dict_get_None_keys.
Qed.

Lemma after_colon_title l a : after_colon l = Ok a -> title_of l = a.
Proof.
  unfold after_colon, title_of. intros H.
  apply bind_Ok_inv in H as (x & Hx & [= <-]).
  apply py_index_1 in Hx. by rewrite Hx.
Qed.

(** One line of a table does to the keys and to the counter what
    [count_step] says. *)
Lemma parse_line_counts p line t td :
  PyStr.contains "Table No." line = false ->
  table p = Some t -> t <> "" ->
  dict_get t (tab_file_data p) = Some td ->
  exists p' td',
    parse_line p line = Ok p' /\ table p' = Some t /\
    dict_get t (tab_file_data p') = Some td' /\
    (dict_keys td', series_count p')
    = count_step (dict_keys td, series_count p) line.
Proof.
  intros Hnt Ht Hne Htd.
  destruct (parse_line_in_table p line t td Hnt Ht Hne Htd)
    as (p' & td' & Hp & Ht' & Hg & _ & Hc).
  exists p', td'. split; [done |]. split; [done |]. split; [done |].
  unfold count_step, starts_series. cbn [fst snd].
  destruct (PyStr.eqb (PyStr.take 10 line) "Plot Data:").
  - destruct Hc as (title & Ha & Hc). cbn zeta in Hc.
    destruct Hc as (Hcnt & _ & _ & sd & Hk).
    rewrite (after_colon_title _ _ Ha), <- dict_mem_decide.
    rewrite Hk, Hcnt, keys_after_set.
    destruct (PyStr.eqb title "" || dict_mem title td) eqn:Hfire; [done |].
    apply orb_false_iff in Hfire as [_ Hm]. rewrite dict_mem_decide in Hm.
    unfold add_key. by rewrite Hm.
  - destruct Hc as [Hcnt Hk]. by rewrite Hk, Hcnt.
Qed.

Lemma parse_lines_counts lines : forall p t td,
  Forall (fun l => PyStr.contains "Table No." l = false) lines ->
  table p = Some t -> t <> "" ->
  dict_get t (tab_file_data p) = Some td ->
  exists p' td', foldM parse_line p lines = Ok p' /\ table p' = Some t /\
    dict_get t (tab_file_data p') = Some td' /\
    (dict_keys td', series_count p')
    = foldl count_step (dict_keys td, series_count p) lines.
Proof.
  induction lines as [|l lines IH]; intros p t td Hls Ht Hne Htd.
  - exists p, td. done.
  - apply Forall_cons in Hls as [Hl Hls].
    destruct (parse_line_counts p l t td Hl Ht Hne Htd)
      as (p1 & td1 & Hp1 & Ht1 & Hg1 & Hc1).
    destruct (IH p1 t td1 Hls Ht1 Hne Hg1) as (p2 & td2 & Hp2 & Ht2 & Hg2 & Hc2).
    exists p2, td2. cbn [foldM foldl]. rewrite Hp1. split; [done |].
    split; [done |]. split; [done |]. by rewrite <- Hc1.
Qed.

(** The [try] block writes to the table being read only. *)
Lemma try_append_other t t' ser line (d : dict string table_data) :
  t <> t' -> dict_get t' (try_append t ser line d) = dict_get t' d.
Proof.
  intros Hne. unfold try_append.
  repeat case_match; try done; by rewrite dict_get_set_ne.
Qed.

(** A line changes no table but the one it stands in. *)
Lemma parse_line_other p line p' t :
  parse_line p line = Ok p' -> table p' <> Some t ->
  dict_get t (tab_file_data p') = dict_get t (tab_file_data p).
Proof.
  intros H Hne. unfold parse_line in H.
  destruct (PyStr.contains "Table No." line).
  { injection H as <-. cbn [tab_file_data table] in *.
    rewrite dict_get_set_ne; [done | congruence]. }
  destruct (table p) as [[|c0 t0]|] eqn:Ht; try (by injection H as <-).
  apply bind_Ok_inv in H as (xl & _ & H).
  apply bind_Ok_inv in H as (yl & _ & H).
  apply bind_Ok_inv in H as ([xu xl'] & _ & H).
  apply bind_Ok_inv in H as ([yu yl'] & _ & H).
  apply bind_Ok_inv in H as ([[d ser] cnt] & Hd & H).
  injection H as <-. cbn [tab_file_data table] in *.
  rewrite try_append_other by congruence.
  destruct (PyStr.eqb (PyStr.take 10 line) "Plot Data:");
    [| by injection Hd as <- _ _].
  apply bind_Ok_inv in Hd as (title & _ & Hd).
  apply bind_Ok_inv in Hd as (td & _ & Hd).
  destruct (PyStr.eqb title "" || dict_mem title td);
    injection Hd as <- _ _; rewrite dict_get_set_ne; congruence.
Qed.

(** The table a line leaves the loop in. *)
Lemma parse_line_table_after p line p' :
  parse_line p line = Ok p' ->
  table p' = if opens_table line then Some (table_key line) else table p.
Proof.
  intros H. unfold parse_line in H. unfold opens_table, table_key.
  destruct (PyStr.contains "Table No." line); [by injection H as <- |].
  destruct (table p) as [[|c0 t0]|] eqn:Ht; try (by injection H as <-).
  apply bind_Ok_inv in H as (xl & _ & H).
  apply bind_Ok_inv in H as (yl & _ & H).
  apply bind_Ok_inv in H as ([xu xl'] & _ & H).
  apply bind_Ok_inv in H as ([yu yl'] & _ & H).
  apply bind_Ok_inv in H as ([[d ser] cnt] & _ & H).
  by injection H as <-.
Qed.

(** The tables that follow leave a table as it is, unless one of them has
    its key. *)
Lemma parse_lines_other post : forall p t,
  table_open p -> table p <> Some t ->
  Forall (fun l => opens_table l = true -> table_key l <> t) post ->
  exists p', foldM parse_line p post = Ok p' /\
    dict_get t (tab_file_data p') = dict_get t (tab_file_data p).
Proof.
  induction post as [|l post IH]; intros p t Hopen Hne Hpost.
  - by exists p.
  - apply Forall_cons in Hpost as [Hl Hpost].
    destruct (parse_line_total p l Hopen) as (p1 & Hp1 & Hopen1).
    assert (table p1 <> Some t) as Hne1.
    { rewrite (parse_line_table_after _ _ _ Hp1).
      destruct (opens_table l); [| done]. intros [= E]. by apply Hl. }
    destruct (IH p1 t Hopen1 Hne1 Hpost) as (p2 & Hp2 & Hg2).
    exists p2. cbn [foldM]. rewrite Hp1. split; [done |].
    rewrite Hg2. by apply (parse_line_other p l).
Qed.

Lemma parse_lines_after_table post p t :
  table_open p ->
  (forall l, head post = Some l -> opens_table l = true) ->
  Forall (fun l => opens_table l = true -> table_key l <> t) post ->
  exists p', foldM parse_line p post = Ok p' /\
    dict_get t (tab_file_data p') = dict_get t (tab_file_data p).
Proof.
  intros Hopen Hhead Hpost. destruct post as [|l post]; [by exists p |].
  specialize (Hhead l eq_refl).
  apply Forall_cons in Hpost as [Hl Hpost]. specialize (Hl Hhead).
  destruct (parse_line_total p l Hopen) as (p1 & Hp1 & Hopen1).
  assert (table p1 <> Some t) as Hne1.
  { rewrite (parse_line_table_after _ _ _ Hp1), Hhead. congruence. }
  destruct (parse_lines_other post p1 t Hopen1 Hne1 Hpost) as (p2 & Hp2 & Hg2).
  exists p2. cbn [foldM]. rewrite Hp1. split; [done |].
  rewrite Hg2. by apply (parse_line_other p l).
Qed.

(** Keys are never taken away. *)
Lemma add_key_mono k k' keys : k ∈ keys -> k ∈ add_key k' keys.
Proof.
  unfold add_key. intros Hk. destruct (bool_decide (k' ∈ keys)); [done |].
  apply elem_of_app. by left.
Qed.

Lemma add_key_in k keys : k ∈ add_key k keys.
Proof.
  unfold add_key. destruct (bool_decide (k ∈ keys)) eqn:E.
  - by apply bool_decide_eq_true in E.
  - apply elem_of_app. right. by apply list_elem_of_singleton.
Qed.

Lemma count_step_mono st l k : k ∈ st.1 -> k ∈ (count_step st l).1.
Proof.
  intros Hk. unfold count_step. destruct (starts_series l); [| done].
  destruct (PyStr.eqb (title_of l) "" || bool_decide (title_of l ∈ st.1));
    cbn [fst]; [by apply add_key_mono | apply elem_of_app; by left].
Qed.

Lemma count_steps_mono ls : forall st k,
  k ∈ st.1 -> k ∈ (foldl count_step st ls).1.
Proof.
  induction ls as [|l ls IH]; intros st k Hk; [done |].
  cbn [foldl]. by apply IH, count_step_mono.
Qed.

(** A series line that fires takes the key of the counter; its title is a
    key in any case. *)
Lemma count_step_titled st l a :
  titled a l ->
  a ∈ (count_step st l).1 \/ a = "" /\
  (count_step st l).2 = st.2 + 1.
Proof.
  intros (_ & Hs & Ha). apply after_colon_title in Ha.
  unfold count_step. rewrite Hs, Ha.
  destruct (decide (a = "")) as [->|Hne]; [right; by split |].
  left. apply eqb_false in Hne. rewrite Hne. cbn [orb].
  destruct (bool_decide (a ∈ st.1)) eqn:E; cbn [fst].
  - apply add_key_mono. by apply bool_decide_eq_true in E.
  - apply elem_of_app. right. by apply list_elem_of_singleton.
Qed.

Lemma count_step_fires st l a :
  titled a l -> a = "" \/ a ∈ st.1 ->
  count_step st l
  = (add_key ("Series " +:+ PyStr.of_nat (st.2 + 1)) st.1, st.2 + 1).
Proof.
  intros (_ & Hs & Ha) Hf. apply after_colon_title in Ha.
  unfold count_step. rewrite Hs, Ha.
  destruct Hf as [-> | Hin]; [done |].
  rewrite (bool_decide_eq_true_2 _ Hin). by rewrite orb_true_r.
Qed.

Lemma numbering_snoc ls l : numbering (ls ++ [l]) = count_step (numbering ls) l.
Proof. unfold numbering. by rewrite foldl_app. Qed.

(** No series line, no key [Series n]. *)
Lemma fired_none ls :
  Forall (fun l => starts_series l = false) ls -> numbering ls = ([], 0).
Proof.
  unfold numbering. generalize (@nil string, 0).
  induction ls as [|l ls IH]; intros st Hls; [done |].
  apply Forall_cons in Hls as [Hl Hls]. cbn [foldl].
  unfold count_step at 2. rewrite Hl. by apply IH.
Qed.

(** C7, as amended.  The series of a table are numbered by a counter that
    starts at the table line and counts the series lines whose title is
    empty or is a key of the table already: such a line takes the key
    [Series n], [n] being the counter, any other takes its title.  So the
    keys of a table are those [series_keys] gives for its lines, whatever
    tables stand before and after it; two series lines with an empty title
    that follow one another take [Series n+1] and [Series n+2], where [n]
    counts the lines that took such a key before them in the table; and of
    two series lines with the same title that follow one another the second
    takes the key of the counter. *)
Theorem untitled_series_are_numbered
    (pre : list string) (tline : string) (mid : list string)
    (l1 l2 : string) (rest post : list string) (a : string) :
  opens_table tline = true ->
  Forall (fun l => opens_table l = false) mid ->
  titled a l1 -> titled a l2 ->
  Forall (fun l => opens_table l = false) rest ->
  (forall l, head post = Some l -> opens_table l = true) ->
  Forall (fun l => opens_table l = true -> table_key l <> table_key tline)
    post ->
  exists d td,
    parse_contents (pre ++ tline :: (mid ++ l1 :: l2 :: rest) ++ post) = Ok d /\
    dict_get (table_key tline) d = Some td /\
    dict_keys td = series_keys (mid ++ l1 :: l2 :: rest) /\
    if decide (a = "")
    then dict_mem ("Series " +:+ PyStr.of_nat (fired mid + 1)) td = true /\
         dict_mem ("Series " +:+ PyStr.of_nat (fired mid + 2)) td = true
    else dict_mem a td = true /\
         dict_mem ("Series " +:+ PyStr.of_nat (fired (mid ++ [l1]) + 1)) td
         = true.
Proof.
  intros Htl Hmid Hl1 Hl2 Hrest Hhead Hpost.
  assert (Forall (fun l => PyStr.contains "Table No." l = false)
            (mid ++ l1 :: l2 :: rest)) as Hbody.
  { apply Forall_app. split; [done |].
    apply Forall_cons. split; [apply Hl1 |].
    apply Forall_cons. split; [apply Hl2 | done]. }
  destruct (parse_lines_total pre parser_start table_open_start)
    as (p0 & Hpre & _).
  destruct (parse_line_table p0 tline Htl) as (p1 & Hp1 & Ht1 & Hne & Hc1 & Hg1).
  fold (table_key tline) in Ht1, Hne, Hg1. set (t := table_key tline) in *.
  destruct (parse_lines_counts _ p1 t [] Hbody Ht1 Hne Hg1)
    as (p2 & td & Hp2 & Ht2 & Hg2 & Hc2).
  rewrite Hc1 in Hc2. change (dict_keys []) with (@nil string) in Hc2.
  fold (numbering (mid ++ l1 :: l2 :: rest)) in Hc2.
  assert (table_open p2) as Hopen2.
  { intros t2. rewrite Ht2. intros [= <-]. by rewrite Hg2. }
  destruct (parse_lines_after_table post p2 t Hopen2 Hhead Hpost)
    as (p3 & Hp3 & Hg3).
  exists (tab_file_data p3), td.
  assert (dict_keys td = series_keys (mid ++ l1 :: l2 :: rest)) as Hkeys.
  { unfold series_keys. by rewrite <- Hc2. }
  split; [| split; [by rewrite Hg3 | split; [done |]]].
  - unfold parse_contents.
    rewrite foldM_app, Hpre. cbn [mbind result_bind foldM]. rewrite Hp1.
    cbn [mbind result_bind]. rewrite foldM_app, Hp2.
    cbn [mbind result_bind]. by rewrite Hp3.
  - assert (forall k, k ∈ (count_step (count_step (numbering mid) l1) l2).1 ->
                      dict_mem k td = true) as Hin.
    { intros k Hk. apply dict_mem_keys. rewrite Hkeys.
      unfold series_keys, numbering. rewrite foldl_app. cbn [foldl].
      by apply count_steps_mono. }
    unfold fired. rewrite numbering_snoc.
    destruct (decide (a = "")) as [->|Hna].
    + rewrite (count_step_fires _ l1 "" Hl1 (or_introl eq_refl)) in Hin.
      rewrite (count_step_fires _ l2 "" Hl2 (or_introl eq_refl)) in Hin.
      cbn [fst snd] in Hin. split; apply Hin.
      * apply add_key_mono, add_key_in.
      * replace ((numbering mid).2 + 2) with ((numbering mid).2 + 1 + 1) by lia.
        apply add_key_in.
    + destruct (count_step_titled (numbering mid) l1 a Hl1) as [Ha | [-> _]];
        [| done].
      rewrite (count_step_fires _ l2 a Hl2 (or_intror Ha)) in Hin.
      cbn [fst] in Hin. split; apply Hin.
      * by apply add_key_mono.
      * apply add_key_in.
Qed.

Lemma untitled_series_are_numbered_witness :
  (exists d td,
     parse_contents
       (map (fun l => l +:+ PyStr.newline)
          ["Table No. 1 - A"; "Plot Data: Max"; "1.0" +:+ PyStr.tab +:+ "2.0";
           "Table No. 2 - B"; "X-Axis: Tension"; "Plot Data: Max";
           "Plot Data: Max"; "Plot Data:"; "Plot Data: ";
           "3.0" +:+ PyStr.tab +:+ "4.0";
           "Table No. 3 - C"; "Plot Data:"]) = Ok d /\
     dict_get "Table No. 2 - B" d = Some td /\
     dict_keys td = ["Max"; "Series 1"; "Series 2"; "Series 3"] /\
     dict_mem "Series 2" td = true /\ dict_mem "Series 3" td = true) /\
  (exists d td,
     parse_contents
       (map (fun l => l +:+ PyStr.newline)
          ["Table No. 1 - A"; "Plot Data: Max"; "Plot Data: Max";
           "5.0" +:+ PyStr.tab +:+ "6.0"]) = Ok d /\
     dict_get "Table No. 1 - A" d = Some td /\
     dict_keys td = ["Max"; "Series 1"] /\
     dict_mem "Max" td = true /\ dict_mem "Series 1" td = true).
Proof.
  split.
  - exact (untitled_series_are_numbered
      (map (fun l => l +:+ PyStr.newline)
         ["Table No. 1 - A"; "Plot Data: Max"; "1.0" +:+ PyStr.tab +:+ "2.0"])
      ("Table No. 2 - B" +:+ PyStr.newline)
      (map (fun l => l +:+ PyStr.newline)
         ["X-Axis: Tension"; "Plot Data: Max"; "Plot Data: Max"])
      ("Plot Data:" +:+ PyStr.newline) ("Plot Data: " +:+ PyStr.newline)
      ["3.0" +:+ PyStr.tab +:+ "4.0" +:+ PyStr.newline]
      (map (fun l => l +:+ PyStr.newline) ["Table No. 3 - C"; "Plot Data:"]) ""
      eq_refl
      ltac:(repeat constructor)
      ltac:(repeat split) ltac:(repeat split)
      ltac:(repeat constructor)
      ltac:(intros l [= <-]; reflexivity)
      ltac:(repeat constructor; intros _; vm_compute; discriminate)).
  - exact (untitled_series_are_numbered
      [] ("Table No. 1 - A" +:+ PyStr.newline) []
      ("Plot Data: Max" +:+ PyStr.newline) ("Plot Data: Max" +:+ PyStr.newline)
      ["5.0" +:+ PyStr.tab +:+ "6.0" +:+ PyStr.newline] [] "Max"
      eq_refl
      ltac:(constructor)
      ltac:(repeat split) ltac:(repeat split)
      ltac:(repeat constructor)
      ltac:(intros l [=])
      ltac:(constructor)).
Defined.

(** C7 as stated fails: in a table whose only two series lines with an empty
    title follow one another, after two lines with the same title, they take
    the keys [Series 2] and [Series 3]; [Series 1] went to the title that
    came twice. *)
Lemma later_untitled_series_are_not_1_and_2 :
  exists p3 p4 d,
    foldM parse_line parser_start
      (map (fun l => l +:+ PyStr.newline)
         ["Table No. 1 - A"; "Plot Data: Max"; "Plot Data: Max";
          "Plot Data:"]) = Ok p3 /\
    series p3 = Some "Series 2" /\
    foldM parse_line parser_start
      (map (fun l => l +:+ PyStr.newline)
         ["Table No. 1 - A"; "Plot Data: Max"; "Plot Data: Max";
          "Plot Data:"; "Plot Data:"]) = Ok p4 /\
    series p4 = Some "Series 3" /\
    parse_contents
      (map (fun l => l +:+ PyStr.newline)
         ["Table No. 1 - A"; "Plot Data: Max"; "Plot Data: Max";
          "Plot Data:"; "Plot Data:"]) = Ok d /\
    dict_keys <$> dict_get "Table No. 1 - A" d
    = Some ["Max"; "Series 1"; "Series 2"; "Series 3"].
Proof.
  do 3 eexists. split; [vm_compute; reflexivity |].
  split; [reflexivity |]. split; [vm_compute; reflexivity |].
  split; [reflexivity |]. split; vm_compute; reflexivity.
Qed.

Example tab_series_keys :
  (fun d => map (fun '(t, td) => (t, dict_keys td)) d) <$>
  parse_contents
    (map (fun l => l +:+ PyStr.newline)
       ["Table No. 1 - A"; "Plot Data:"; "Plot Data:"; "Plot Data: Max";
        "Plot Data: Max"; "Table No. 2 - B"; "Plot Data: Min"; "Plot Data:"])
  = Ok [("Table No. 1 - A", ["Series 1"; "Series 2"; "Max"; "Series 3"]);
        ("Table No. 2 - B", ["Min"; "Series 1"])].
Proof. vm_compute. reflexivity. Qed.

Example tab_sample_parsed :
  Tab.parse_contents Samples.tab_lines
  = Ok [(Samples.tab_table,
         [("Max", {| X := [Prim2SF 10%float; Prim2SF 12.5%float];
                     Y := [Prim2SF 2%float; Prim2SF 4%float];
                     X_Label := "Tension (kN)"; Y_Label := "Elevation (m)";
                     X_Units := "kN"; Y_Units := "m" |})])].
Proof. vm_compute. reflexivity. Qed.

Lemma mapM_result_map {A B} (g : A -> result B) (f : A -> B) (l : list A) :
  (forall x, x ∈ l -> g x = Ok (f x)) -> mapM_result g l = Ok (map f l).
Proof.
  induction l as [|x l IH]; intros Hg; [done |].
  cbn [mapM_result map]. rewrite Hg by left.
  rewrite IH; [done |]. intros y Hy. apply Hg. by right.
Qed.

Lemma dict_get_map_values {V W} (f : V -> W) k (d : dict string V) :
  dict_get k (map (fun '(n, v) => (n, f v)) d) = f <$> dict_get k d.
Proof.
  induction d as [|[n v] d IH]; [done |]. simpl.
  destruct (decide (k = n)); [done | apply IH].
Qed.

Lemma dict_keys_map_values {V W} (f : V -> W) (d : dict string V) :
  dict_keys (map (fun '(n, v) => (n, f v)) d) = dict_keys d.
Proof.
  unfold dict_keys. rewrite map_map. apply map_ext. by intros [n v].
Qed.

Lemma offset_elevations_shifts t offset axis (d : dict string table_data) td :
  axis = "X" \/ axis = "Y" -> dict_get t d = Some td ->
  offset_elevations t offset axis d
  = Ok (dict_set t (map (fun '(n, sd) => (n, shifted offset axis sd)) td) d).
Proof.
  intros Hax Ht. unfold offset_elevations.
  rewrite (DasFacts.getitem_Some _ _ _ _ Ht). cbn [mbind result_bind].
  rewrite (mapM_result_map _ (fun '(n, sd) => (n, shifted offset axis sd))).
  - done.
  - intros [n sd] _. unfold offset_series, shifted.
    destruct Hax as [-> | ->]; done.
Qed.

(** C6, as amended.  [offset_elevations] changes the reader's own
    [tab_file_data]: under the axis X or Y, every value of every series of
    the table becomes the value plus the offset; the other axis, the labels,
    the keys of the series and the other tables stay as they were; no
    separate value is returned. *)
Theorem offset_elevations_updates_in_place
    (d : dict string table_data) (t : string) (td : table_data)
    (offset : PyNum.float) (axis : string) :
  axis = "X" \/ axis = "Y" ->
  dict_get t d = Some td ->
  exists d' td',
    offset_elevations t offset axis d = Ok d' /\
    dict_keys d' = dict_keys d /\
    (forall t', t' <> t -> dict_get t' d' = dict_get t' d) /\
    dict_get t d' = Some td' /\
    dict_keys td' = dict_keys td /\
    forall name sd, dict_get name td = Some sd ->
      exists sd', dict_get name td' = Some sd' /\
        values axis sd' = map (fun v => PyNum.fadd v offset) (values axis sd) /\
        values (other_axis axis) sd' = values (other_axis axis) sd /\
        same_labels sd sd'.
Proof.
  intros Hax Ht. eexists _, _.
  split; [by apply offset_elevations_shifts |].
  split; [apply dict_keys_set_present; by rewrite Ht |].
  split; [intros t' Hne; by apply dict_get_set_ne |].
  split; [apply dict_get_set_eq |].
  split; [apply dict_keys_map_values |].
  intros name sd Hsd. exists (shifted offset axis sd).
  rewrite dict_get_map_values, Hsd. split; [done |].
  unfold values, other_axis, shifted, same_labels, offset_list.
  destruct Hax as [-> | ->]; done.
Qed.

Lemma offset_elevations_updates_in_place_witness :
  dict_get Samples.tab_table Samples.tab_parsed
  = Some [("Max", {| X := [Prim2SF 10%float; Prim2SF 12.5%float];
                     Y := [Prim2SF 2%float; Prim2SF 4%float];
                     X_Label := "Tension (kN)"; Y_Label := "Elevation (m)";
                     X_Units := "kN"; Y_Units := "m" |})] /\
  exists d' td',
    offset_elevations Samples.tab_table (Prim2SF 100%float) "Y"
      Samples.tab_parsed = Ok d' /\
    dict_get Samples.tab_table d' = Some td' /\
    dict_keys td' = ["Max"].
Proof.
  assert (dict_get Samples.tab_table Samples.tab_parsed
          = Some [("Max", {| X := [Prim2SF 10%float; Prim2SF 12.5%float];
                             Y := [Prim2SF 2%float; Prim2SF 4%float];
                             X_Label := "Tension (kN)";
                             Y_Label := "Elevation (m)";
                             X_Units := "kN"; Y_Units := "m" |})]) as Ht.
  { vm_compute. reflexivity. }
  split; [exact Ht |].
  destruct (offset_elevations_updates_in_place Samples.tab_parsed
              Samples.tab_table _ (Prim2SF 100%float) "Y" (or_intror eq_refl) Ht)
    as (d' & td' & Ho & _ & _ & Hg & Hk & _).
  exists d', td'. split; [exact Ho |]. split; [exact Hg |]. exact Hk.
Defined.

(** C6 as stated fails: after [offset_elevations] the parsed record itself
    holds the shifted elevations. *)
Lemma offset_elevations_changes_the_record :
  exists d',
    Y <$> (dict_get Samples.tab_table Samples.tab_parsed ≫= dict_get "Max")
    = Some [Prim2SF 2%float; Prim2SF 4%float] /\
    offset_elevations Samples.tab_table (Prim2SF 100%float) "Y"
      Samples.tab_parsed = Ok d' /\
    Y <$> (dict_get Samples.tab_table d' ≫= dict_get "Max")
    = Some [Prim2SF 102%float; Prim2SF 104%float].
Proof.
  eexists. split; [vm_compute; reflexivity |].
  split; vm_compute; reflexivity.
Qed.

End TabFacts.

(** * shear7 files: the table of block 3 *)

Module Shear7Facts.
Import Shear7 Shear7Spec.

Lemma append_assoc (a b c : string) : (a +:+ b) +:+ c = a +:+ (b +:+ c).
Proof.
  induction a as [|x a IH]; [done |].
  change (String x ((a +:+ b) +:+ c) = String x (a +:+ (b +:+ c))).
  by rewrite IH.
Qed.

Lemma py_index_nat {A} (l : list A) (i : nat) :
  py_index l (Z.of_nat i)
  = match l !! i with Some x => Ok x | None => Raise IndexError end.
Proof.
  unfold py_index.
  destruct (Z.of_nat i <? 0)%Z eqn:E; [apply Z.ltb_lt in E; lia |].
  by rewrite E, Nat2Z.id.
Qed.

(** The rows the loop of [process_block3] reads are the lines that follow
    the first one, as many as were declared. *)
Lemma read_rows_spec rows : forall pfx rest acc txt,
  read_rows (pfx ++ rows ++ rest) (length pfx) (length rows) (acc, txt)
  = (prof ← mapM_result current_row rows;
     Ok (acc ++ prof, txt +:+ profile_text prof)).
Proof.
  induction rows as [|row rows IH]; intros pfx rest acc txt.
  - cbn. rewrite app_nil_r. f_equal. f_equal.
    induction txt as [|x txt IHt]; [done |].
    change (String x txt = String x (txt +:+ "")). by rewrite <- IHt.
  - cbn [length read_rows mapM_result].
    rewrite py_index_nat, lookup_app_r by lia.
    rewrite Nat.sub_diag. cbn [lookup list_lookup app mbind result_bind].
    destruct (current_row row) as [[depth speed]|e]; [| done].
    cbn [mbind result_bind fst snd].
    replace (pfx ++ row :: rows ++ rest) with ((pfx ++ [row]) ++ rows ++ rest)
      by by rewrite <- app_assoc.
    replace (S (length pfx)) with (length (pfx ++ [row]))
      by (rewrite length_app; simpl; lia).
    rewrite IH.
    destruct (mapM_result current_row rows) as [prof|e]; [| done].
    cbn [mbind result_bind profile_text]. f_equal. f_equal.
    + by rewrite <- app_assoc.
    + by rewrite !append_assoc.
Qed.

(** A line that holds three stars is never kept as data: it opens a section
    of its own, or [parse_file] raises on it. *)
Lemma marker_opens_a_section sec d l st' :
  is_marker l = true -> parse_step (sec, d) l = Ok st' ->
  exists name, section_name l = Ok name /\ st' = (name, dict_set name [] d).
Proof.
  unfold is_marker, parse_step. intros ->.
  destruct (section_name l) as [name|e]; [| done].
  intros [= <-]. eauto.
Qed.

Lemma parse_step_data sec d l cur :
  is_marker l = false -> dict_get sec d = Some cur ->
  parse_step (sec, d) l = Ok (sec, dict_set sec (cur ++ [l]) d).
Proof.
  unfold is_marker, parse_step. intros -> Hg.
  by rewrite (DasFacts.getitem_Some _ _ _ _ Hg).
Qed.

(** Lines without three stars are appended to the section that is open. *)
Lemma data_lines_appended ls : forall sec d cur,
  Forall (fun l => is_marker l = false) ls ->
  dict_get sec d = Some cur ->
  foldM parse_step (sec, d) ls = Ok (sec, dict_set sec (cur ++ ls) d).
Proof.
  induction ls as [|l ls IH]; intros sec d cur Hls Hg.
  - cbn. by rewrite app_nil_r, dict_set_same.
  - apply Forall_cons in Hls as [Hl Hls].
    rewrite foldM_cons, (parse_step_data _ _ _ _ Hl Hg).
    cbn [mbind result_bind].
    rewrite (IH sec _ (cur ++ [l])) by (done || apply dict_get_set_eq).
    by rewrite dict_set_set, <- app_assoc.
Qed.

(** Once read, the lines of a section stay at the head of its list as long
    as no later marker names the section again. *)
Lemma section_kept name body post : forall sec d st',
  Forall (fun l => is_marker l = true -> section_name l <> Ok name) post ->
  (exists rest, dict_get name d = Some (body ++ rest)) ->
  foldM parse_step (sec, d) post = Ok st' ->
  exists rest, dict_get name st'.2 = Some (body ++ rest).
Proof.
  induction post as [|l post IH]; intros sec d st' Hpost Hd Hf.
  - injection Hf as <-. done.
  - apply Forall_cons in Hpost as [Hl Hpost].
    apply foldM_cons_Ok in Hf as ([sec1 d1] & Hs & Hf).
    eapply IH; [done | | exact Hf].
    destruct Hd as [rest Hd].
    destruct (is_marker l) eqn:Hm.
    + destruct (marker_opens_a_section _ _ _ _ Hm Hs) as (n & Hn & [= -> ->]).
      exists rest. rewrite dict_get_set_ne; [done |].
      intros ->. by apply Hl.
    + unfold parse_step, is_marker in *. rewrite Hm in Hs.
      destruct (getitem id sec d) as [lines|e] eqn:Hx; [| done].
      injection Hs as <- <-.
      apply DasFacts.getitem_Ok_inv in Hx.
      destruct (decide (sec = name)) as [->|Hne].
      * exists (rest ++ [l]). rewrite dict_get_set_eq.
        rewrite Hd in Hx. injection Hx as <-. by rewrite <- app_assoc.
      * exists rest. by rewrite dict_get_set_ne.
Qed.

Lemma parse_file_block pre marker body post s :
  is_marker marker = true -> section_name marker = Ok "BLOCK 3" ->
  Forall (fun l => is_marker l = false) body ->
  Forall (fun l => is_marker l = true -> section_name l <> Ok "BLOCK 3") post ->
  parse_file (pre ++ marker :: body ++ post) setup_variables = Ok s ->
  current_profile s = [] /\
  exists rest, dict_get "BLOCK 3" (data s) = Some (body ++ rest).
Proof.
  intros Hm Hn Hbody Hpost Hp. unfold parse_file in Hp. inv_bind.
  split; [done |].
  apply foldM_app_Ok in Hx as ([sec0 d0] & Hpre & Hx).
  apply foldM_cons_Ok in Hx as (st1 & Hmk & Hx).
  destruct (marker_opens_a_section _ _ _ _ Hm Hmk) as (n & Hn' & ->).
  rewrite Hn in Hn'. injection Hn' as <-.
  rewrite foldM_app in Hx.
  rewrite (data_lines_appended body "BLOCK 3" _ []) in Hx
    by (done || apply dict_get_set_eq).
  cbn [mbind result_bind app] in Hx. rewrite dict_set_set in Hx.
  eapply section_kept; [exact Hpost | | exact Hx].
  exists []. by rewrite app_nil_r, dict_get_set_eq.
Qed.

(** C4, as amended.  When the block 3 marker is followed by a line that
    declares n current points and by n lines none of which holds three
    stars, [process_block3] reads exactly those n lines as the rows of the
    profile; a line that holds three stars is never a row: [parse_file] has
    it open a section of its own. *)
Theorem declared_rows_are_the_table
    (pre : list string) (marker hdr : string) (rows post : list string)
    (s : Shear7File) (n : Z) :
  is_marker marker = true -> section_name marker = Ok "BLOCK 3" ->
  Forall (fun l => is_marker l = false) (hdr :: rows) ->
  declared_count hdr = Ok n -> n = Z.of_nat (length rows) ->
  Forall (fun l => is_marker l = true -> section_name l <> Ok "BLOCK 3") post ->
  parse_file (pre ++ marker :: hdr :: rows ++ post) setup_variables = Ok s ->
  process_block3 s
  = (prof ← mapM_result current_row rows;
     Ok {| data := data s; number_current_points := Some n;
           current_profile := prof;
           current_text := drop_last (profile_text prof) |}) /\
  forall sec d l st', is_marker l = true -> parse_step (sec, d) l = Ok st' ->
    exists name, section_name l = Ok name /\ st' = (name, dict_set name [] d).
Proof.
  intros Hm Hn Hbody Hc -> Hpost Hp. split; [| apply marker_opens_a_section].
  destruct (parse_file_block pre marker (hdr :: rows) post s Hm Hn Hbody Hpost Hp)
    as (Hprof & rest & Hg).
  unfold process_block3. rewrite Hg. cbn [app py_index].
  change (py_index (hdr :: rows ++ rest) 0) with (Ok (A:=string) hdr).
  cbn [mbind result_bind]. rewrite Hc. cbn [mbind result_bind].
  rewrite Nat2Z.id, Hprof.
  pose proof (read_rows_spec rows [hdr] rest [] "") as Hr.
  cbn [app length] in Hr. rewrite Hr.
  destruct (mapM_result current_row rows) as [prof|e]; done.
Qed.

Lemma declared_rows_are_the_table_witness :
  Shear7.parse_file Samples.shear7_lines setup_variables
  = Ok Samples.shear7_parsed /\
  process_block3 Samples.shear7_parsed
  = Ok {| data := data Samples.shear7_parsed;
          number_current_points := Some 2%Z;
          current_profile := [(S754_zero false, Prim2SF 1.5%float);
                              (Prim2SF 100%float, Prim2SF 0.5%float)];
          current_text := "0.0,1.5,100.0,0.5" |}.
Proof.
  assert (Shear7.parse_file Samples.shear7_lines setup_variables
          = Ok Samples.shear7_parsed) as Hp.
  { vm_compute. reflexivity. }
  split; [exact Hp |].
  refine (eq_trans (proj1 (declared_rows_are_the_table
    ["shear7 data file" +:+ PyStr.newline]
    ("*** BLOCK 3. current data ***" +:+ PyStr.newline)
    ("2  1.0  number of profile points, probability" +:+ PyStr.newline)
    ["0.0, 1.5  depth, speed" +:+ PyStr.newline; "100.0, 0.5" +:+ PyStr.newline]
    (map (fun l => l +:+ PyStr.newline)
       ["*** BLOCK 4. s-n curves ***"; "1  number of curves"])
    Samples.shear7_parsed 2%Z
    eq_refl eq_refl _ _ eq_refl _ Hp)) _).
  - repeat constructor.
  - vm_compute. reflexivity.
  - repeat constructor; intros _; vm_compute; discriminate.
  - vm_compute. reflexivity.
Defined.

(** C4 as stated fails: the second of two declared rows holds three stars;
    [parse_file] has it open the section ["100"], block 3 is left with one
    row, and [process_block3] raises. *)
Lemma starred_row_opens_a_section :
  exists s,
    parse_file Samples.shear7_starred_lines setup_variables = Ok s /\
    data s = [("headers", []);
              ("BLOCK 3", ["2  number of profile points" +:+ PyStr.newline;
                           "0.0, 1.5" +:+ PyStr.newline]);
              ("100", [])] /\
    process_block3 s = Raise IndexError.
Proof.
  eexists. split; [vm_compute; reflexivity |].
  split; vm_compute; reflexivity.
Qed.

End Shear7Facts.

(** * Carried values: element sets and hydrodynamic sets *)

Module CarryFacts.
Import Das CarrySpec.

(** ** Element sets *)






(** ** Hydrodynamic sets *)




















Example hydro_scenario :
  (fun st => hydro_sets st) <$>
    foldM hydro_step hydro_start
      ["SET=Pup Joint, TYPE=CONSTANT"; "1.2,1.0,1.0,1.0,1.0,0.0";
       "SET=Bare, TYPE=REYNOLDS"; "DIAMETER=0.5"; "100000,1.2,0.1"]
  = Ok [("Pup Joint",
         {| hydro_Type := Some "constant"; hydro_Diameter := None;
            hydro_Option := None;
            coefficients := map Some [Prim2SF 1.2%float; Prim2SF 1%float;
                                      Prim2SF 1%float; Prim2SF 1%float;
                                      Prim2SF 1%float; S754_zero false] |});
        ("Bare Re - 100000.0",
         {| hydro_Type := Some "reynolds"; hydro_Diameter := Some "0.5";
            hydro_Option := None;
            coefficients := [Some (Prim2SF 1.2%float); Some (Prim2SF 0.1%float);
                             None; None; None; None] |})].
Proof. vm_compute. reflexivity. Qed.

Example element_sets_example :
  process_element_sets 1 Samples.das_sets_parsed
  = Ok (Some [("Riser", [4; 5; 6]%Z); ("Stack", [10]%Z)]).
Proof. vm_compute. reflexivity. Qed.

End CarryFacts.

(** * More on strings *)

Module StrFacts.

Lemma rstrip_idemp (s : string) : PyStr.rstrip (PyStr.rstrip s) = PyStr.rstrip s.
Proof.
  induction s as [|c s IH]; [done |]. cbn [PyStr.rstrip].
  destruct (PyStr.rstrip s) as [|d r] eqn:E.
  - destruct (PyStr.is_space c) eqn:Hc; [done |].
    cbn [PyStr.rstrip]. by rewrite Hc.
  - cbn [PyStr.rstrip] in *. by rewrite IH.
Qed.

(** A string without trailing white space keeps none once its leading white
    space is removed. *)
Lemma rstrip_tail c (s : string) :
  PyStr.rstrip (String c s) = String c s -> PyStr.rstrip s = s.
Proof.
  cbn [PyStr.rstrip]. destruct (PyStr.rstrip s) as [|d r] eqn:E.
  - destruct (PyStr.is_space c); [done |]. by intros [= <-].
  - by intros [= <-].
Qed.

Lemma rstrip_lstrip (s : string) :
  PyStr.rstrip s = s -> PyStr.rstrip (PyStr.lstrip s) = PyStr.lstrip s.
Proof.
  induction s as [|c s IH]; [done |]. intros H. cbn [PyStr.lstrip].
  destruct (PyStr.is_space c); [| done].
  apply IH. by eapply rstrip_tail.
Qed.

Lemma lstrip_idemp (s : string) : PyStr.lstrip (PyStr.lstrip s) = PyStr.lstrip s.
Proof.
  induction s as [|c s IH]; [done |]. cbn [PyStr.lstrip].
  destruct (PyStr.is_space c) eqn:Hc; [done |].
  cbn [PyStr.lstrip]. by rewrite Hc.
Qed.

Lemma lstrip_nonempty (s : string) :
  PyStr.rstrip s = s -> s <> "" -> PyStr.lstrip s <> "".
Proof.
  induction s as [|c s IH]; [done |]. intros H _. cbn [PyStr.lstrip].
  destruct (PyStr.is_space c) eqn:Hc; [| done].
  apply IH; [by eapply rstrip_tail |].
  intros ->. cbn [PyStr.rstrip] in H. by rewrite Hc in H.
Qed.

Lemma strip_idemp (s : string) : PyStr.strip (PyStr.strip s) = PyStr.strip s.
Proof.
  unfold PyStr.strip.
  rewrite (rstrip_lstrip (PyStr.rstrip s)) by apply rstrip_idemp.
  apply lstrip_idemp.
Qed.

Lemma rstrip_strip (s : string) : PyStr.rstrip (PyStr.strip s) = PyStr.strip s.
Proof. unfold PyStr.strip. apply rstrip_lstrip, rstrip_idemp. Qed.

(** *** Reversal and fields *)

Lemma app_cons c (s t : string) : String c s +:+ t = String c (s +:+ t).
Proof. done. Qed.

Lemma app_nil_l (t : string) : "" +:+ t = t.
Proof. done. Qed.

Lemma rev_to_app (s : string) : forall acc,
  PyStr.rev_to acc s = PyStr.rev s +:+ acc.
Proof.
  unfold PyStr.rev. induction s as [|c s IH]; intros acc; [done |].
  cbn [PyStr.rev_to]. rewrite (IH (String c acc)), (IH (String c "")).
  by rewrite Shear7Facts.append_assoc.
Qed.

Lemma rev_rev_to (ds : string) : forall cur,
  PyStr.rev (PyStr.rev_to cur ds) = PyStr.rev cur +:+ ds.
Proof.
  induction ds as [|c ds IH]; intros cur; cbn [PyStr.rev_to].
  - clear. induction (PyStr.rev cur) as [|a r IHr]; [done |].
    rewrite app_cons. by rewrite <- IHr.
  - rewrite IH. unfold PyStr.rev at 1. cbn [PyStr.rev_to].
    rewrite rev_to_app, Shear7Facts.append_assoc. done.
Qed.

(** A run of characters that are no blank, followed by a blank, is the end
    of a field. *)
Lemma split_go_field (ds : string) : forall cur rest,
  PyStr.contains " " ds = false ->
  PyStr.split_go " " 0 cur (ds +:+ String " " rest)
  = (PyStr.rev cur +:+ ds) :: PyStr.split_go " " 0 "" rest.
Proof.
  induction ds as [|c ds IH]; intros cur rest Hds.
  - rewrite app_nil_l. cbn [PyStr.split_go PyStr.startswith].
    rewrite bool_decide_eq_true_2 by done. cbn [andb String.length Nat.sub].
    f_equal. clear. induction (PyStr.rev cur) as [|a r IHr]; [done |].
    rewrite app_cons. by rewrite <- IHr.
  - rewrite app_cons. cbn [PyStr.contains PyStr.startswith] in Hds.
    apply orb_false_iff in Hds as [Hc Hds]. rewrite andb_true_r in Hc.
    cbn [PyStr.split_go PyStr.startswith]. rewrite andb_true_r, Hc.
    rewrite IH by done. f_equal. unfold PyStr.rev at 1. cbn [PyStr.rev_to].
    rewrite rev_to_app, Shear7Facts.append_assoc. done.
Qed.

(** A string that does not hold the separator is one field. *)
Lemma split_go_whole (sep : string) (s : string) : forall cur,
  PyStr.contains sep s = false ->
  PyStr.split_go sep 0 cur s = [PyStr.rev cur +:+ s].
Proof.
  induction s as [|c s IH]; intros cur Hs.
  - cbn [PyStr.split_go]. f_equal.
    induction (PyStr.rev cur) as [|a r IHr]; [done |].
    rewrite app_cons. by rewrite <- IHr.
  - cbn [PyStr.contains] in Hs. apply orb_false_iff in Hs as [Hc Hs].
    cbn [PyStr.split_go]. rewrite Hc, IH by done. f_equal.
    unfold PyStr.rev at 1. cbn [PyStr.rev_to].
    rewrite rev_to_app, Shear7Facts.append_assoc. done.
Qed.

Lemma split_whole (sep s : string) :
  PyStr.contains sep s = false -> PyStr.split sep s = [s].
Proof. intros Hs. unfold PyStr.split. by rewrite split_go_whole. Qed.

(** *** Decimal numerals *)

Lemma digit_not_space c : PyStr.is_digit c = true -> PyStr.is_space c = false.
Proof.
  unfold PyStr.is_digit, PyStr.is_space.
  rewrite andb_true_iff, !Nat.leb_le. intros [H1 H2].
  rewrite !orb_false_iff, !andb_false_iff, !Nat.leb_gt, !Nat.eqb_neq. lia.
Qed.

Lemma digits_no_blank (s : string) :
  StrSpec.all_digits s = true -> PyStr.contains " " s = false.
Proof.
  induction s as [|c s IH]; [done |]. cbn [StrSpec.all_digits].
  rewrite andb_true_iff. intros [Hc Hs].
  cbn [PyStr.contains PyStr.startswith]. rewrite IH by done.
  rewrite andb_true_r, orb_false_r. apply bool_decide_eq_false.
  intros <-. done.
Qed.

Lemma digits_rstrip (s : string) :
  StrSpec.all_digits s = true -> PyStr.rstrip s = s.
Proof.
  induction s as [|c s IH]; [done |]. cbn [StrSpec.all_digits].
  rewrite andb_true_iff. intros [Hc Hs]. cbn [PyStr.rstrip].
  rewrite IH by done. rewrite (digit_not_space c Hc). by destruct s.
Qed.

Lemma digits_strip (s : string) :
  StrSpec.all_digits s = true -> PyStr.strip s = s.
Proof.
  intros Hs. unfold PyStr.strip. rewrite digits_rstrip by done.
  destruct s as [|c s]; [done |]. cbn [StrSpec.all_digits] in Hs.
  apply andb_true_iff in Hs as [Hc _]. cbn [PyStr.lstrip].
  by rewrite (digit_not_space c Hc).
Qed.

Lemma digits_sign (s : string) :
  StrSpec.all_digits s = true -> PyNum.sign_of s = (false, s).
Proof.
  destruct s as [|c s]; [done |]. cbn [StrSpec.all_digits].
  rewrite andb_true_iff. intros [Hc _].
  destruct c as [[] [] [] [] [] [] [] []]; done.
Qed.

Lemma uint_digits (d : Decimal.uint) :
  StrSpec.all_digits (NilEmpty.string_of_uint d) = true.
Proof. induction d; done. Qed.

Lemma digits_go_digit c acc k (s : string) :
  PyStr.is_digit c = true ->
  PyNum.digits_go acc k (String c s)
  = PyNum.digits_go (10 * acc + PyStr.digit_val c)%Z (S k) s.
Proof. intros Hc. cbn [PyNum.digits_go]. by rewrite Hc. Qed.

Lemma digits_go_uint (d : Decimal.uint) : forall acc k,
  PyNum.digits_go (Z.of_nat acc) k (NilEmpty.string_of_uint d)
  = (Z.of_nat (Nat.of_uint_acc d acc), k + Decimal.nb_digits d, "").
Proof.
  induction d as [|d IH|d IH|d IH|d IH|d IH|d IH|d IH|d IH|d IH|d IH];
    intros acc k;
    [cbn; by rewrite Nat.add_0_r | ..];
    cbn [NilEmpty.string_of_uint Nat.of_uint_acc Decimal.nb_digits];
    rewrite digits_go_digit by done;
    (match goal with
     | |- context [PyStr.digit_val ?c] =>
         let v := eval vm_compute in (PyStr.digit_val c) in
         change (PyStr.digit_val c) with v
     end);
    (match goal with
     | |- PyNum.digits_go ?a _ _ = (Z.of_nat (Nat.of_uint_acc _ ?b), _, _) =>
         replace a with (Z.of_nat b) by (rewrite Nat.tail_mul_spec; lia)
     end);
    rewrite IH; do 2 f_equal; lia.
Qed.

Lemma to_uint_nonnil (n : nat) : Nat.to_uint n <> Decimal.Nil.
Proof.
  intros H. pose proof (Unsigned.of_to n) as Hn. rewrite H in Hn.
  cbn in Hn. subst n. done.
Qed.

Lemma of_nat_digits (n : nat) : StrSpec.all_digits (PyStr.of_nat n) = true.
Proof. apply uint_digits. Qed.

Lemma digit_not_blank c : PyStr.is_digit c = true -> PyNum.is_blank c = false.
Proof.
  unfold PyStr.is_digit, PyNum.is_blank.
  rewrite andb_true_iff, !Nat.leb_le. intros [H1 H2].
  rewrite !orb_false_iff, !andb_false_iff, !Nat.leb_gt, !Nat.eqb_neq. lia.
Qed.

Lemma digits_rstrip_blank (s : string) :
  StrSpec.all_digits s = true -> PyNum.rstrip_blank s = s.
Proof.
  induction s as [|c s IH]; [done |]. cbn [StrSpec.all_digits].
  rewrite andb_true_iff. intros [Hc Hs]. cbn [PyNum.rstrip_blank].
  rewrite IH by done. rewrite (digit_not_blank c Hc). by destruct s.
Qed.

Lemma digits_strip_blank (s : string) :
  StrSpec.all_digits s = true -> PyNum.strip_blank s = s.
Proof.
  intros Hs. unfold PyNum.strip_blank. rewrite digits_rstrip_blank by done.
  destruct s as [|c s]; [done |]. cbn [StrSpec.all_digits] in Hs.
  apply andb_true_iff in Hs as [Hc _]. cbn [PyNum.lstrip_blank].
  by rewrite (digit_not_blank c Hc).
Qed.

Lemma uint_length (d : Decimal.uint) :
  String.length (NilEmpty.string_of_uint d) = Decimal.nb_digits d.
Proof. induction d; cbn; congruence. Qed.

(** [int(str(n))] is [n] as long as [n] is written with no more digits than
    [int] reads, and raises beyond. *)
Lemma py_int_of_nat (n : nat) :
  PyNum.py_int (PyStr.of_nat n)
  = if StrSpec.readable n then Ok (Z.of_nat n) else Raise ValueError.
Proof.
  unfold StrSpec.readable, PyNum.py_int, PyNum.int_of_string.
  rewrite digits_strip_blank, digits_sign by apply of_nat_digits.
  unfold PyStr.of_nat.
  pose proof (digits_go_uint (Nat.to_uint n) 0 0) as Hd.
  change (Z.of_nat 0) with 0%Z in Hd. rewrite Hd.
  fold (Nat.of_uint (Nat.to_uint n)). rewrite Unsigned.of_to.
  rewrite uint_length. cbn [Nat.add].
  change (PyStr.eqb "" "") with true. rewrite andb_true_r.
  destruct (Decimal.nb_digits (Nat.to_uint n)) eqn:E.
  - by apply DecimalFacts.nb_digits_0, to_uint_nonnil in E.
  - change (0 <? S n0) with true. cbn [andb].
    by destruct (S n0 <=? PyNum.max_str_digits).
Qed.

(** The separators 28 to 31 are white space to [str.strip] and not to
    [int] and [float]. *)
Example separators_are_no_blanks :
  PyStr.strip (String "031" ".5") = ".5" /\
  PyNum.float_of_string (String "031" ".5") = None /\
  PyNum.int_of_string (String "031" "5") = None /\
  PyNum.int_of_string (String "009" "5 ") = Some 5%Z.
Proof. repeat split; vm_compute; reflexivity. Qed.

(** Digits hold nothing [replace] would take for [No.]. *)
Lemma replace_digits (s : string) :
  StrSpec.all_digits s = true -> PyStr.replace_go "No." "" 0 s = s.
Proof.
  induction s as [|c s IH]; [done |]. cbn [StrSpec.all_digits].
  rewrite andb_true_iff. intros [Hc Hs].
  cbn [PyStr.replace_go PyStr.startswith].
  rewrite bool_decide_eq_false_2; [cbn [andb]; by rewrite IH |].
  intros <-. done.
Qed.

(** *** Strings that lack a character *)

Lemma lacks_startswith c (p s : string) :
  StrSpec.lacks c s = true -> PyStr.startswith (String c p) s = false.
Proof.
  destruct s as [|a s]; [done |]. cbn [StrSpec.lacks PyStr.startswith].
  rewrite andb_true_iff, negb_true_iff. intros [Ha _].
  apply bool_decide_eq_false in Ha.
  rewrite bool_decide_eq_false_2; [done |]. by intros ->.
Qed.

Lemma lacks_contains c (p s : string) :
  StrSpec.lacks c s = true -> PyStr.contains (String c p) s = false.
Proof.
  induction s as [|a s IH]; intros Hs; [done |].
  cbn [PyStr.contains]. rewrite lacks_startswith by done.
  cbn [StrSpec.lacks] in Hs. apply andb_true_iff in Hs as [_ Hs]. by apply IH.
Qed.

Lemma lacks_app c (a b : string) :
  StrSpec.lacks c (a +:+ b) = StrSpec.lacks c a && StrSpec.lacks c b.
Proof.
  induction a as [|x a IH]; [done |]. rewrite app_cons.
  cbn [StrSpec.lacks]. by rewrite IH, andb_assoc.
Qed.

Lemma digits_lack c (s : string) :
  PyStr.is_digit c = false -> StrSpec.all_digits s = true ->
  StrSpec.lacks c s = true.
Proof.
  intros Hc. induction s as [|a s IH]; [done |].
  cbn [StrSpec.all_digits StrSpec.lacks]. rewrite andb_true_iff.
  intros [Ha Hs]. rewrite IH by done. rewrite andb_true_r, negb_true_iff.
  apply bool_decide_eq_false. intros ->. congruence.
Qed.

(** [replace] leaves a string that does not hold [old] as it is. *)
Lemma replace_absent (old new s : string) :
  PyStr.contains old s = false -> PyStr.replace_go old new 0 s = s.
Proof.
  induction s as [|c s IH]; [done |]. cbn [PyStr.contains].
  rewrite orb_false_iff. intros [Hc Hs].
  cbn [PyStr.replace_go]. by rewrite Hc, IH.
Qed.

(** A run of characters other than the separator, followed by the
    separator, is the end of a field. *)
Lemma split_go_field_char c (ds : string) : forall cur rest,
  StrSpec.lacks c ds = true ->
  PyStr.split_go (String c "") 0 cur (ds +:+ String c rest)
  = (PyStr.rev cur +:+ ds) :: PyStr.split_go (String c "") 0 "" rest.
Proof.
  induction ds as [|a ds IH]; intros cur rest Hds.
  - rewrite app_nil_l. cbn [PyStr.split_go PyStr.startswith].
    rewrite bool_decide_eq_true_2 by done. cbn [andb String.length Nat.sub].
    f_equal. clear. induction (PyStr.rev cur) as [|x r IHr]; [done |].
    rewrite app_cons. by rewrite <- IHr.
  - rewrite app_cons. cbn [StrSpec.lacks] in Hds.
    apply andb_true_iff in Hds as [Ha Hds]. apply negb_true_iff in Ha.
    apply bool_decide_eq_false in Ha.
    cbn [PyStr.split_go PyStr.startswith].
    rewrite bool_decide_eq_false_2 by congruence. cbn [andb].
    rewrite IH by done. f_equal. unfold PyStr.rev at 1. cbn [PyStr.rev_to].
    rewrite rev_to_app, Shear7Facts.append_assoc. done.
Qed.

End StrFacts.

(** * das files: reading the lines, units, and what the parse raises *)

Module DasMore.
Import Das DasSpec.

Lemma keep_line_stripped (line l : string) :
  keep_line line = Some l -> l <> "" /\ PyStr.strip l = l.
Proof.
  unfold keep_line. destruct (PyStr.rstrip line) as [|c r] eqn:E; [done |].
  case_bool_decide; [done |]. intros [= <-].
  rewrite StrFacts.rstrip_strip.
  assert (PyStr.rstrip (String c r) = String c r) as Hr.
  { rewrite <- E. apply StrFacts.rstrip_idemp. }
  split; [| apply StrFacts.strip_idemp].
  unfold PyStr.strip. rewrite Hr. by apply StrFacts.lstrip_nonempty.
Qed.

Lemma read_das_file_stripped (text : string) :
  Forall (fun l => l <> "" /\ PyStr.strip l = l) (read_das_file text).
Proof.
  apply Forall_forall. intros l Hl. unfold read_das_file in Hl.
  apply list_elem_of_omap in Hl as (line & _ & Hk).
  by eapply keep_line_stripped.
Qed.

(** [read_das_file] keeps no empty line and no line with white space at
    either end, so that [line[0]] in [parse_das_file_data] is always
    there. *)
Theorem read_das_file_lines_are_stripped (text : string) :
  Forall (fun l => l <> "" /\ PyStr.strip l = l /\ is_ok (first_char l) = true)
    (read_das_file text).
Proof.
  eapply Forall_impl; [apply read_das_file_stripped |].
  intros l [Hne Hs]. repeat split; try done. by destruct l.
Qed.

Lemma foldM_raises_KeyError (data : list string) : forall cur inner e,
  holds inner cur -> Forall (fun l => l <> "") data ->
  foldM parse_line cur data = Raise e -> exists k, e = KeyError k.
Proof.
  induction data as [|l data IH]; intros cur inner e Hh Hne; [done |].
  apply Forall_cons in Hne as [Hl Hne]. rewrite foldM_cons.
  destruct (is_dollar l) eqn:Hd.
  - destruct (DasTotal.parse_line_dollar_holds cur l Hd) as (c1 & -> & Hh1 & _).
    cbn [mbind result_bind]. by apply (IH c1 []).
  - pose proof (DasTotal.parse_line_open cur l inner Hh Hd Hl) as Hstep.
    unfold section_step, getitem in Hstep.
    destruct (is_star l).
    + destruct Hstep as (c1 & -> & Hh1 & _). cbn [mbind result_bind].
      by apply (IH c1 _ e Hh1).
    + destruct (dict_get (star_section cur) inner) as [lines|];
        cbn [mbind result_bind] in Hstep.
      * destruct Hstep as (c1 & -> & Hh1 & _). cbn [mbind result_bind].
        by apply (IH c1 _ e Hh1).
      * rewrite Hstep. cbn [mbind result_bind]. intros [= <-]. eauto.
Qed.

(** On the lines [read_das_file] keeps, [parse_das_file_data] returns when
    every data line comes after a star header of its own dollar section, and
    raises [KeyError] otherwise: it raises nothing else. *)
Theorem read_then_parse_raises_only_KeyError (text : string) :
  match parse_das_file_data (read_das_file text) setup_variables with
  | Ok _ => accepted true (read_das_file text) = true
  | Raise e => accepted true (read_das_file text) = false /\
               exists k, e = KeyError k
  end.
Proof.
  pose proof (DasTotal.parse_returns_iff_accepted (read_das_file text)) as Hacc.
  unfold parse_das_file_data in *.
  destruct (foldM parse_line (start setup_variables) (read_das_file text))
    as [cur|e] eqn:E; cbn [mbind result_bind is_ok] in *; [done |].
  split; [done |].
  eapply (foldM_raises_KeyError _ (start setup_variables) [("headers", [])]);
    [done | | exact E].
  eapply Forall_impl; [apply read_das_file_stripped |]. by intros l [? _].
Qed.

(** When [get_units] returns, the length unit agrees with the units: [ft]
    for imperial and [m] for metric, in any letter case, and no error is
    noted; or no units were found, the length unit is as it was and one
    error is noted. *)
Theorem get_units_length_unit (s s' : DasFile) :
  get_units s = Ok s' ->
  (exists u, units s' = Some u /\ u <> "" /\ errors s' = errors s /\
     ((PyStr.lower u = "imperial" /\ length_unit s' = Some "ft") \/
      (PyStr.lower u = "metric" /\ length_unit s' = Some "m"))) \/
  (truthy (units s') = false /\ length_unit s' = length_unit s /\
   errors s' = errors s ++ ["Units not found"]).
Proof.
  unfold get_units. intros H. apply bind_Ok_inv in H as (u & _ & H).
  destruct (truthy u) eqn:Ht.
  - left. destruct u as [[|c u]|]; try done.
    change (default "" (Some (String c u))) with (String c u) in H.
    remember (PyStr.lower (String c u)) as L eqn:HL.
    unfold getitem in H. cbn [dict_get units_dict] in H.
    destruct (decide (L = "imperial")) as [->|Hi].
    + cbn in H. injection H as <-. exists (String c u).
      cbn [units length_unit errors set_units]. rewrite <- HL. eauto 10.
    + destruct (decide (L = "metric")) as [->|Hm]; [| done].
      cbn in H. injection H as <-. exists (String c u).
      cbn [units length_unit errors set_units]. rewrite <- HL. eauto 10.
  - right. injection H as <-. done.
Qed.

Lemma get_units_length_unit_witness :
  get_units Samples.das_parsed = Ok MoreSamples.das_with_units /\
  ((exists u, units MoreSamples.das_with_units = Some u /\ u <> "" /\
      errors MoreSamples.das_with_units = errors Samples.das_parsed /\
      ((PyStr.lower u = "imperial" /\
        length_unit MoreSamples.das_with_units = Some "ft") \/
       (PyStr.lower u = "metric" /\
        length_unit MoreSamples.das_with_units = Some "m"))) \/
   (truthy (units MoreSamples.das_with_units) = false /\
    length_unit MoreSamples.das_with_units = length_unit Samples.das_parsed /\
    errors MoreSamples.das_with_units
    = errors Samples.das_parsed ++ ["Units not found"])).
Proof.
  assert (get_units Samples.das_parsed = Ok MoreSamples.das_with_units) as Hg
    by (vm_compute; reflexivity).
  split; [exact Hg | exact (get_units_length_unit _ _ Hg)].
Defined.

(** A units text that is neither imperial nor metric makes [get_units]
    raise [KeyError]. *)
Theorem get_units_unknown_units (s : DasFile) (a : sections)
    (ds : list string) (u : string) :
  dict_get "$ANALYSIS" (das_data s) = Some a ->
  dict_get "*UNITS" a = Some ds ->
  scan_key "UNITS=" (units s) ds = Ok (Some u) ->
  u <> "" -> PyStr.lower u <> "imperial" -> PyStr.lower u <> "metric" ->
  get_units s = Raise (KeyError (PyStr.lower u)).
Proof.
  intros Ha Hd Hs Hne Hi Hm. unfold get_units. rewrite Ha, Hd, Hs.
  cbn [mbind result_bind]. destruct u as [|c u]; [done |].
  cbn [truthy default]. unfold getitem. cbn [dict_get units_dict].
  by rewrite !decide_False by done.
Qed.

Lemma get_units_unknown_units_witness :
  get_units
    (set_das_data (fun _ => [("$ANALYSIS", [("*UNITS", ["UNITS=SI"])])])
       setup_variables)
  = Raise (KeyError "si").
Proof.
  apply (get_units_unknown_units _ [("*UNITS", ["UNITS=SI"])] ["UNITS=SI"] "SI");
    done.
Defined.

End DasMore.

(** * das files: nodes, elements and geometric sets *)

Module DasQueriesFacts.
Import Das DasQueries DasQueriesSpec.

(** One turn of the loop of [get_node_coordinates], by what the line
    holds. *)
Lemma node_loop_cons node acc n nodes :
  node_loop node false acc (n :: nodes)
  = (en ← node_entry n;
     if is_node node en
     then Ok (Coords (default [] (snd <$> en)))
     else node_loop node false acc nodes).
Proof.
  cbn [node_loop]. unfold node_entry.
  destruct (4 <=? length (row_fields n)); [| done].
  repeat match goal with
    | |- context [mbind _ ?r] =>
        destruct r; cbn [mbind result_bind]; try done
    end.
Qed.

Lemma node_loop_first pre : forall es node cs acc row post,
  mapM_result node_entry pre = Ok es ->
  Forall (fun en => is_node node en = false) es ->
  node_entry row = Ok (Some (node, cs)) ->
  node_loop node false acc (pre ++ row :: post) = Ok (Coords cs).
Proof.
  induction pre as [|n pre IH]; intros es node cs acc row post Hes Hno Hrow.
  - cbn [app]. rewrite node_loop_cons, Hrow. cbn [mbind result_bind is_node].
    by rewrite (proj2 (eqb_true node node)).
  - cbn [app]. rewrite node_loop_cons. cbn [mapM_result] in Hes. inv_bind.
    apply Forall_cons in Hno as [Hn Hno]. rewrite Hn. by eapply IH.
Qed.

Lemma node_loop_none nodes : forall es node acc,
  mapM_result node_entry nodes = Ok es ->
  Forall (fun en => is_node node en = false) es ->
  node_loop node false acc nodes = Ok (Coords []).
Proof.
  induction nodes as [|n nodes IH]; intros es node acc Hes Hno; [done |].
  rewrite node_loop_cons. cbn [mapM_result] in Hes. inv_bind.
  apply Forall_cons in Hno as [Hn Hno]. rewrite Hn. by eapply IH.
Qed.

(** [get_node_coordinates] returns the coordinates of the first line of
    [*NODE] that names the node, and reads no line after it; when no line
    names the node it returns the empty list.  The lines it passes over must
    hold numbers: a line with four fields whose coordinates are no numbers
    raises, whatever node it names. *)
Theorem get_node_coordinates_first_match
    (node : string) (model : nat) (s : DasFile) (m : sections)
    (es : list (option (string * list PyNum.float))) :
  dict_get model (models s) = Some m ->
  PyStr.lower (PyStr.strip node) <> "all" ->
  Forall (fun en => is_node (PyStr.strip node) en = false) es ->
  (forall pre row post cs,
     dict_get "*NODE" m = Some (pre ++ row :: post) ->
     mapM_result node_entry pre = Ok es ->
     node_entry row = Ok (Some (PyStr.strip node, cs)) ->
     get_node_coordinates (NodeStr node) model s = Ok (Coords cs)) /\
  (forall nodes,
     dict_get "*NODE" m = Some nodes ->
     mapM_result node_entry nodes = Ok es ->
     get_node_coordinates (NodeStr node) model s = Ok (Coords [])).
Proof.
  intros Hm Hall Hno.
  assert (PyStr.eqb (PyStr.lower (PyStr.strip node)) "all" = false) as Ha
    by by apply eqb_false.
  split.
  - intros pre row post cs Hn Hes Hrow. unfold get_node_coordinates, getitem.
    cbn [str_of_node mbind result_bind]. rewrite Hm, Ha.
    cbn [mbind result_bind]. rewrite Hn.
    by eapply node_loop_first.
  - intros nodes Hn Hes. unfold get_node_coordinates, getitem.
    cbn [str_of_node mbind result_bind]. rewrite Hm, Ha.
    cbn [mbind result_bind]. rewrite Hn.
    by eapply node_loop_none.
Qed.

Lemma get_node_coordinates_first_match_witness :
  get_node_coordinates (NodeStr " 2 ") 1 Samples.das_parsed
  = Ok (Coords [Prim2SF 10%float; S754_zero false; S754_zero false]).
Proof.
  pose proof (get_node_coordinates_first_match " 2 " 1 Samples.das_parsed
    [("*NODE", ["1,0,0,0"; "2,10,0,0"]); ("*OCEAN", ["100.0,1025"])]
    [Some ("1", [S754_zero false; S754_zero false; S754_zero false])]) as H.
  destruct H as [H _].
  - vm_compute. reflexivity.
  - vm_compute. discriminate.
  - repeat constructor.
  - apply (H ["1,0,0,0"] "2,10,0,0" []); vm_compute; reflexivity.
Defined.

Lemma element_nodes_step_entry element st e :
  element_nodes_step element st e
  = (r ← element_entry element e;
     Ok (match r with Some (a, b) => (Some a, Some b) | None => st end)).
Proof.
  unfold element_nodes_step, element_entry.
  destruct (py_index (row_fields e) 0) as [e0|]; cbn [mbind result_bind];
    [| done].
  destruct (negb (PyStr.contains "GEN" e0)); [| done].
  destruct (PyNum.py_int e0) as [n|]; cbn [mbind result_bind]; [| done].
  destruct ((n =? element)%Z && (3 <=? length (row_fields e))); [| done].
  destruct (py_index (row_fields e) 1); cbn [mbind result_bind]; [| done].
  by destruct (py_index (row_fields e) 2).
Qed.

Lemma element_nodes_loop element es : forall acc,
  foldM (element_nodes_step element) (nodes_of acc) es
  = (rs ← mapM_result (element_entry element) es;
     Ok (nodes_of
           (foldl (fun acc x => match x with Some _ => x | None => acc end)
              acc rs))).
Proof.
  induction es as [|e es IH]; intros acc; [done |].
  cbn [foldM mapM_result]. rewrite element_nodes_step_entry.
  destruct (element_entry element e) as [r|]; cbn [mbind result_bind]; [| done].
  assert (match r with Some (a, b) => (Some a, Some b) | None => nodes_of acc end
          = nodes_of (match r with Some _ => r | None => acc end)) as ->.
  { by destruct r as [[? ?]|]. }
  rewrite IH.
  destruct (mapM_result (element_entry element) es); done.
Qed.

Lemma get_element_nodes_rows
    (element : Z) (model : nat) (s : DasFile) (m : sections)
    (elements : list string) :
  dict_get model (models s) = Some m ->
  dict_get "*ELEMENT" m = Some elements ->
  get_element_nodes element model s
  = (rs ← mapM_result (element_entry element) elements;
     Ok (match last_entry rs with
         | Some (a, b) => [Some a; Some b]
         | None => [None; None]
         end)).
Proof.
  intros Hm He. unfold get_element_nodes, getitem. rewrite Hm.
  cbn [mbind result_bind]. rewrite He. cbn [mbind result_bind].
  change (@None string, @None string) with (nodes_of None).
  rewrite element_nodes_loop. unfold last_entry.
  destruct (mapM_result (element_entry element) elements) as [rs|];
    cbn [mbind result_bind]; [| done].
  by destruct (foldl _ None rs) as [[? ?]|].
Qed.

(** [get_element_nodes] reads every line of [*ELEMENT] and returns the
    nodes of the last line that names the element ([None] twice when none
    does); a line outside a [GEN] line whose first field is no integer
    raises, whatever follows. *)
Theorem get_element_nodes_last_match
    (element : Z) (model : nat) (s : DasFile) (m : sections)
    (elements : list string) :
  dict_get model (models s) = Some m ->
  dict_get "*ELEMENT" m = Some elements ->
  get_element_nodes element model s
  = (rs ← mapM_result (element_entry element) elements;
     Ok (match last_entry rs with
         | Some (a, b) => [Some a; Some b]
         | None => [None; None]
         end)).
Proof. apply get_element_nodes_rows. Qed.

Lemma get_element_nodes_last_match_witness :
  get_element_nodes 1 1 MoreSamples.das_elements
  = (rs ← mapM_result (element_entry 1)
            ["1, 1, 2"; "GEN=2,5"; "1, 2, 3"];
     Ok (match last_entry rs with
         | Some (a, b) => [Some a; Some b]
         | None => [None; None]
         end)) /\
  get_element_nodes 1 1 MoreSamples.das_elements = Ok [Some "2"; Some "3"].
Proof.
  split; [| vm_compute; reflexivity].
  apply (get_element_nodes_last_match 1 1 _ MoreSamples.das_element_model);
    vm_compute; reflexivity.
Defined.

(** The coordinates of an element that no line of [*ELEMENT] names are two
    empty lists: [get_element_nodes] gives [None] twice, and
    [get_node_coordinates] looks for a node written [None]. *)
Theorem get_element_coordinates_unknown_element
    (element : Z) (model : nat) (s : DasFile) (m : sections)
    (elements nodes : list string)
    (rs : list (option (string * string)))
    (es : list (option (string * list PyNum.float))) :
  dict_get model (models s) = Some m ->
  dict_get "*ELEMENT" m = Some elements ->
  mapM_result (element_entry element) elements = Ok rs ->
  last_entry rs = None ->
  dict_get "*NODE" m = Some nodes ->
  mapM_result node_entry nodes = Ok es ->
  Forall (fun en => is_node "None" en = false) es ->
  get_element_coordinates element model s = Ok [Coords []; Coords []].
Proof.
  intros Hm He Hrs Hlast Hn Hes Hno. unfold get_element_coordinates.
  rewrite (get_element_nodes_rows _ _ _ _ _ Hm He), Hrs.
  cbn [mbind result_bind]. rewrite Hlast. cbn [mapM_result].
  assert (get_node_coordinates NodeNone model s = Ok (Coords [])) as ->.
  { unfold get_node_coordinates, getitem. rewrite Hm.
    cbn [mbind result_bind]. rewrite Hn. by eapply node_loop_none. }
  done.
Qed.

Lemma get_element_coordinates_unknown_element_witness :
  get_element_coordinates 7 1 MoreSamples.das_elements
  = Ok [Coords []; Coords []].
Proof.
  apply (get_element_coordinates_unknown_element 7 1 _
           MoreSamples.das_element_model
           ["1, 1, 2"; "GEN=2,5"; "1, 2, 3"]
           ["1,0,0,0"; "2,10,0,0"; "3,20,0,0"]
           [None; None; None]
           [Some ("1", [S754_zero false; S754_zero false; S754_zero false]);
            Some ("2", [Prim2SF 10%float; S754_zero false; S754_zero false]);
            Some ("3", [Prim2SF 20%float; S754_zero false; S754_zero false])]);
    try (vm_compute; reflexivity).
  repeat constructor.
Defined.

(** *** Geometric sets *)

Lemma py_index_last {A} (l : list A) (x : A) : py_index (l ++ [x]) (-1) = Ok x.
Proof.
  unfold py_index. cbn [Z.ltb Z.compare]. rewrite length_app. cbn [length].
  replace (-1 + Z.of_nat (length l + 1))%Z with (Z.of_nat (length l)) by lia.
  destruct (Z.ltb_spec (Z.of_nat (length l)) 0); [lia |].
  rewrite Nat2Z.id. by rewrite list_lookup_middle.
Qed.

Lemma py_index_last_nonempty {A} (l : list A) :
  l <> [] -> exists x, py_index l (-1) = Ok x /\ x ∈ l.
Proof.
  intros Hl. destruct (exists_last Hl) as (l' & x & ->).
  exists x. split; [apply py_index_last |].
  apply elem_of_app. right. by apply list_elem_of_singleton.
Qed.

Lemma dict_get_app_absent {V} (k : string) (v : V) (d : dict string V) :
  k ∉ dict_keys d -> dict_get k (d ++ [(k, v)]) = Some v.
Proof.
  induction d as [|[k' v'] d IH]; intros Hk; cbn [app dict_get].
  - by rewrite decide_True.
  - cbn [dict_keys map fst] in Hk. apply not_elem_of_cons in Hk as [Hne Hk].
    rewrite decide_False by done. by apply IH.
Qed.

Lemma dict_set_app_absent {V} (k : string) (v w : V) (d : dict string V) :
  k ∉ dict_keys d -> dict_set k w (d ++ [(k, v)]) = d ++ [(k, w)].
Proof.
  induction d as [|[k' v'] d IH]; intros Hk; cbn [app dict_set].
  - by rewrite decide_True.
  - cbn [dict_keys map fst] in Hk. apply not_elem_of_cons in Hk as [Hne Hk].
    rewrite decide_False by done. f_equal. by apply IH.
Qed.

Lemma dict_set_nonempty {V} (k : string) (v : V) (d : dict string V) :
  dict_set k v d <> [].
Proof. destruct d as [|[k' v'] d]; cbn [dict_set]; [done |]. by case_decide. Qed.

(** A [SET=] line assigns an empty list to the name it gives. *)
Lemma geometric_step_set geo s :
  PyStr.contains "SET=" s = true ->
  geometric_step geo s = Ok (dict_set (geometric_name s) [] geo).
Proof.
  intros Hs. unfold geometric_step, geometric_name. rewrite Hs.
  destruct (split_second "SET=" s) as [x Hx]; [done | done |].
  rewrite Hx. cbn [mbind result_bind].
  rewrite (py_index_1 _ _ Hx). cbn [default].
  rewrite split_first. done.
Qed.

Lemma dict_keys_app {V} (a b : dict string V) :
  dict_keys (a ++ b) = dict_keys a ++ dict_keys b.
Proof. apply map_app. Qed.

(** The values of a row go to the key that stands last. *)
Lemma geometric_tokens toks : forall geo0 k old,
  k ∉ dict_keys geo0 ->
  foldM (fun geo ss =>
           k ← py_index (dict_keys geo) (-1);
           old ← getitem id k geo;
           Ok (dict_set k (old ++ [PyNum.float_of_string ss]) geo))
        (geo0 ++ [(k, old)]) toks
  = Ok (geo0 ++ [(k, old ++ map PyNum.float_of_string toks)]).
Proof.
  induction toks as [|t toks IH]; intros geo0 k old Hk.
  - cbn [foldM map]. by rewrite app_nil_r.
  - rewrite foldM_cons. cbn beta.
    rewrite dict_keys_app. cbn [dict_keys map fst].
    rewrite py_index_last. cbn [mbind result_bind]. unfold getitem.
    rewrite dict_get_app_absent by done. cbn [mbind result_bind].
    rewrite dict_set_app_absent by done. rewrite IH by done.
    cbn [map]. by rewrite <- app_assoc.
Qed.

Lemma geometric_step_row geo s :
  PyStr.contains "SET=" s = false ->
  geometric_step geo s
  = foldM (fun geo ss =>
             k ← py_index (dict_keys geo) (-1);
             old ← getitem id k geo;
             Ok (dict_set k (old ++ [PyNum.float_of_string ss]) geo))
          geo (PyStr.split "," s).
Proof. intros Hs. unfold geometric_step. by rewrite Hs. Qed.

Lemma geometric_rows rows : forall geo0 k old,
  k ∉ dict_keys geo0 ->
  Forall (fun s => PyStr.contains "SET=" s = false) rows ->
  foldM geometric_step (geo0 ++ [(k, old)]) rows
  = Ok (geo0 ++ [(k, old ++ row_values rows)]).
Proof.
  induction rows as [|r rows IH]; intros geo0 k old Hk Hrows.
  - cbn [foldM row_values map concat]. by rewrite app_nil_r.
  - apply Forall_cons in Hrows as [Hr Hrows]. rewrite foldM_cons.
    rewrite geometric_step_row, geometric_tokens by done.
    cbn [mbind result_bind]. rewrite IH by done.
    unfold row_values. cbn [map concat]. by rewrite <- app_assoc.
Qed.

Lemma geometric_step_total geo s :
  geo <> [] -> exists geo', geometric_step geo s = Ok geo' /\ geo' <> [].
Proof.
  intros Hgeo. destruct (PyStr.contains "SET=" s) eqn:Hs.
  - rewrite geometric_step_set by done. eexists. split; [done |].
    apply dict_set_nonempty.
  - rewrite geometric_step_row by done.
    generalize (PyStr.split "," s). intros toks. revert geo Hgeo.
    induction toks as [|t toks IH]; intros geo Hgeo; [by exists geo |].
    rewrite foldM_cons. cbn beta zeta.
    destruct (py_index_last_nonempty (dict_keys geo)) as (k & -> & Hk).
    { by destruct geo. }
    cbn [mbind result_bind]. unfold getitem.
    destruct (dict_get k geo) as [old|] eqn:Hg.
    + cbn [mbind result_bind]. apply IH, dict_set_nonempty.
    + by apply dict_get_None_keys in Hg.
Qed.

Lemma geometric_loop_total ls : forall geo,
  geo <> [] -> is_ok (foldM geometric_step geo ls) = true.
Proof.
  induction ls as [|l ls IH]; intros geo Hgeo; [done |].
  cbn [foldM]. destruct (geometric_step_total geo l Hgeo) as (geo' & -> & Hg).
  cbn [mbind result_bind]. by apply IH.
Qed.

(** [process_geometric_sets] returns whenever the section starts with a
    [SET=] line (a token that is no number is stored as [None]), and raises
    [IndexError] when a row of values comes first. *)
Theorem process_geometric_sets_needs_a_set_first
    (model : nat) (s : DasFile) (m : sections) (ls : list string) :
  dict_get model (models s) = Some m ->
  dict_get "*GEOMETRIC SETS" m = Some ls ->
  match ls with
  | [] => process_geometric_sets model s = Ok []
  | l :: _ =>
      if PyStr.contains "SET=" l
      then is_ok (process_geometric_sets model s) = true
      else process_geometric_sets model s = Raise IndexError
  end.
Proof.
  intros Hm Hl. unfold process_geometric_sets, getitem. rewrite Hm.
  cbn [mbind result_bind]. rewrite Hl. destruct ls as [|l ls]; [done |].
  cbn [foldM]. destruct (PyStr.contains "SET=" l) eqn:Hs.
  - rewrite geometric_step_set by done. cbn [mbind result_bind].
    apply geometric_loop_total, dict_set_nonempty.
  - rewrite geometric_step_row by done.
    destruct (split_cons "," l) as (t & toks & ->). done.
Qed.

Lemma process_geometric_sets_needs_a_set_first_witness :
  is_ok (process_geometric_sets 1 MoreSamples.das_elements) = true.
Proof.
  apply (process_geometric_sets_needs_a_set_first 1 _
           MoreSamples.das_element_model
           ["SET=Riser, TYPE=PIPE"; "1.0e6, n/a, 0.5"; "SET=Casing"; "2.0";
            "SET=Riser"; "3.0, 4.0"]);
    vm_compute; reflexivity.
Defined.

(** The rows of [*GEOMETRIC SETS] are added to the set that was first named
    last, not to the set named on the line before them: when the name of an
    earlier set comes again, that set is emptied and the rows that follow
    the line are added to the set named in between. *)
Theorem geometric_rows_go_to_the_set_named_last
    (model : nat) (s : DasFile) (m : sections)
    (sa sb sa' : string) (rowsA rowsB rows : list string) :
  dict_get model (models s) = Some m ->
  dict_get "*GEOMETRIC SETS" m
  = Some (sa :: rowsA ++ sb :: rowsB ++ sa' :: rows) ->
  PyStr.contains "SET=" sa = true -> PyStr.contains "SET=" sb = true ->
  PyStr.contains "SET=" sa' = true ->
  geometric_name sa' = geometric_name sa ->
  geometric_name sb <> geometric_name sa ->
  Forall (fun s => PyStr.contains "SET=" s = false) (rowsA ++ rowsB ++ rows) ->
  process_geometric_sets model s
  = Ok [(geometric_name sa, []);
        (geometric_name sb, row_values rowsB ++ row_values rows)].
Proof.
  intros Hm Hl Ha Hb Ha' Hsame Hne Hrows.
  apply Forall_app in Hrows as [HA Hrows].
  apply Forall_app in Hrows as [HB HR].
  unfold process_geometric_sets, getitem. rewrite Hm.
  cbn [mbind result_bind]. rewrite Hl. cbn [foldM].
  rewrite geometric_step_set by done. cbn [mbind result_bind dict_set].
  pose proof (geometric_rows rowsA [] (geometric_name sa) []
                (not_elem_of_nil _) HA) as H1.
  cbn [app] in H1. rewrite foldM_app, H1.
  cbn [mbind result_bind app foldM].
  rewrite geometric_step_set by done. cbn [mbind result_bind dict_set].
  rewrite decide_False by done.
  assert (forall k : string, k <> geometric_name sa ->
            k ∉ dict_keys [(geometric_name sa, @nil (option PyNum.float))])
    as Hfresh.
  { intros k Hk. cbn. by intros ?%list_elem_of_singleton. }
  pose proof (geometric_rows rowsB [(geometric_name sa, row_values rowsA)]
                (geometric_name sb) [] ltac:(cbn; by intros ?%list_elem_of_singleton) HB) as H2.
  cbn [app] in H2. rewrite foldM_app, H2.
  cbn [mbind result_bind app foldM].
  rewrite geometric_step_set by done. cbn [mbind result_bind dict_set].
  rewrite Hsame, decide_True by done.
  pose proof (geometric_rows rows [(geometric_name sa, [])]
                (geometric_name sb) (row_values rowsB)
                (Hfresh _ Hne) HR) as H3.
  cbn [app] in H3. by rewrite H3.
Qed.

Lemma geometric_rows_go_to_the_set_named_last_witness :
  process_geometric_sets 1 MoreSamples.das_elements
  = Ok [("Riser", []);
        ("Casing", [Some (Prim2SF 2%float); Some (Prim2SF 3%float);
                    Some (Prim2SF 4%float)])].
Proof.
  apply (geometric_rows_go_to_the_set_named_last 1 _
           MoreSamples.das_element_model
           "SET=Riser, TYPE=PIPE" "SET=Casing" "SET=Riser"
           ["1.0e6, n/a, 0.5"] ["2.0"] ["3.0, 4.0"]);
    try (vm_compute; reflexivity).
  - vm_compute. discriminate.
  - repeat constructor.
Defined.

End DasQueriesFacts.

(** * Tab files: the parse on any lines, and what follows it *)

Module TabMore.
Import Tab TabSpec TabPostSpec.

Lemma Forall_dict_set {K V} `{EqDecision K} (P : V -> Prop) (k : K) (v : V)
    (d : dict K V) :
  Forall (fun kv => P kv.2) d -> P v ->
  Forall (fun kv => P kv.2) (dict_set k v d).
Proof.
  intros Hd Hv. induction d as [|[k' v'] d IH]; cbn [dict_set].
  - by constructor.
  - apply Forall_cons in Hd as [Hv' Hd].
    case_decide; constructor; auto.
Qed.

Lemma Forall_dict_get {K V} `{EqDecision K} (P : V -> Prop) (k : K) (v : V)
    (d : dict K V) :
  Forall (fun kv => P kv.2) d -> dict_get k d = Some v -> P v.
Proof.
  intros Hd. induction d as [|[k' v'] d IH]; cbn [dict_get]; [done |].
  apply Forall_cons in Hd as [Hv' Hd].
  case_decide; [by intros [= <-] | auto].
Qed.

Lemma try_append_balanced t ser line d :
  balanced d -> balanced (try_append t ser line d).
Proof.
  intros Hd. unfold try_append.
  destruct ser as [sname|]; [| done].
  destruct (dict_get t d) as [td|] eqn:Ht; [| done].
  destruct (dict_get sname td) as [sd|] eqn:Hs; [| done].
  pose proof (Forall_dict_get _ _ _ _ Hd Ht) as Htd. cbn beta in Htd.
  pose proof (Forall_dict_get
                (fun sd => length (Y sd) <= length (X sd)) _ _ _ Htd Hs) as Hsd.
  cbn beta in Hsd.
  destruct (PyNum.float_of_string _) as [x|]; [| done].
  assert (balanced (dict_set t
            (dict_set sname (set_X (X sd ++ [x]) sd) td) d)) as H1.
  { apply (Forall_dict_set
             (fun td => Forall (fun ks : string * series_data =>
                                  length (Y ks.2) <= length (X ks.2)) td));
      [done |].
    apply (Forall_dict_set (fun sd => length (Y sd) <= length (X sd)));
      [done |].
    cbn. rewrite length_app. cbn. lia. }
  destruct (PyStr.split PyStr.tab line !! 1) as [f1|]; [| done].
  destruct (PyNum.float_of_string f1) as [y|]; [| done].
  apply (Forall_dict_set
           (fun td => Forall (fun ks : string * series_data =>
                                length (Y ks.2) <= length (X ks.2)) td));
    [done |].
  apply (Forall_dict_set (fun sd => length (Y sd) <= length (X sd)));
    [done |].
  cbn. rewrite !length_app. cbn. lia.
Qed.

Lemma parse_line_balanced p line p' :
  balanced (tab_file_data p) -> parse_line p line = Ok p' ->
  balanced (tab_file_data p').
Proof.
  intros Hb H. unfold parse_line in H.
  destruct (PyStr.contains "Table No." line).
  { injection H as <-. cbn [tab_file_data].
    apply (Forall_dict_set
             (fun td => Forall (fun ks : string * series_data =>
                                  length (Y ks.2) <= length (X ks.2)) td));
      [done | constructor]. }
  destruct (table p) as [[|c0 t0]|]; try (by injection H as <-).
  apply bind_Ok_inv in H as (xl & _ & H).
  apply bind_Ok_inv in H as (yl & _ & H).
  apply bind_Ok_inv in H as ([xu xl'] & _ & H).
  apply bind_Ok_inv in H as ([yu yl'] & _ & H).
  apply bind_Ok_inv in H as ([[d ser] cnt] & Hd & H).
  injection H as <-. cbn [tab_file_data]. apply try_append_balanced.
  destruct (PyStr.eqb (PyStr.take 10 line) "Plot Data:");
    [| by injection Hd as <- _ _].
  apply bind_Ok_inv in Hd as (title & _ & Hd).
  apply bind_Ok_inv in Hd as (td & Htd & Hd).
  apply DasFacts.getitem_Ok_inv in Htd.
  destruct (PyStr.eqb title "" || dict_mem title td);
    injection Hd as <- _ _;
    (apply (Forall_dict_set
              (fun td => Forall (fun ks : string * series_data =>
                                   length (Y ks.2) <= length (X ks.2)) td));
     [done |];
     apply (Forall_dict_set (fun sd => length (Y sd) <= length (X sd)));
     [exact (Forall_dict_get _ _ _ _ Hb Htd) | cbn; lia]).
Qed.

(** [parse_contents] returns on any lines: what could raise is either
    guarded or inside the [try] block.  In the data it returns no series
    holds more values of Y than of X (a line whose first field is a number
    and whose second is not adds to X alone). *)
Theorem parse_contents_returns_balanced_series (contents : list string) :
  exists d, parse_contents contents = Ok d /\ balanced d.
Proof.
  destruct (TabFacts.parse_lines_total contents parser_start
              TabFacts.table_open_start) as (p & Hp & _).
  exists (tab_file_data p). unfold parse_contents. rewrite Hp.
  split; [done |]. revert Hp.
  apply (foldM_invariant (fun p => balanced (tab_file_data p))).
  - intros q x q' Hq Hx. by eapply parse_line_balanced.
  - constructor.
Qed.

(** The lines that come before the first table line are ignored. *)
Theorem lines_before_the_first_table_are_ignored (pre rest : list string) :
  Forall (fun l => opens_table l = false) pre ->
  parse_contents (pre ++ rest) = parse_contents rest.
Proof.
  intros Hpre. unfold parse_contents. rewrite foldM_app.
  assert (foldM parse_line parser_start pre = Ok parser_start) as ->; [| done].
  induction Hpre as [|l pre Hl Hpre IH]; [done |].
  rewrite foldM_cons.
  assert (parse_line parser_start l = Ok parser_start) as ->; [| exact IH].
  unfold parse_line. unfold opens_table in Hl. by rewrite Hl.
Qed.

Lemma lines_before_the_first_table_are_ignored_witness :
  parse_contents (["a title"; "Plot Data: x"; "1.0" +:+ PyStr.tab +:+ "2.0"]
                  ++ Samples.tab_lines)
  = parse_contents Samples.tab_lines.
Proof.
  apply lines_before_the_first_table_are_ignored.
  repeat constructor.
Defined.

Lemma contains_blank_cons c (s : string) :
  c <> " "%char -> PyStr.contains " " (String c s) = PyStr.contains " " s.
Proof.
  intros Hc. cbn [PyStr.contains PyStr.startswith].
  rewrite bool_decide_eq_false_2; [done |]. by intros <-.
Qed.

Lemma py_index_second {A} (a b : A) (l : list A) :
  py_index (a :: b :: l) 1 = Ok b.
Proof. done. Qed.

Lemma replace_No_prefix (ds : string) :
  PyStr.replace "No." "" ("No." +:+ ds) = PyStr.replace_go "No." "" 0 ds.
Proof.
  unfold PyStr.replace.
  change ("No." +:+ ds) with (String "N" (String "o" (String "." ds))).
  cbn [PyStr.replace_go PyStr.startswith].
  rewrite !bool_decide_eq_true_2 by done. done.
Qed.

Lemma table_number_digits (ds rest : string) :
  StrSpec.all_digits ds = true ->
  TabPost.get_table_number ("Table No." +:+ ds +:+ " - " +:+ rest)
  = PyNum.py_int ds.
Proof.
  intros Hd. unfold TabPost.get_table_number, PyStr.split.
  change ("Table No." +:+ ds +:+ " - " +:+ rest)
    with ("Table" +:+ String " " (("No." +:+ ds) +:+ String " " ("- " +:+ rest))).
  rewrite StrFacts.split_go_field by done.
  rewrite StrFacts.split_go_field.
  2: { change ("No." +:+ ds) with (String "N" (String "o" (String "." ds))).
       rewrite !contains_blank_cons by done.
       by apply StrFacts.digits_no_blank. }
  rewrite py_index_second. cbn [mbind result_bind].
  change (PyStr.rev "" +:+ "No." +:+ ds) with ("No." +:+ ds).
  by rewrite replace_No_prefix, StrFacts.replace_digits.
Qed.

(** [get_table_number] reads the number of a table written
    [Table No.<n> - name] when [n] has no more digits than [int] reads
    (4300) and raises [ValueError] beyond; it raises [ValueError] on
    [Table No. <n> - name], where a blank follows [No.]: it takes the second
    word of the line and removes [No.] from it. *)
Theorem get_table_number_reads_the_second_word (n : nat) (name : string) :
  TabPost.get_table_number (numbered_table n name)
  = (if StrSpec.readable n then Ok (Z.of_nat n) else Raise ValueError) /\
  TabPost.get_table_number (spaced_table n name) = Raise ValueError.
Proof.
  split.
  - unfold numbered_table.
    rewrite table_number_digits by apply StrFacts.of_nat_digits.
    apply StrFacts.py_int_of_nat.
  - unfold spaced_table, TabPost.get_table_number, PyStr.split.
    change ("Table No. " +:+ PyStr.of_nat n +:+ " - " +:+ name)
      with ("Table" +:+ String " "
              ("No." +:+ String " " (PyStr.of_nat n +:+ " - " +:+ name))).
    rewrite !StrFacts.split_go_field by done.
    by rewrite py_index_second.
Qed.

Example table_number_example :
  TabPost.get_table_number "Table No.12 - Envelope of Effective Tension"
  = Ok 12%Z /\ StrSpec.readable 12 = true.
Proof. split; vm_compute; reflexivity. Qed.

(** *** What follows the parse *)

Lemma py_max_ok (l : list PyNum.float) :
  is_ok (TabPost.py_max l) = negb (bool_decide (l = [])).
Proof. by destruct l. Qed.

Lemma py_min_ok (l : list PyNum.float) :
  is_ok (TabPost.py_min l) = negb (bool_decide (l = [])).
Proof. by destruct l. Qed.

Lemma is_ok_true {A} (r : result A) : is_ok r = true -> exists a, r = Ok a.
Proof. destruct r; [eauto | done]. Qed.

Lemma is_ok_false {A} (r : result A) : is_ok r = false -> exists e, r = Raise e.
Proof. destruct r; [done | eauto]. Qed.

Lemma halves_nonempty {A} (xs : list A) (n : nat) :
  2 <= n -> n <= length xs ->
  take (n / 2) xs <> [] /\ drop (n / 2) xs <> [].
Proof.
  intros Hn Hx.
  assert (1 <= n / 2) by (apply Nat.div_le_lower_bound; lia).
  assert (n / 2 < n) by (apply Nat.div_lt; lia).
  generalize dependent (n / 2). intros m Hm1 Hm2.
  split; intros E; apply (f_equal length) in E;
    rewrite ?length_take, ?length_drop in E; simpl length in E; lia.
Qed.

(** The values of one envelope series, on a file of one table. *)
Lemma set_value_one_table t td series sd (s : TabPost.TabFile) :
  TabPost.tab_file_data s = [(t, td)] ->
  dict_get series td = Some sd ->
  series = "Max-Von Mises Stress Envelope"
  \/ series = "Max-Resultant Bending Moment Envelope" ->
  length (Y sd) <= length (X sd) ->
  (length (Y sd) < 2 ->
   TabPost.set_value series t (length (Y sd) / 2) s = Raise ValueError) /\
  (2 <= length (Y sd) ->
   exists s', TabPost.set_value series t (length (Y sd) / 2) s = Ok s' /\
     TabPost.tab_file_data s' = [(t, td)] /\
     TabPost.riser_length s' = TabPost.riser_length s).
Proof.
  intros Hd Hs Hser Hxy.
  assert (TabPost.series_X t series s = Ok (X sd)) as HX.
  { unfold TabPost.series_X, getitem. rewrite Hd. cbn [dict_get].
    rewrite decide_True by done. cbn [mbind result_bind]. by rewrite Hs. }
  assert (forall top btm,
            TabPost.series_X t series (TabPost.set_vms top btm s) = Ok (X sd))
    as HX'.
  { intros top btm. unfold TabPost.series_X, getitem.
    cbn [TabPost.tab_file_data TabPost.set_vms]. rewrite Hd. cbn [dict_get].
    rewrite decide_True by done. cbn [mbind result_bind]. by rewrite Hs. }
  split.
  - intros Hlt.
    assert (length (Y sd) / 2 = 0) as -> by (apply Nat.div_small; lia).
    unfold TabPost.set_value. destruct Hser as [-> | ->].
    + change (PyStr.eqb _ "Max-Von Mises Stress Envelope") with true.
      cbn match. rewrite HX. done.
    + change (PyStr.eqb _ "Max-Von Mises Stress Envelope") with false.
      cbn match. cbn [mbind result_bind].
      change (PyStr.eqb _ _) with true. cbn match. rewrite HX. done.
  - intros Hge.
    destruct (halves_nonempty (X sd) (length (Y sd)) Hge Hxy) as [Ht Hb].
    destruct (take (length (Y sd) / 2) (X sd)) as [|x0 xt] eqn:Et; [done |].
    destruct (drop (length (Y sd) / 2) (X sd)) as [|x1 xb] eqn:Eb; [done |].
    unfold TabPost.set_value. destruct Hser as [-> | ->].
    + change (PyStr.eqb _ "Max-Von Mises Stress Envelope") with true.
      cbn match. rewrite HX. cbn [mbind result_bind]. rewrite Et, Eb.
      cbn [TabPost.py_max mbind result_bind].
      change (PyStr.eqb _ _) with false. cbn match.
      eexists. split; [reflexivity |]. done.
    + change (PyStr.eqb _ "Max-Von Mises Stress Envelope") with false.
      cbn match. cbn [mbind result_bind].
      change (PyStr.eqb _ _) with true. cbn match.
      rewrite HX. cbn [mbind result_bind]. rewrite Et, Eb.
      cbn [TabPost.py_max mbind result_bind].
      eexists. split; [reflexivity |]. done.
Qed.

Lemma post_param_hit t td param series sd (s : TabPost.TabFile) :
  TabPost.tab_file_data s = [(t, td)] ->
  TabPost.riser_length s = None ->
  dict_get series td = Some sd ->
  series = "Max-Von Mises Stress Envelope"
  \/ series = "Max-Resultant Bending Moment Envelope" ->
  length (Y sd) <= length (X sd) ->
  (length (Y sd) < 2 ->
   TabPost.post_param t param s (param, series) = Raise ValueError) /\
  (2 <= length (Y sd) ->
   is_ok (TabPost.post_param t param s (param, series)) = true).
Proof.
  intros Hd Hr Hs Hser Hxy.
  destruct (set_value_one_table t td series sd s Hd Hs Hser Hxy) as [Hlo Hhi].
  assert (forall s0, TabPost.tab_file_data s0 = [(t, td)] ->
            TabPost.series_Y t series s0 = Ok (Y sd)) as HY.
  { intros s0 Hd0. unfold TabPost.series_Y, getitem. rewrite Hd0.
    cbn [dict_get]. rewrite decide_True by done. cbn [mbind result_bind].
    by rewrite Hs. }
  assert (getitem id t (TabPost.tab_file_data s) = Ok td) as Hg.
  { unfold getitem. rewrite Hd. cbn [dict_get]. by rewrite decide_True. }
  unfold TabPost.post_param. rewrite (proj2 (eqb_true param param)) by done.
  rewrite Hg. cbn [mbind result_bind].
  unfold dict_mem. rewrite Hs, (HY s Hd). cbn [mbind result_bind].
  split.
  - intros Hlt. by rewrite (Hlo Hlt).
  - intros Hge. destruct (Hhi Hge) as (s' & -> & Hd' & Hr').
    cbn [mbind result_bind]. rewrite Hr', Hr. cbn [TabPost.no_length].
    rewrite (HY s' Hd'). cbn [mbind result_bind].
    destruct (Y sd) as [|y ys]; [cbn in Hge; lia |]. done.
Qed.

(** On a file of one table that is an envelope of Von Mises stress or of
    resultant bending moment, [process_automated_postprocessing] returns
    when the envelope series has two values of Y at least, and raises
    otherwise: the upper half of a series of fewer values is empty, and
    [max] of an empty list raises [ValueError]. *)
Theorem envelope_series_needs_two_points
    (t n param series : string) (td : table_data) (sd : series_data) :
  (param, series) ∈ TabPost.table_map ->
  py_index (PyStr.split " - " t) 1 = Ok n -> PyStr.strip n = param ->
  dict_get series td = Some sd ->
  length (Y sd) <= length (X sd) ->
  is_ok (TabPost.process_automated_postprocessing [(t, td)])
  = (2 <=? length (Y sd)).
Proof.
  intros Hin Hn Hp Hs Hxy.
  unfold TabPost.process_automated_postprocessing.
  cbn [dict_keys map fst foldM]. unfold TabPost.post_table. rewrite Hn.
  cbn [mbind result_bind]. rewrite Hp. cbn [TabPost.table_map foldM].
  unfold TabPost.table_map in Hin.
  apply elem_of_cons in Hin as [[= -> ->] | Hin].
  - destruct (post_param_hit t td "Envelope of Von Mises Stress"
                "Max-Von Mises Stress Envelope" sd
                (TabPost.reset [(t, td)])) as [Hlo Hhi]; try done; [by left |].
    destruct (Nat.leb_spec 2 (length (Y sd))) as [Hge | Hlt].
    + destruct (is_ok_true _ (Hhi Hge)) as (s' & ->). done.
    + by rewrite (Hlo Hlt).
  - apply elem_of_cons in Hin as [[= -> ->] | Hin]; [| by apply elem_of_nil in Hin].
    change (TabPost.post_param t "Envelope of Resultant Bending Moment"
              (TabPost.reset [(t, td)])
              ("Envelope of Von Mises Stress", "Max-Von Mises Stress Envelope"))
      with (Ok (TabPost.reset [(t, td)])).
    cbn [mbind result_bind].
    destruct (post_param_hit t td "Envelope of Resultant Bending Moment"
                "Max-Resultant Bending Moment Envelope" sd
                (TabPost.reset [(t, td)])) as [Hlo Hhi]; try done; [by right |].
    destruct (Nat.leb_spec 2 (length (Y sd))) as [Hge | Hlt].
    + destruct (is_ok_true _ (Hhi Hge)) as (s' & ->). done.
    + by rewrite (Hlo Hlt).
Qed.

Lemma envelope_series_needs_two_points_witness :
  is_ok (TabPost.process_automated_postprocessing
           [(MoreSamples.vms_table,
             [("Max-Von Mises Stress Envelope", MoreSamples.vms_series)])])
  = true.
Proof.
  apply (envelope_series_needs_two_points MoreSamples.vms_table
           "Envelope of Von Mises Stress" "Envelope of Von Mises Stress"
           "Max-Von Mises Stress Envelope"
           [("Max-Von Mises Stress Envelope", MoreSamples.vms_series)]
           MoreSamples.vms_series).
  - constructor.
  - vm_compute. reflexivity.
  - vm_compute. reflexivity.
  - vm_compute. reflexivity.
  - cbn. lia.
Defined.

(** The tables the parse has met stay in [tab_file_data]. *)
Lemma try_append_mem k t ser line (d : dict string table_data) :
  dict_mem k d = true -> dict_mem k (try_append t ser line d) = true.
Proof.
  intros Hk. unfold try_append.
  repeat case_match; try done; by apply dict_mem_set_mono.
Qed.

Lemma parse_line_mem k p line p' :
  dict_mem k (tab_file_data p) = true -> parse_line p line = Ok p' ->
  dict_mem k (tab_file_data p') = true.
Proof.
  intros Hk H. unfold parse_line in H.
  destruct (PyStr.contains "Table No." line).
  { injection H as <-. cbn [tab_file_data]. by apply dict_mem_set_mono. }
  destruct (table p) as [[|c0 t0]|]; try (by injection H as <-).
  apply bind_Ok_inv in H as (xl & _ & H).
  apply bind_Ok_inv in H as (yl & _ & H).
  apply bind_Ok_inv in H as ([xu xl'] & _ & H).
  apply bind_Ok_inv in H as ([yu yl'] & _ & H).
  apply bind_Ok_inv in H as ([[d ser] cnt] & Hd & H).
  injection H as <-. cbn [tab_file_data]. apply try_append_mem.
  destruct (PyStr.eqb (PyStr.take 10 line) "Plot Data:");
    [| by injection Hd as <- _ _].
  apply bind_Ok_inv in Hd as (title & _ & Hd).
  apply bind_Ok_inv in Hd as (td & Htd & Hd).
  destruct (PyStr.eqb title "" || dict_mem title td);
    injection Hd as <- _ _; by apply dict_mem_set_mono.
Qed.

Lemma parsed_table_keys (contents : list string) (l : string)
    (d : dict string table_data) :
  l ∈ contents -> opens_table l = true ->
  parse_contents contents = Ok d -> table_key l ∈ dict_keys d.
Proof.
  intros Hin Hl Hp. unfold parse_contents in Hp.
  apply bind_Ok_inv in Hp as (p & Hp & [= <-]).
  apply list_elem_of_split in Hin as (pre & post & ->).
  apply foldM_app_Ok in Hp as (p1 & _ & Hp).
  apply foldM_cons_Ok in Hp as (p2 & Hl2 & Hp).
  apply dict_mem_keys. revert Hp.
  apply (foldM_invariant
           (fun p => dict_mem (table_key l) (tab_file_data p) = true)).
  - intros q x q' Hq Hx. by eapply parse_line_mem.
  - destruct (TabFacts.parse_line_table p1 l Hl) as (p2' & Hl2' & _ & _ & _ & Hg).
    rewrite Hl2 in Hl2'. injection Hl2' as <-.
    unfold dict_mem, table_key. by rewrite Hg.
Qed.

Lemma foldM_raises_at {S A} (f : S -> A -> result S) (x : A) (l : list A) :
  x ∈ l -> (forall s, is_ok (f s x) = false) ->
  forall s, is_ok (foldM f s l) = false.
Proof.
  intros Hin Hx. induction l as [|y l IH]; intros s.
  - by apply elem_of_nil in Hin.
  - cbn [foldM]. destruct (f s y) as [s'|e] eqn:E; [| done].
    cbn [mbind result_bind]. apply elem_of_cons in Hin as [-> | Hin].
    + specialize (Hx s). by rewrite E in Hx.
    + by apply IH.
Qed.

(** A tab file with a table line that holds no [ - ] cannot be read:
    [process_automated_postprocessing] takes the name of each table from
    what follows [ - ] in its line, and raises when nothing does. *)
Theorem table_line_without_a_dash_fails_init
    (contents : list string) (l : string) :
  l ∈ contents -> opens_table l = true ->
  PyStr.contains " - " (table_key l) = false ->
  is_ok (TabPost.init contents) = false.
Proof.
  intros Hin Hl Hdash. unfold TabPost.init.
  destruct (parse_contents contents) as [d|e] eqn:Hp; [| done].
  cbn [mbind result_bind]. unfold TabPost.process_automated_postprocessing.
  apply (foldM_raises_at _ (table_key l)).
  - by eapply parsed_table_keys.
  - intros s. unfold TabPost.post_table.
    by rewrite (StrFacts.split_whole _ _ Hdash).
Qed.

Lemma table_line_without_a_dash_fails_init_witness :
  is_ok (TabPost.init MoreSamples.tab_no_dash) = false.
Proof.
  apply (table_line_without_a_dash_fails_init _
           ("Table No.1 Effective Tension" +:+ PyStr.newline)).
  - constructor.
  - vm_compute. reflexivity.
  - vm_compute. reflexivity.
Defined.

End TabMore.

(** * Modal shape, fatigue and shear7 output files *)

Module MdsFacts.
Import Mds MdsSpec.

Lemma read_mode_well_formed data ms i ms' :
  MdsSpec.all_well_formed ms -> read_mode data ms i = Ok ms' -> MdsSpec.all_well_formed ms'.
Proof.
  intros Hms H. unfold read_mode in H. inv_bind.
  apply (TabMore.Forall_dict_set well_formed); done.
Qed.

Lemma read_shape_well_formed ms l ms' :
  MdsSpec.all_well_formed ms -> read_shape ms l = Ok ms' -> MdsSpec.all_well_formed ms'.
Proof.
  intros Hms H. unfold read_shape in H.
  apply bind_Ok_inv in H as (k & Hk & H).
  apply bind_Ok_inv in H as (n & Hn & H).
  apply bind_Ok_inv in H as (m & Hm & H).
  apply bind_Ok_inv in H as (f & _ & H).
  apply bind_Ok_inv in H as (seg & _ & H).
  apply bind_Ok_inv in H as (k' & Hk' & H).
  assert (k' = k) as -> by congruence.
  apply bind_Ok_inv in H as (n' & Hn' & H).
  assert (n' = n) as -> by congruence.
  apply bind_Ok_inv in H as (m' & Hm' & H).
  apply DasFacts.getitem_Ok_inv in Hm'. rewrite dict_get_set_eq in Hm'.
  injection Hm' as <-.
  apply bind_Ok_inv in H as (f2 & _ & H).
  apply bind_Ok_inv in H as (shape & _ & H).
  injection H as <-. rewrite dict_set_set.
  apply (TabMore.Forall_dict_set well_formed); [done |].
  apply DasFacts.getitem_Ok_inv in Hm.
  destruct (TabMore.Forall_dict_get well_formed _ _ _ Hms Hm) as (Hl & Hs & Hc).
  unfold well_formed. cbn. rewrite !length_app, Hl. done.
Qed.

(** In the record [read_mds_file] returns, every mode has as many segments
    as values of its mode shape, and its lists of slopes and of curvatures
    are empty: nothing fills them. *)
Theorem read_mds_file_modes_are_well_formed (text : string) (r : CommonMds) :
  read_mds_file text = Ok r ->
  Forall (fun km : Z * mode => well_formed km.2) (modes r).
Proof.
  intros H. unfold read_mds_file in H.
  apply bind_Ok_inv in H as (l & _ & H).
  apply bind_Ok_inv in H as (a & _ & H).
  apply bind_Ok_inv in H as (nm & _ & H).
  apply bind_Ok_inv in H as (b & _ & H).
  apply bind_Ok_inv in H as (nn & _ & H).
  apply bind_Ok_inv in H as (ms1 & H1 & H).
  apply bind_Ok_inv in H as (ms2 & H2 & H).
  injection H as <-. cbn [modes].
  revert H2. apply (foldM_invariant MdsSpec.all_well_formed).
  { intros s x s'. apply read_shape_well_formed. }
  revert H1. apply (foldM_invariant MdsSpec.all_well_formed).
  { intros s x s'. apply read_mode_well_formed. }
  constructor.
Qed.

Lemma read_mds_file_modes_are_well_formed_witness :
  read_mds_file Samples.mds_text = Ok MoreSamples.mds_parsed /\
  Forall (fun km : Z * mode => well_formed km.2) (modes MoreSamples.mds_parsed).
Proof.
  assert (read_mds_file Samples.mds_text = Ok MoreSamples.mds_parsed) as H
    by (vm_compute; reflexivity).
  split; [exact H | exact (read_mds_file_modes_are_well_formed _ _ H)].
Defined.

End MdsFacts.

Module FatigueFacts.
Import Fatigue FatigueSpec LineSpec.

Lemma parse_step_before st line :
  st.1 = None -> is_marker line = false -> parse_step st line = Ok st.
Proof.
  destruct st as [sec lives]. cbn [fst]. intros -> Hm.
  unfold parse_step. unfold is_marker in Hm. by rewrite Hm.
Qed.

Lemma parse_step_marker sec lives line :
  is_marker line = true ->
  parse_step (sec, lives) line = parse_step (Some "fatigue lives", lives) line.
Proof. intros Hm. unfold parse_step. unfold is_marker in Hm. by rewrite Hm. Qed.

Lemma parse_step_inside lives line :
  parse_step (Some "fatigue lives", lives) line
  = (if bool_decide (length (PyStr.split_ws line) = 9)
     then row ← convert (PyStr.split_ws line);
          Ok (Some "fatigue lives", lives ++ [row])
     else Ok (Some "fatigue lives", lives)).
Proof.
  unfold parse_step.
  destruct (PyStr.contains _ line); rewrite bool_decide_eq_true_2 by done;
    destruct (Nat.eqb_spec (length (PyStr.split_ws line)) 9);
    by rewrite ?bool_decide_eq_true_2, ?bool_decide_eq_false_2 by done.
Qed.

Lemma parse_loop_inside lines : forall lives,
  foldM parse_step (Some "fatigue lives", lives) lines
  = (rows ← mapM_result convert (nine_fields lines);
     Ok (Some "fatigue lives", lives ++ rows)).
Proof.
  unfold nine_fields.
  induction lines as [|l lines IH]; intros lives.
  - cbn. by rewrite app_nil_r.
  - rewrite foldM_cons, parse_step_inside. cbn [map].
    rewrite filter_cons. case_bool_decide as Hn.
    + rewrite decide_True by done. cbn [mapM_result].
      destruct (convert (PyStr.split_ws l)) as [row|]; cbn [mbind result_bind];
        [| done].
      rewrite IH.
      destruct (mapM_result convert _) as [rows|]; cbn [mbind result_bind];
        [| done].
      by rewrite <- app_assoc.
    + rewrite decide_False by done. cbn [mbind result_bind]. apply IH.
Qed.

(** [parse_output_file] ignores every line before the first that holds
    [Results in Plot Format]; from that line on (the line itself included)
    it converts each line of nine fields, in order, and skips the others:
    it returns the rows converted, or raises with the first line of nine
    fields that does not convert. *)
Theorem parse_output_file_reads_lines_of_nine_fields (data : list string) :
  parse_output_file data
  = mapM_result convert (nine_fields (from_first is_marker data)).
Proof.
  unfold parse_output_file.
  induction data as [|l data IH]; [done |].
  cbn [from_first]. destruct (is_marker l) eqn:Hm.
  - rewrite foldM_cons, (parse_step_marker None) by done.
    rewrite <- foldM_cons, parse_loop_inside.
    by destruct (mapM_result convert (nine_fields (l :: data))).
  - rewrite foldM_cons, parse_step_before by done. exact IH.
Qed.

End FatigueFacts.

Module Shear7OutFacts.
Import Shear7Out Shear7OutSpec LineSpec.

Lemma read_loop_spec lines : forall idx res pow,
  read_loop idx res pow lines
  = (from_option Some res (last_index is_results idx (upto is_units lines)),
     from_option Some pow (first_index is_units idx lines)).
Proof.
  induction lines as [|l lines IH]; intros idx res pow; [done |].
  cbn [read_loop upto first_index]. fold (is_units l). fold (is_results l).
  destruct (is_units l).
  - cbn [last_index]. by destruct (is_results l).
  - rewrite IH. cbn [last_index].
    destruct (last_index is_results (S idx) (upto is_units lines)); [done |].
    by destruct (is_results l).
Qed.

(** [read_file] stops at the first line that holds the units marker:
    [power_calc_start_idx] is the position of that line, and
    [results_start_idx] is the position of the last line that holds the
    results marker among the lines up to that one; a results marker further
    down is not seen. *)
Theorem read_file_positions (lines : list string) :
  results_start_idx (read_file (setup_variables lines))
  = last_index is_results 0 (scanned lines) /\
  power_calc_start_idx (read_file (setup_variables lines))
  = first_index is_units 0 lines.
Proof.
  unfold read_file, scanned. cbn [data results_start_idx power_calc_start_idx
                                  setup_variables].
  rewrite read_loop_spec. cbn [results_start_idx power_calc_start_idx].
  split.
  - by destruct (last_index is_results 0 (upto is_units lines)).
  - by destruct (first_index is_units 0 lines).
Qed.

Lemma read_file_data s : data (read_file s) = data s.
Proof. unfold read_file. by destruct (read_loop _ _ _ _). Qed.

Lemma first_index_none p lines : forall idx,
  Forall (fun l => p l = false) lines -> first_index p idx lines = None.
Proof.
  induction lines as [|l lines IH]; intros idx Hl; [done |].
  apply Forall_cons in Hl as [Hl Hls]. cbn [first_index]. rewrite Hl. by apply IH.
Qed.

Lemma upto_none p lines :
  Forall (fun l => p l = false) lines -> upto p lines = lines.
Proof.
  induction lines as [|l lines IH]; intros Hl; [done |].
  apply Forall_cons in Hl as [Hl Hls]. cbn [upto]. rewrite Hl. by rewrite IH.
Qed.

Lemma first_index_app p pre u post : forall idx,
  Forall (fun l => p l = false) pre -> p u = true ->
  first_index p idx (pre ++ u :: post) = Some (idx + length pre).
Proof.
  induction pre as [|l pre IH]; intros idx Hpre Hu; cbn [app first_index length].
  - rewrite Hu. f_equal. lia.
  - apply Forall_cons in Hpre as [Hl Hpre]. rewrite Hl, IH by done.
    f_equal. lia.
Qed.

Lemma upto_app p pre u post :
  Forall (fun l => p l = false) pre -> p u = true ->
  upto p (pre ++ u :: post) = pre ++ [u].
Proof.
  induction pre as [|l pre IH]; intros Hpre Hu; cbn [app upto].
  - by rewrite Hu.
  - apply Forall_cons in Hpre as [Hl Hpre]. by rewrite Hl, IH.
Qed.

Lemma last_index_some p lines l : forall idx,
  l ∈ lines -> p l = true -> is_Some (last_index p idx lines).
Proof.
  induction lines as [|x lines IH]; intros idx Hin Hl.
  - by apply elem_of_nil in Hin.
  - cbn [last_index]. apply elem_of_cons in Hin as [<- | Hin].
    + destruct (last_index p (S idx) lines); [done |]. by rewrite Hl.
    + destruct (IH (S idx) Hin Hl) as [i ->]. done.
Qed.

(** A file in which a line holds the results marker and no line holds the
    units marker cannot be read: [parse_possible_excited_modes] adds 6 to
    [power_calc_start_idx], which is [None]. *)
Theorem init_without_units_marker_raises (lines : list string) (l : string) :
  Forall (fun l => is_units l = false) lines ->
  l ∈ lines -> is_results l = true ->
  init lines = Raise TypeError.
Proof.
  intros Hu Hin Hl. unfold init.
  destruct (read_file_positions lines) as [-> Hp]. unfold scanned.
  rewrite upto_none by done.
  destruct (last_index_some is_results lines l 0 Hin Hl) as [i ->].
  unfold parse_possible_excited_modes. rewrite Hp.
  by rewrite first_index_none.
Qed.

Lemma init_without_units_marker_raises_witness :
  init MoreSamples.shear7_out_no_units = Raise TypeError.
Proof.
  apply (init_without_units_marker_raises _
           ("THE RESULTS OF PROGRAM ANALYSIS" +:+ PyStr.newline)).
  - repeat constructor.
  - constructor.
  - vm_compute. reflexivity.
Defined.

(** A file with fewer than seven lines after the first line that holds the
    units marker (and a results marker up to that line) cannot be read
    either: the loop over the power table makes no turn, and the line that
    follows it reads [i], which has no value. *)
Theorem init_with_short_power_table_raises
    (pre post : list string) (u l : string) :
  Forall (fun l => is_units l = false) pre -> is_units u = true ->
  l ∈ pre ++ [u] -> is_results l = true ->
  length post <= 6 ->
  init (pre ++ u :: post) = Raise NameError.
Proof.
  intros Hpre Hu Hin Hl Hpost. unfold init.
  destruct (read_file_positions (pre ++ u :: post)) as [-> Hp]. unfold scanned.
  rewrite upto_app by done.
  destruct (last_index_some is_results (pre ++ [u]) l 0 Hin Hl) as [i ->].
  unfold parse_possible_excited_modes. rewrite Hp.
  rewrite first_index_app by done.
  rewrite read_file_data. cbn [data setup_variables].
  rewrite length_app. cbn [length].
  replace (length pre + S (length post) - 1 - (0 + length pre + 6)) with 0
    by lia.
  done.
Qed.

Lemma init_with_short_power_table_raises_witness :
  init MoreSamples.shear7_out_short = Raise NameError.
Proof.
  apply (init_with_short_power_table_raises
           ["THE RESULTS OF PROGRAM ANALYSIS" +:+ PyStr.newline]
           (map (fun l => l +:+ PyStr.newline) ["h1"; "h2"; "h3"])
           ("F = force; L = length; T = time." +:+ PyStr.newline)
           ("THE RESULTS OF PROGRAM ANALYSIS" +:+ PyStr.newline)).
  - repeat constructor.
  - vm_compute. reflexivity.
  - constructor.
  - vm_compute. reflexivity.
  - cbn. lia.
Defined.

End Shear7OutFacts.

(** * shear7 files: block 2 *)

Module Shear7BlocksFacts.
Import Shear7Blocks Shear7BlocksSpec.






(** *** The zones *)

Ltac zone_value H :=
  let x := fresh "x" in
  let p := fresh "p" in
  let Hp := fresh "Hp" in
  apply bind_Ok_inv in H as (x & _ & H);
  apply bind_Ok_inv in H as (p & Hp & H);
  unfold set_prop, getitem in Hp; rewrite dict_get_set_eq in Hp;
  cbn [mbind result_bind] in Hp; injection Hp as <-.

Ltac zone_last H :=
  let x := fresh "x" in
  apply bind_Ok_inv in H as (x & _ & H);
  unfold set_prop, getitem in H; rewrite dict_get_set_eq in H;
  cbn [mbind result_bind] in H; injection H as <-.

Lemma dict_keys_fresh {V} (k : nat) (v : V) (d : dict nat V) (count : nat) :
  dict_keys d = seq 0 count -> dict_keys (dict_set count v d) = seq 0 (S count).
Proof.
  intros Hd. rewrite dict_keys_set_absent.
  - rewrite Hd, seq_S. done.
  - apply dict_get_None_keys. rewrite Hd. intros Hin%elem_of_seq. lia.
Qed.

Lemma read_zone_numbered version data count props idx st' :
  zones_numbered version count props ->
  read_zone version data (count, props) idx = Ok st' ->
  st'.1 = S count /\ zones_numbered version (S count) st'.2.
Proof.
  intros [Hk Hz] H. unfold read_zone in H.
  apply bind_Ok_inv in H as (block & _ & H).
  apply bind_Ok_inv in H as (l & _ & H).
  do 11 zone_value H.
  apply bind_Ok_inv in H as (pf & Hv & H). injection H as <-. cbn [fst snd].
  split; [lia |].
  rewrite !dict_set_set in Hv.
  assert (exists zone, pf = dict_set count zone props /\
                       dict_keys zone = zone_keys version) as (zone & -> & Hzk).
  { unfold zone_keys. destruct (PyStr.eqb version "4.10").
    - do 5 zone_value Hv. zone_last Hv. rewrite !dict_set_set.
      eexists. split; [reflexivity |]. done.
    - destruct (PyStr.eqb version "4.6").
      + do 3 zone_value Hv. zone_last Hv. rewrite !dict_set_set.
        eexists. split; [reflexivity |]. done.
      + injection Hv as <-. eexists. split; [reflexivity |]. done. }
  split.
  - by apply dict_keys_fresh.
  - by apply (TabMore.Forall_dict_set
                (fun z : dict string prop_value => dict_keys z = zone_keys version)).
Qed.

Lemma read_zones_numbered version data idxs : forall count props st',
  zones_numbered version count props ->
  foldM (read_zone version data) (count, props) idxs = Ok st' ->
  st'.1 = count + length idxs /\
  zones_numbered version (count + length idxs) st'.2.
Proof.
  induction idxs as [|idx idxs IH]; intros count props st' Hz H.
  - injection H as <-. cbn. by rewrite Nat.add_0_r.
  - apply foldM_cons_Ok in H as ([c1 p1] & H1 & H).
    destruct (read_zone_numbered _ _ _ _ _ _ Hz H1) as [Hc Hz1].
    cbn [fst snd] in Hc, Hz1. subst c1.
    destruct (IH _ _ _ Hz1 H) as [Hc' Hz']. cbn [length].
    by rewrite <- Nat.add_succ_comm.
Qed.

(** When [process_block2] returns, [section_properties] has one zone for
    each zone block 2 declares, keyed 0, 1, ... in that order, and every
    zone holds the keys of the version, in the order they are written:
    those of version 4.6 lack [DampCoeff0] and [DampCoeff4]. *)
Theorem process_block2_numbers_the_zones
    (version : string) (data : dict string (list string)) (b : Block2) :
  process_block2 version data setup_variables = Ok b ->
  exists n,
    number_of_section_property_zones b = Some n /\
    int_word data 7 0 = Ok n /\
    dict_keys (section_properties b) = seq 0 (Z.to_nat n) /\
    Forall (fun kz : nat * dict string prop_value =>
              dict_keys kz.2 = zone_keys version) (section_properties b).
Proof.
  intros H. unfold process_block2 in H.
  apply bind_Ok_inv in H as (s & Hs & H).
  destruct (dict_mem "BLOCK 2" data); [| by injection Hs as <-].
  apply bind_Ok_inv in Hs as (tl & _ & Hs).
  apply bind_Ok_inv in Hs as (ts & _ & Hs).
  apply bind_Ok_inv in Hs as (vw & _ & Hs).
  apply bind_Ok_inv in Hs as (kv & _ & Hs).
  apply bind_Ok_inv in Hs as (sd & _ & Hs).
  apply bind_Ok_inv in Hs as (et & _ & Hs).
  apply bind_Ok_inv in Hs as (nz & Hnz & Hs).
  injection Hs as <-.
  cbn [number_of_section_property_zones section_properties setup_variables]
    in H.
  apply bind_Ok_inv in H as ([c p] & Hz & H). injection H as <-.
  cbn [number_of_section_property_zones section_properties snd].
  exists nz. split; [done |]. split; [done |].
  destruct (read_zones_numbered version data (zone_lines nz) 0 [] (c, p))
    as [_ [Hk HF]]; [by split | done |].
  cbn [snd] in Hk, HF. unfold zone_lines in Hk.
  by rewrite length_map, length_seq in Hk.
Qed.

Lemma process_block2_numbers_the_zones_witness :
  exists b,
    process_block2 "4.6" MoreSamples.shear7_block2 setup_variables = Ok b /\
    number_of_section_property_zones b = Some 1%Z /\
    dict_keys (section_properties b) = [0] /\
    Forall (fun kz : nat * dict string prop_value =>
              dict_keys kz.2 = zone_keys "4.6") (section_properties b).
Proof.
  destruct (process_block2 "4.6" MoreSamples.shear7_block2 setup_variables)
    as [b|e] eqn:E; [| vm_compute in E; discriminate E].
  exists b. split; [done |].
  destruct (process_block2_numbers_the_zones _ _ _ E) as (n & Hn & Hw & Hk & HF).
  assert (n = 1%Z) as -> by (vm_compute in Hw; congruence).
  done.
Defined.

End Shear7BlocksFacts.

(** * Output files: the sections *)

Module OutSectionsFacts.
Import Out OutSections OutSectionsSpec.

Lemma replace_no_newline (s : string) :
  PyStr.contains PyStr.newline (PyStr.replace PyStr.newline "" s) = false.
Proof.
  unfold PyStr.replace, PyStr.newline.
  induction s as [|c s IH]; [done |].
  cbn [PyStr.replace_go PyStr.startswith String.length Nat.sub].
  rewrite andb_true_r. case_bool_decide as Hc; [exact IH |].
  cbn [PyStr.contains PyStr.startswith]. rewrite andb_true_r.
  rewrite bool_decide_eq_false_2 by done. exact IH.
Qed.

Lemma read_line_stored solver st line st' :
  Forall (fun kv : string * list string => Forall stored_line kv.2)
    (out_data st.1) ->
  read_line solver st line = Ok st' ->
  Forall (fun kv : string * list string => Forall stored_line kv.2)
    (out_data st'.1).
Proof.
  destruct st as [s key]. cbn [fst]. intros Hs H. unfold read_line in H.
  destruct (if PyStr.contains no_restart_file line then _ else _) as [r c].
  destruct (0 <? String.length (PyStr.replace PyStr.newline "" line));
    [| by injection H as <-].
  destruct (PyStr.contains " *** " _ && negb _).
  { injection H as <-. cbn [fst out_data].
    apply (TabMore.Forall_dict_set (Forall stored_line)); [done | constructor]. }
  destruct (0 <? String.length (PyStr.strip _)) eqn:Hb;
    [| by injection H as <-].
  apply bind_Ok_inv in H as (ls & Hg & H). injection H as <-.
  cbn [fst out_data]. apply DasFacts.getitem_Ok_inv in Hg.
  apply (TabMore.Forall_dict_set (Forall stored_line)); [done |].
  apply Forall_app. split.
  - exact (TabMore.Forall_dict_get (Forall stored_line) _ _ _ Hs Hg).
  - constructor; [| constructor]. split; [| apply replace_no_newline].
    intros E. by rewrite E in Hb.
Qed.

(** [read_out_file] returns on any lines, and every line it stores in
    [out_data] is not blank and holds no newline. *)
Theorem read_out_file_stores_no_blank_line
    (solver : string) (lines : list string) :
  exists s,
    read_out_file solver lines setup_variables = Ok s /\
    Forall (fun kv : string * list string => Forall stored_line kv.2)
      (out_data s).
Proof.
  destruct (OutFacts.read_lines_total solver lines setup_variables "headers")
    as (s & key & Hr & _); [by eexists |].
  exists s. unfold read_out_file. rewrite Hr. split; [done |].
  change s with (s, key).1. revert Hr.
  apply (foldM_invariant
           (fun st => Forall (fun kv : string * list string =>
                                Forall stored_line kv.2) (out_data st.1))).
  - intros st x st'. apply read_line_stored.
  - repeat constructor.
Qed.

Lemma units_loop ls : forall st,
  foldl (fun st l =>
           if PyStr.contains "Imperial" l then (Some "Imperial", Some "ft")
           else if PyStr.contains "Metric" l then (Some "Metric", Some "m")
           else st) st ls
  = match last (filter (fun l => names_units l = true) ls) with
    | Some l => units_of l
    | None => st
    end.
Proof.
  induction ls as [|l ls IH]; intros st; [done |].
  cbn [foldl]. rewrite IH, filter_cons.
  destruct (PyStr.contains "Imperial" l) eqn:Hi;
    [| destruct (PyStr.contains "Metric" l) eqn:Hm].
  - rewrite decide_True by (unfold names_units; by rewrite Hi).
    destruct (filter _ ls) as [|x xs] eqn:E.
    + cbn [last]. unfold units_of. by rewrite Hi.
    + rewrite last_cons_cons.
      destruct (last (x :: xs)) eqn:El; [done | by apply last_None in El].
  - rewrite decide_True by (unfold names_units; by rewrite Hi, Hm).
    destruct (filter _ ls) as [|x xs] eqn:E.
    + cbn [last]. unfold units_of. by rewrite Hi.
    + rewrite last_cons_cons.
      destruct (last (x :: xs)) eqn:El; [done | by apply last_None in El].
  - by rewrite decide_False by (unfold names_units; by rewrite Hi, Hm).
Qed.

(** [process_units] sets the units and the length units from the last line
    of [UNIT SYSTEM] that holds [Imperial] or [Metric] ([Imperial] when it
    holds both), and leaves them as they are when there is none: the two
    always agree. *)
Theorem process_units_reads_the_last_line
    (out_data : dict string (list string))
    (st : option string * option string) :
  process_units out_data st
  = match last (filter (fun l => names_units l = true)
                  (default [] (dict_get "UNIT SYSTEM" out_data))) with
    | Some l => units_of l
    | None => st
    end.
Proof.
  unfold process_units.
  destruct (dict_get "UNIT SYSTEM" out_data) as [ls|]; [| done].
  apply units_loop.
Qed.

Lemma Forall_dict_set_pair {K V} `{EqDecision K} (P : K * V -> Prop)
    (k : K) (v : V) (d : dict K V) :
  Forall P d -> P (k, v) -> Forall P (dict_set k v d).
Proof.
  intros Hd Hv. induction d as [|[k' v'] d IH]; cbn [dict_set].
  - by constructor.
  - apply Forall_cons in Hd as [Hv' Hd].
    case_decide; constructor; auto.
Qed.

Lemma element_rows_known title ed ls : forall props props',
  Forall (fun kv : Z * PyNum.float => dict_mem kv.1 ed = true) props ->
  element_rows title ed props ls = Ok props' ->
  Forall (fun kv : Z * PyNum.float => dict_mem kv.1 ed = true) props'.
Proof.
  intros props props'. unfold element_rows.
  apply (foldM_invariant
           (fun props => Forall (fun kv : Z * PyNum.float =>
                                   dict_mem kv.1 ed = true) props)).
  intros s e s' Hs H. cbn beta in H.
  destruct (is_row title e); [| by injection H as <-].
  apply bind_Ok_inv in H as (k & Hk & H).
  apply bind_Ok_inv in H as (n & Hn & H).
  destruct (dict_mem n ed) eqn:Hmem; [| by injection H as <-].
  apply bind_Ok_inv in H as (a & _ & H).
  apply bind_Ok_inv in H as (x & _ & H).
  apply bind_Ok_inv in H as (k' & Hk' & H).
  assert (k' = k) as -> by congruence.
  apply bind_Ok_inv in H as (n' & Hn' & H).
  assert (n' = n) as -> by congruence.
  injection H as <-. by apply Forall_dict_set_pair.
Qed.

(** [process_element_properties] and [process_drag_data] store values for
    elements of [element_data] only: every key of what they return is a key
    of [element_data]. *)
Theorem element_tables_hold_known_elements
    (out_data : dict string (list string)) (ed : dict Z element)
    (props : dict Z PyNum.float) :
  (process_element_properties out_data ed [] = Ok props \/
   process_drag_data out_data ed [] = Ok props) ->
  Forall (fun kv : Z * PyNum.float => dict_mem kv.1 ed = true) props.
Proof.
  unfold process_element_properties, process_drag_data.
  intros [H | H].
  - destruct (dict_get "ELEMENT PROPERTIES" out_data) as [ls|].
    + by eapply element_rows_known.
    + injection H as <-. constructor.
  - destruct (dict_get "DRAG AND BUOYANCY DATA" out_data) as [ls|].
    + by eapply element_rows_known.
    + injection H as <-. constructor.
Qed.

Lemma element_tables_hold_known_elements_witness :
  process_element_data MoreSamples.out_tables = Ok MoreSamples.out_elements /\
  dict_keys MoreSamples.out_elements = [1%Z; 2%Z] /\
  process_element_properties MoreSamples.out_tables MoreSamples.out_elements []
  = Ok [(1%Z, Prim2SF 2.5%float); (2%Z, Prim2SF 3.5%float)] /\
  Forall (fun kv : Z * PyNum.float =>
            dict_mem kv.1 MoreSamples.out_elements = true)
    [(1%Z, Prim2SF 2.5%float); (2%Z, Prim2SF 3.5%float)].
Proof.
  assert (process_element_properties MoreSamples.out_tables
            MoreSamples.out_elements []
          = Ok [(1%Z, Prim2SF 2.5%float); (2%Z, Prim2SF 3.5%float)]) as H
    by (vm_compute; reflexivity).
  split; [vm_compute; reflexivity |]. split; [vm_compute; reflexivity |].
  split; [exact H |].
  exact (element_tables_hold_known_elements _ _ _ (or_introl H)).
Defined.

End OutSectionsFacts.

(** * dpx files: the components *)

Module DpxParseFacts.
Import DpxParse DpxParseSpec.

Lemma NoDup_dict_set {V} (k : string) (v : V) (d : dict string V) :
  NoDup (dict_keys d) -> NoDup (dict_keys (dict_set k v d)).
Proof.
  intros Hd. destruct (dict_get k d) as [v0|] eqn:Hg.
  - by rewrite dict_keys_set_present.
  - rewrite dict_keys_set_absent by done. apply NoDup_app.
    split; [done |]. split; [| apply NoDup_singleton].
    intros x Hx ->%list_elem_of_singleton.
    by apply dict_get_None_keys in Hg.
Qed.

Lemma named_set (n : string) (c : DPXComponent) cs :
  named cs -> name c = n -> named (dict_set n c cs).
Proof.
  intros [Hn Hd] Hc. split; [| by apply NoDup_dict_set].
  by apply OutSectionsFacts.Forall_dict_set_pair.
Qed.

Lemma named_get (n : string) (c : DPXComponent) cs :
  named cs -> dict_get n cs = Some c -> name c = n.
Proof.
  intros [Hn _]. induction cs as [|[k c0] cs IH]; cbn [dict_get]; [done |].
  apply Forall_cons in Hn as [Hk Hn].
  case_decide; [intros [= <-]; by subst | by apply IH].
Qed.

Lemma component_of_named p n c :
  named (components p) -> component_of p = Ok (n, c) -> name c = n.
Proof.
  intros Hp H. unfold component_of in H.
  destruct (cur_name p) as [m|]; [| done].
  apply bind_Ok_inv in H as (c0 & Hg & [= <- <-]).
  apply DasFacts.getitem_Ok_inv in Hg. by eapply named_get.
Qed.

Lemma parse_line_named p d p' :
  named (components p) -> parse_line p d = Ok p' -> named (components p').
Proof.
  intros Hp H. unfold parse_line in H.
  destruct (PyStr.startswith "<component " d).
  { apply bind_Ok_inv in H as (n & _ & H).
    apply bind_Ok_inv in H as (i & _ & H).
    apply bind_Ok_inv in H as (t & _ & H).
    injection H as <-. cbn [components]. by apply named_set. }
  destruct (PyStr.startswith "<menu " d).
  { apply bind_Ok_inv in H as (m & _ & H).
    apply bind_Ok_inv in H as ([n c] & Hc & H).
    injection H as <-. cbn [components]. apply named_set; [done |].
    cbn. by eapply component_of_named. }
  destruct (PyStr.startswith "<option " d).
  { apply bind_Ok_inv in H as (param & _ & H).
    apply bind_Ok_inv in H as (w & _ & H).
    apply bind_Ok_inv in H as (v & _ & H).
    apply bind_Ok_inv in H as ([n c] & Hc & H).
    injection H as <-. cbn [components set_components].
    apply named_set; [done |]. cbn. by eapply component_of_named. }
  destruct (truthy (menu p) && PyStr.startswith "<value " d);
    [| by injection H as <-].
  apply bind_Ok_inv in H as (param & _ & H).
  apply bind_Ok_inv in H as (w & _ & H).
  apply bind_Ok_inv in H as (f & _ & H).
  apply bind_Ok_inv in H as (v & _ & H).
  apply bind_Ok_inv in H as (r & _ & H).
  apply bind_Ok_inv in H as (row_no & _ & H).
  apply bind_Ok_inv in H as (cr & _ & H).
  apply bind_Ok_inv in H as (p1 & Hp1 & H).
  assert (named (components p1)) as Hn1.
  { destruct (negb (row_no =? cr)%Z); [| by injection Hp1 as <-].
    apply bind_Ok_inv in Hp1 as ([n c] & Hc & Hp1).
    apply bind_Ok_inv in Hp1 as (rows & _ & Hp1).
    injection Hp1 as <-. cbn [components]. apply named_set; [done |].
    cbn. by eapply component_of_named. }
  apply bind_Ok_inv in H as ([n c] & Hc & H).
  apply bind_Ok_inv in H as (rows & _ & H).
  apply bind_Ok_inv in H as (rows' & _ & H).
  injection H as <-. cbn [components set_components].
  apply named_set; [done |]. cbn. by eapply component_of_named.
Qed.

Lemma find_id_named cid cs n :
  named cs -> find_id cid cs = Some n ->
  exists c, dict_get n cs = Some c /\ component_id c = cid /\ name c = n.
Proof.
  intros [Hn Hd]. induction cs as [|[k c] cs IH]; cbn [find_id]; [done |].
  apply Forall_cons in Hn as [Hk Hn]. cbn [dict_keys map fst] in Hd.
  apply NoDup_cons in Hd as [Hk' Hd]. cbn [snd fst] in Hk.
  destruct (PyStr.eqb (component_id c) cid) eqn:E.
  - intros [= <-]. exists c. cbn [dict_get]. rewrite decide_True by done.
    by apply eqb_true in E.
  - intros Hf. destruct (IH Hn Hd Hf) as (c' & Hg & Hc).
    exists c'. split; [| done]. cbn [dict_get]. rewrite decide_False; [done |].
    intros ->. apply Hk'. change (map fst cs) with (dict_keys cs).
    destruct (decide (k ∈ dict_keys cs)) as [|Hno]; [done |].
    apply dict_get_None_keys in Hno. congruence.
Qed.

(** After [parse_dpx], the name [find_id] returns is a key of
    [components], and the component under that key is the one with the id
    asked for: every component stands under its own name. *)
Theorem find_id_names_a_component
    (data : list string) (cs : dict string DPXComponent) (cid n : string) :
  parse_dpx data = Ok cs -> find_id cid cs = Some n ->
  exists c, dict_get n cs = Some c /\ component_id c = cid /\ name c = n.
Proof.
  intros Hp Hf. apply find_id_named; [| done].
  unfold parse_dpx in Hp. apply bind_Ok_inv in Hp as (p & Hp & [= <-]).
  revert Hp. apply (foldM_invariant (fun p => named (components p))).
  - intros s x s'. apply parse_line_named.
  - split; constructor.
Qed.

Lemma find_id_names_a_component_witness :
  parse_dpx MoreSamples.dpx_lines = Ok MoreSamples.dpx_parsed /\
  find_id "21" MoreSamples.dpx_parsed = Some "Pup" /\
  exists c, dict_get "Pup" MoreSamples.dpx_parsed = Some c /\
    component_id c = "21" /\ name c = "Pup".
Proof.
  assert (parse_dpx MoreSamples.dpx_lines = Ok MoreSamples.dpx_parsed) as Hp
    by (vm_compute; reflexivity).
  assert (find_id "21" MoreSamples.dpx_parsed = Some "Pup") as Hf
    by (vm_compute; reflexivity).
  split; [exact Hp |]. split; [exact Hf |].
  exact (find_id_names_a_component _ _ _ _ Hp Hf).
Defined.

Example dpx_sample :
  map (fun kc => (kc.1, component_type kc.2, menus kc.2, options kc.2))
    MoreSamples.dpx_parsed
  = [("Riser 1", "Drilling Riser",
      [("DR Storage Menu|||", [[("Joint", Dpx.VFloat (Prim2SF 21%float))]])],
      []);
     ("Pup", "Drilling Riser Joint", [],
      [("Length", Dpx.VFloat (Prim2SF 10%float))])].
Proof. vm_compute. reflexivity. Qed.

End DpxParseFacts.

(** * das files: rows of coefficients and rows of elements *)

Module DasRows.
Import Das CarrySpec.

Lemma set_coefficients_bound key cs : forall idx hs en,
  dict_get key hs = Some en ->
  Forall (fun c => is_Some (PyNum.float_of_string c)) cs ->
  (idx + length cs <= 6 -> is_ok (set_coefficients key idx cs hs) = true) /\
  (cs <> [] -> 6 < idx + length cs ->
   set_coefficients key idx cs hs = Raise IndexError).
Proof.
  induction cs as [|c cs IH]; intros idx hs en Hg Hcs; [done |].
  apply Forall_cons in Hcs as [[x Hx] Hcs].
  cbn [set_coefficients length]. unfold PyNum.py_float. rewrite Hx.
  cbn [mbind result_bind]. rewrite (DasFacts.getitem_Some _ _ _ _ Hg).
  cbn [mbind result_bind].
  set (hs1 := dict_set key _ hs).
  assert (exists en1, dict_get key hs1 = Some en1) as [en1 Hg1].
  { eexists. apply dict_get_set_eq. }
  destruct (IH (S idx) hs1 en1 Hg1 Hcs) as [Hlo Hhi].
  destruct (decide (idx < 6)) as [Hlt|Hge].
  - assert (exists nm, py_index coeffs (Z.of_nat idx) = Ok nm) as [nm ->].
    { do 6 (destruct idx as [|idx]; [by eexists |]). lia. }
    cbn [mbind result_bind]. split.
    + intros Hle. apply Hlo. lia.
    + intros _ Hgt. destruct cs as [|c' cs]; [cbn in Hgt; lia |].
      apply Hhi; [done | cbn [length] in *; lia].
  - assert (py_index coeffs (Z.of_nat idx) = Raise IndexError) as ->.
    { do 6 (destruct idx as [|idx]; [lia |]).
      unfold py_index. destruct (Z.ltb_spec (Z.of_nat (S (S (S (S (S (S idx))))))) 0);
        [lia |].
      rewrite Nat2Z.id. done. }
    split; [lia | done].
Qed.

(** A row of coefficients of a constant set holds six values at most: with
    values that are all numbers, the row is read when it has up to six of
    them, and a seventh raises [IndexError]. *)
Theorem constant_row_holds_six_values
    (st : hydro_state) (s name : string) (en : hydro_entry) :
  hydro_type st = Some "constant" -> set_name st = Some name ->
  dict_get name (hydro_sets st) = Some en ->
  is_row s = true ->
  Forall (fun c => is_Some (PyNum.float_of_string c)) (PyStr.split "," s) ->
  if length (PyStr.split "," s) <=? 6
  then is_ok (hydro_step st s) = true
  else hydro_step st s = Raise IndexError.
Proof.
  intros Ht Hn Hg Hrow Hnum. unfold is_row in Hrow.
  apply andb_true_iff in Hrow as [Hrow Ho].
  apply andb_true_iff in Hrow as [Hs Hd].
  apply negb_true_iff in Hs, Hd, Ho.
  unfold hydro_step. rewrite Hs, Hd, Ho, Ht, Hn.
  rewrite bool_decide_eq_true_2 by done.
  destruct (set_coefficients_bound name (PyStr.split "," s) 0
              (hydro_sets st) en Hg Hnum) as [Hlo Hhi].
  destruct (Nat.leb_spec (length (PyStr.split "," s)) 6) as [Hle|Hgt].
  - specialize (Hlo Hle).
    by destruct (set_coefficients name 0 (PyStr.split "," s) (hydro_sets st)).
  - rewrite Hhi; [done | | lia].
    intros E. rewrite E in Hgt. cbn in Hgt. lia.
Qed.

Lemma constant_row_holds_six_values_witness :
  hydro_step MoreSamples.hydro_constant "1.2,1.0,1.0,1.0,1.0,0.0,0.5"
  = Raise IndexError.
Proof.
  assert (Forall (fun c => is_Some (PyNum.float_of_string c))
            (PyStr.split "," "1.2,1.0,1.0,1.0,1.0,0.0,0.5")) as Hnum.
  { let l := eval vm_compute in (PyStr.split "," "1.2,1.0,1.0,1.0,1.0,0.0,0.5")
    in change (PyStr.split "," "1.2,1.0,1.0,1.0,1.0,0.0,0.5") with l.
    repeat (apply Forall_cons; split;
            [eexists; vm_compute; reflexivity |]).
    constructor. }
  exact (constant_row_holds_six_values MoreSamples.hydro_constant
           "1.2,1.0,1.0,1.0,1.0,0.0,0.5" "Slick Joint"
           (new_entry (Some "constant") None None)
           eq_refl eq_refl eq_refl eq_refl Hnum).
Defined.

(** *** Rows of [*ELEMENT SETS] *)

Lemma gen_prefix (rest : string) :
  PyStr.contains "GEN=" ("GEN=" +:+ rest) = true /\
  PyStr.replace "GEN=" "" ("GEN=" +:+ rest)
  = PyStr.replace_go "GEN=" "" 0 rest.
Proof.
  change ("GEN=" +:+ rest)
    with (String "G" (String "E" (String "N" (String "=" rest)))).
  split.
  - apply contains_of_startswith. cbn [PyStr.startswith].
    by rewrite !bool_decide_eq_true_2 by done.
  - unfold PyStr.replace. cbn [PyStr.replace_go PyStr.startswith].
    by rewrite !bool_decide_eq_true_2 by done.
Qed.

Lemma range_seq (a n : nat) : forall k,
  map (fun j => (Z.of_nat a + Z.of_nat j)%Z) (seq k n)
  = map Z.of_nat (seq (a + k) n).
Proof.
  induction n as [|n IH]; intros k; [done |].
  cbn [seq map]. f_equal; [lia |]. rewrite IH. by rewrite Nat.add_succ_r.
Qed.

(** A row [GEN=a,b] names the elements from [a] to [b], both included (none
    when [b] is below [a]), when [a] and [b] have no more digits than [int]
    reads (4300); beyond, the row raises [ValueError]. *)
Theorem gen_row_names_a_to_b (a b : nat) :
  element_row ("GEN=" +:+ PyStr.of_nat a +:+ "," +:+ PyStr.of_nat b)
  = if StrSpec.readable a && StrSpec.readable b
    then Ok (map Z.of_nat (seq a (b + 1 - a)))
    else Raise ValueError.
Proof.
  pose proof (StrFacts.of_nat_digits a) as Ha.
  pose proof (StrFacts.of_nat_digits b) as Hb.
  destruct (gen_prefix (PyStr.of_nat a +:+ "," +:+ PyStr.of_nat b)) as [Hc Hr].
  unfold element_row. rewrite Hc, Hr.
  rewrite StrFacts.replace_absent.
  2: { apply StrFacts.lacks_contains. rewrite !StrFacts.lacks_app.
       rewrite (StrFacts.digits_lack "G" (PyStr.of_nat a)) by done.
       by rewrite (StrFacts.digits_lack "G" (PyStr.of_nat b)) by done. }
  unfold PyStr.split.
  change (PyStr.of_nat a +:+ "," +:+ PyStr.of_nat b)
    with (PyStr.of_nat a +:+ String "," (PyStr.of_nat b)).
  rewrite (StrFacts.split_go_field_char ",") by by apply StrFacts.digits_lack.
  rewrite StrFacts.split_go_whole
    by by apply (StrFacts.lacks_contains "," ""), StrFacts.digits_lack.
  change (PyStr.rev "" +:+ PyStr.of_nat a) with (PyStr.of_nat a).
  change (PyStr.rev "" +:+ PyStr.of_nat b) with (PyStr.of_nat b).
  rewrite TabMore.py_index_second.
  change (py_index [PyStr.of_nat a; PyStr.of_nat b] 0)
    with (Ok (A:=string) (PyStr.of_nat a)).
  cbn [mbind result_bind]. rewrite !StrFacts.py_int_of_nat.
  destruct (StrSpec.readable a); [| done].
  destruct (StrSpec.readable b); [| done].
  cbn [mbind result_bind andb].
  unfold py_range. f_equal.
  replace (Z.to_nat (Z.of_nat b + 1 - Z.of_nat a)) with (b + 1 - a) by lia.
  rewrite range_seq. by rewrite Nat.add_0_r.
Qed.

Example gen_row_example :
  element_row "GEN=3,6" = Ok [3; 4; 5; 6]%Z /\
  StrSpec.readable 3 && StrSpec.readable 6 = true.
Proof. split; vm_compute; reflexivity. Qed.

End DasRows.
